(** * The small-block cache and aligned data allocator of NumPy's alloc.c

    A shallow embedding of the allocator core: the two bucket caches
    ([datacache], [dimcache]), the alignment state ([datamem_align],
    [datamem_align_mask]), the event hook, and the functions
    [_npy_alloc_cache], [_npy_free_cache], [_npy_clear_cache],
    [npy_alloc_cache], [npy_alloc_cache_zero], [npy_free_cache],
    [npy_alloc_cache_dim], [npy_free_cache_dim], [PyDataMem_SetEventHook],
    [get_aligned_size], [align_pointer], [get_original_pointer],
    [npy_datamem_get_align], [npy_datamem_set_align], [PyDataMem_NEW],
    [PyDataMem_NEW_ZEROED], [PyDataMem_FREE] and [PyDataMem_RENEW].

    Conventions.  The platform is LP64: [size_t], [npy_uintp], [npy_intp]
    and pointers are 64 bits wide and are modelled as [Z] with the
    wrap-around written out ([wrap]); [sizeof(void * )] is 8.  The C globals
    are the fields of [state]; every C function is a computation in the
    state monad [M].  The C library (malloc, calloc, realloc, free, memset,
    memmove) is the environment: memory is a byte map, live blocks are kept
    in a finite map, and the addresses the library hands out are read from a
    script carried by the state, so that theorems hold for every behaviour
    of the library and concrete runs can be evaluated. *)

From Stdlib Require Import ZArith Lia Bool.
From stdpp Require Import base numbers option list gmap.

Local Open Scope Z_scope.

(** ** Machine words *)

Definition modulus : Z := 2 ^ 64.
Definition wrap (z : Z) : Z := z mod modulus.
Definition sizeof_ptr : Z := 8.
Definition NULL : Z := 0.

(** ** Byte memory *)

Definition memory : Type := Z -> Z.

Definition in_range (a n x : Z) : bool := (a <=? x) && (x <? a + n).

Definition byte_of (v i : Z) : Z := Z.land (Z.shiftr v (8 * i)) 255.

(** [*(void ** )a = v], little endian. *)
Definition store_word (m : memory) (a v : Z) : memory :=
  fun x => if in_range a sizeof_ptr x then byte_of v (x - a) else m x.

Fixpoint load_bytes (m : memory) (a : Z) (n : nat) : Z :=
  match n with
  | O => 0
  | S n' => m a + 256 * load_bytes m (a + 1) n'
  end.

(** [*(void ** )a] *)
Definition load_word (m : memory) (a : Z) : Z := load_bytes m a 8.

Definition memset (m : memory) (dst c n : Z) : memory :=
  fun x => if in_range dst n x then c else m x.

(** The bytes are read from the memory as it was before the move, so that
    overlapping source and destination behave as memmove does. *)
Definition memmove (m : memory) (dst src n : Z) : memory :=
  fun x => if in_range dst n x then m (src + (x - dst)) else m x.

(** ** The allocator's globals and its environment *)

Definition NBUCKETS : Z := 1024.
Definition NBUCKETS_DIM : Z := 16.
Definition NCACHE : Z := 7.
Definition MIN_ALIGN : Z := 16.

Record cache_bucket : Type := Bucket {
  available : Z;
  ptrs : list Z
}.

Definition empty_bucket : cache_bucket :=
  {| available := 0; ptrs := replicate (Z.to_nat NCACHE) NULL |}.

Inductive sys_call : Type :=
| Malloc (size result : Z)
| Calloc (nmemb size result : Z)
| Realloc (ptr size result : Z)
| Free (ptr : Z).

Record hook_event : Type := Event {
  ev_old : Z;
  ev_new : Z;
  ev_size : Z;
  ev_user_data : Z
}.

Record state : Type := State {
  datacache : list cache_bucket;
  dimcache : list cache_bucket;
  _PyDataMem_eventhook : Z;
  _PyDataMem_eventhook_user_data : Z;
  datamem_align : Z;
  datamem_align_mask : Z;
  (* the environment *)
  mem : memory;
  blocks : gmap Z Z;          (* live blocks of the C library: base -> size *)
  script : list Z;            (* the addresses the C library will answer *)
  calls : list sys_call;      (* calls made to the C library, latest first *)
  events : list hook_event    (* invocations of the event hook, latest first *)
}.

Definition set_datacache (c : list cache_bucket) (s : state) : state :=
  State c (dimcache s) (_PyDataMem_eventhook s)
    (_PyDataMem_eventhook_user_data s) (datamem_align s)
    (datamem_align_mask s) (mem s) (blocks s) (script s) (calls s) (events s).

Definition set_dimcache (c : list cache_bucket) (s : state) : state :=
  State (datacache s) c (_PyDataMem_eventhook s)
    (_PyDataMem_eventhook_user_data s) (datamem_align s)
    (datamem_align_mask s) (mem s) (blocks s) (script s) (calls s) (events s).

Definition set_hook (h ud : Z) (s : state) : state :=
  State (datacache s) (dimcache s) h ud (datamem_align s)
    (datamem_align_mask s) (mem s) (blocks s) (script s) (calls s) (events s).

Definition set_align (a am : Z) (s : state) : state :=
  State (datacache s) (dimcache s) (_PyDataMem_eventhook s)
    (_PyDataMem_eventhook_user_data s) a am
    (mem s) (blocks s) (script s) (calls s) (events s).

Definition set_mem (m : memory) (s : state) : state :=
  State (datacache s) (dimcache s) (_PyDataMem_eventhook s)
    (_PyDataMem_eventhook_user_data s) (datamem_align s)
    (datamem_align_mask s) m (blocks s) (script s) (calls s) (events s).

Definition set_blocks (b : gmap Z Z) (s : state) : state :=
  State (datacache s) (dimcache s) (_PyDataMem_eventhook s)
    (_PyDataMem_eventhook_user_data s) (datamem_align s)
    (datamem_align_mask s) (mem s) b (script s) (calls s) (events s).

Definition set_script (l : list Z) (s : state) : state :=
  State (datacache s) (dimcache s) (_PyDataMem_eventhook s)
    (_PyDataMem_eventhook_user_data s) (datamem_align s)
    (datamem_align_mask s) (mem s) (blocks s) l (calls s) (events s).

Definition log_call (c : sys_call) (s : state) : state :=
  State (datacache s) (dimcache s) (_PyDataMem_eventhook s)
    (_PyDataMem_eventhook_user_data s) (datamem_align s)
    (datamem_align_mask s) (mem s) (blocks s) (script s) (c :: calls s)
    (events s).

Definition log_event (e : hook_event) (s : state) : state :=
  State (datacache s) (dimcache s) (_PyDataMem_eventhook s)
    (_PyDataMem_eventhook_user_data s) (datamem_align s)
    (datamem_align_mask s) (mem s) (blocks s) (script s) (calls s)
    (e :: events s).

(** ** The state monad *)

Definition M (A : Type) : Type := state -> A * state.

Definition ret {A : Type} (a : A) : M A := fun s => (a, s).

Definition bind {A B : Type} (c : M A) (k : A -> M B) : M B :=
  fun s => let '(a, s') := c s in k a s'.

Definition gets {A : Type} (f : state -> A) : M A := fun s => (f s, s).

Definition modify (f : state -> state) : M unit := fun s => (tt, f s).

Declare Scope alloc_scope.
Delimit Scope alloc_scope with alloc.
Notation "x <- c ;; k" := (bind c (fun x => k))
  (at level 100, c at next level, right associativity) : alloc_scope.
Notation "c ;; k" := (bind c (fun _ => k))
  (at level 100, right associativity) : alloc_scope.
Local Open Scope alloc_scope.

Fixpoint for_each {A : Type} (l : list A) (body : A -> M unit) : M unit :=
  match l with
  | [] => ret tt
  | x :: l' => body x ;; for_each l' body
  end.

(** ** The C library *)

Module Libc.

(** The next address the library answers; an exhausted script refuses. *)
Definition answer : M Z :=
  fun s => match script s with
           | [] => (NULL, s)
           | r :: rest => (r, set_script rest s)
           end.

Definition malloc (size : Z) : M Z :=
  r <- answer ;;
  modify (fun s => if r =? NULL then s
                   else set_blocks (<[r := size]> (blocks s)) s) ;;
  modify (log_call (Malloc size r)) ;;
  ret r.

(** calloc refuses a product that does not fit [size_t]. *)
Definition calloc (nmemb size : Z) : M Z :=
  a <- answer ;;
  let r := if modulus <=? nmemb * size then NULL else a in
  modify (fun s => if r =? NULL then s
                   else set_mem (memset (mem s) r 0 (nmemb * size))
                          (set_blocks (<[r := nmemb * size]> (blocks s)) s)) ;;
  modify (log_call (Calloc nmemb size r)) ;;
  ret r.

(** realloc either refuses (the old block stays as it is), resizes in
    place, or moves the block, copying the first min(old, new) bytes and
    releasing the old block.  The size of a block the library does not know
    counts as 0. *)
Definition realloc (ptr size : Z) : M Z :=
  r <- answer ;;
  modify (fun s =>
    if r =? NULL then s
    else if r =? ptr then set_blocks (<[r := size]> (blocks s)) s
    else
      let old := default 0 (blocks s !! ptr) in
      set_mem (memmove (mem s) r ptr (Z.min old size))
        (set_blocks (<[r := size]> (delete ptr (blocks s))) s)) ;;
  modify (log_call (Realloc ptr size r)) ;;
  ret r.

(** free(NULL) does nothing. *)
Definition free (ptr : Z) : M unit :=
  modify (fun s => if ptr =? NULL then s
                   else set_blocks (delete ptr (blocks s)) s) ;;
  modify (log_call (Free ptr)).

End Libc.

(** ** The event hook *)

(** [PyDataMem_SetEventHook(newhook, user_data, old_data)]: the result is
    the previous hook together with the previous user data (what the C
    function writes to [*old_data]). *)
Definition PyDataMem_SetEventHook (newhook user_data : Z) : M (Z * Z) :=
  temp <- gets _PyDataMem_eventhook ;;
  old_data <- gets _PyDataMem_eventhook_user_data ;;
  modify (set_hook newhook user_data) ;;
  ret (temp, old_data).

(** [if (_PyDataMem_eventhook != NULL) ( *_PyDataMem_eventhook)(old, new,
    size, _PyDataMem_eventhook_user_data)]: the hook is foreign code; its
    invocation is recorded in [events], and it is taken not to call back
    into the allocator. *)
Definition call_eventhook (old new size : Z) : M unit :=
  fun s =>
    if _PyDataMem_eventhook s =? NULL then (tt, s)
    else (tt, log_event
                (Event old new size (_PyDataMem_eventhook_user_data s)) s).

(** ** Aligned allocation *)

Definition get_aligned_size (size : Z) : M Z :=
  gets (fun s => wrap (size + sizeof_ptr + datamem_align_mask s)).

Definition align_pointer (ptr : Z) : M Z :=
  fun s =>
    let aligned_ptr :=
      Z.land (wrap (ptr + sizeof_ptr + datamem_align_mask s))
             (wrap (Z.lnot (datamem_align_mask s))) in
    (aligned_ptr,
     set_mem (store_word (mem s) (aligned_ptr - sizeof_ptr) ptr) s).

Definition get_original_pointer (aligned_ptr : Z) : M Z :=
  gets (fun s => load_word (mem s) (aligned_ptr - sizeof_ptr)).

Definition npy_datamem_get_align : M Z := gets datamem_align.

Definition PyDataMem_NEW (size : Z) : M Z :=
  asz <- get_aligned_size size ;;
  result <- Libc.malloc asz ;;
  result <- (if negb (result =? NULL) then align_pointer result
             else ret result) ;;
  call_eventhook NULL result size ;;
  ret result.

(** Modelled from the spec: [npy_mul_with_overflow_intp] of templ_common.h,
    which is not among the sources.  The spec asks for a checked multiply
    that detects when [count * elemSize] overflows the platform's size
    representation; the product is stored in any case. *)
Definition npy_mul_with_overflow_intp (a b : Z) : bool * Z :=
  (modulus <=? a * b, wrap (a * b)).

Definition PyDataMem_NEW_ZEROED (nelems elsize : Z) : M Z :=
  let '(overflow, size) := npy_mul_with_overflow_intp nelems elsize in
  result <- (if overflow then ret NULL
             else
               asz <- get_aligned_size size ;;
               result <- Libc.calloc asz 1 ;;
               if negb (result =? NULL) then align_pointer result
               else ret result) ;;
  call_eventhook NULL result (wrap (nelems * elsize)) ;;
  ret result.

Definition PyDataMem_FREE (ptr : Z) : M unit :=
  (if negb (ptr =? NULL)
   then original <- get_original_pointer ptr ;; Libc.free original
   else ret tt) ;;
  call_eventhook ptr NULL 0.

Definition PyDataMem_RENEW (ptr size : Z) : M Z :=
  original_ptr <- get_original_pointer ptr ;;
  asz <- get_aligned_size size ;;
  base_result <- Libc.realloc original_ptr asz ;;
  result <- (if base_result =? NULL then ret NULL
             else if base_result =? original_ptr then ret ptr
             else
               let offset := wrap (ptr - original_ptr) in
               result <- align_pointer base_result ;;
               let new_offset := wrap (result - base_result) in
               (if negb (new_offset =? offset)
                then modify (fun s =>
                       set_mem (memmove (mem s) result
                                  (wrap (base_result + offset)) size) s)
                else ret tt) ;;
               ret result) ;;
  call_eventhook ptr result size ;;
  ret result.

(** Modelled from the spec: [PyArray_malloc] and [PyArray_free] are macros
    of numpy/ndarraytypes.h, which is not among the sources.  They are the
    spec's underlying allocator and deallocator of the dimension cache (the
    source calls it "a different allocator"): the platform's allocator,
    here the C library's malloc and free, with no alignment step and no
    event hook. *)
Definition PyArray_malloc (size : Z) : M Z := Libc.malloc size.
Definition PyArray_free (ptr : Z) : M unit := Libc.free ptr.

(** ** The bucket caches *)

(** The [cache_bucket * cache] argument of the base functions: it is
    [datacache] or [dimcache], as their assertion says. *)
Inductive cache_ref : Type := Datacache | Dimcache.

Definition get_cache (c : cache_ref) (s : state) : list cache_bucket :=
  match c with Datacache => datacache s | Dimcache => dimcache s end.

Definition set_cache (c : cache_ref) (l : list cache_bucket) (s : state)
  : state :=
  match c with Datacache => set_datacache l s | Dimcache => set_dimcache l s end.

(** [cache[nelem]]; indices outside the table, which C leaves undefined,
    read an empty bucket and write nothing. *)
Definition bucket (c : cache_ref) (nelem : Z) (s : state) : cache_bucket :=
  default empty_bucket (get_cache c s !! Z.to_nat nelem).

Definition set_bucket (c : cache_ref) (nelem : Z) (b : cache_bucket)
  (s : state) : state :=
  set_cache c (<[Z.to_nat nelem := b]> (get_cache c s)) s.

(** [b.ptrs[i]] *)
Definition ptr_at (b : cache_bucket) (i : Z) : Z :=
  default NULL (ptrs b !! Z.to_nat i).

Definition _npy_alloc_cache (nelem esz msz : Z) (cache : cache_ref)
  (alloc : Z -> M Z) : M Z :=
  fun s =>
    let b := bucket cache nelem s in
    if (nelem <? msz) && (0 <? available b) then
      let a := available b - 1 in
      (ptr_at b a, set_bucket cache nelem (Bucket a (ptrs b)) s)
    else alloc (wrap (nelem * esz)) s.

Definition _npy_free_cache (p nelem msz : Z) (cache : cache_ref)
  (dealloc : Z -> M unit) : M unit :=
  fun s =>
    let b := bucket cache nelem s in
    if negb (p =? NULL) && (nelem <? msz) && (available b <? NCACHE) then
      (tt, set_bucket cache nelem
             (Bucket (available b + 1)
                     (<[Z.to_nat (available b) := p]> (ptrs b))) s)
    else dealloc p s.

(** One iteration of the outer loop of [_npy_clear_cache]: the entries
    [ptrs[0 .. available-1]] go to [dealloc] in this order, then
    [available] becomes 0 (the slots keep their stale contents). *)
Definition clear_bucket (cache : cache_ref) (dealloc : Z -> M unit)
  (nelem : Z) : M unit :=
  b <- gets (bucket cache nelem) ;;
  for_each (take (Z.to_nat (available b)) (ptrs b)) dealloc ;;
  modify (fun s => set_bucket cache nelem
                     (Bucket 0 (ptrs (bucket cache nelem s))) s).

Definition _npy_clear_cache (msz : Z) (cache : cache_ref)
  (dealloc : Z -> M unit) : M unit :=
  for_each (Z.of_nat <$> seq 0 (Z.to_nat msz)) (clear_bucket cache dealloc).

Definition npy_alloc_cache (sz : Z) : M Z :=
  _npy_alloc_cache sz 1 NBUCKETS Datacache PyDataMem_NEW.

Definition npy_alloc_cache_zero (sz : Z) : M Z :=
  if sz <? NBUCKETS then
    p <- _npy_alloc_cache sz 1 NBUCKETS Datacache PyDataMem_NEW ;;
    (if negb (p =? NULL)
     then modify (fun s => set_mem (memset (mem s) p 0 sz) s)
     else ret tt) ;;
    ret p
  else PyDataMem_NEW_ZEROED sz 1.

Definition npy_free_cache (p sz : Z) : M unit :=
  _npy_free_cache p sz NBUCKETS Datacache PyDataMem_FREE.

Definition npy_alloc_cache_dim (sz : Z) : M Z :=
  let sz := if sz <? 2 then 2 else sz in
  _npy_alloc_cache sz sizeof_ptr NBUCKETS_DIM Dimcache PyArray_malloc.

Definition npy_free_cache_dim (p sz : Z) : M unit :=
  let sz := if sz <? 2 then 2 else sz in
  _npy_free_cache p sz NBUCKETS_DIM Dimcache PyArray_free.

Definition npy_datamem_set_align (align : Z) : M Z :=
  let align_mask := wrap (align - 1) in
  if align <? MIN_ALIGN then ret (-1)
  else if negb (Z.lxor align align_mask =? Z.lor align align_mask)
  then ret (-1)
  else
    old <- gets datamem_align ;;
    (if old <? align
     then _npy_clear_cache NBUCKETS Datacache PyDataMem_FREE
     else ret tt) ;;
    modify (set_align align align_mask) ;;
    ret 0.

(** ** Programs over the interface *)

Inductive op : Type :=
| AllocData (sz : Z)
| AllocDataZero (sz : Z)
| FreeData (p sz : Z)
| AllocDims (sz : Z)
| FreeDims (p sz : Z)
| SetAlign (align : Z)
| SetHook (hook user_data : Z)
| New (size : Z)
| NewZeroed (nelems elsize : Z)
| Renew (ptr size : Z)
| FreeRaw (ptr : Z).

Definition exec (o : op) : M unit :=
  match o with
  | AllocData sz => npy_alloc_cache sz ;; ret tt
  | AllocDataZero sz => npy_alloc_cache_zero sz ;; ret tt
  | FreeData p sz => npy_free_cache p sz
  | AllocDims sz => npy_alloc_cache_dim sz ;; ret tt
  | FreeDims p sz => npy_free_cache_dim p sz
  | SetAlign a => npy_datamem_set_align a ;; ret tt
  | SetHook h ud => PyDataMem_SetEventHook h ud ;; ret tt
  | New size => PyDataMem_NEW size ;; ret tt
  | NewZeroed n e => PyDataMem_NEW_ZEROED n e ;; ret tt
  | Renew p size => PyDataMem_RENEW p size ;; ret tt
  | FreeRaw p => PyDataMem_FREE p
  end.

Definition run (ops : list op) (s : state) : state :=
  snd (for_each ops exec s).

(** The state at program start: the static tables are zero-filled, no hook
    is set, the alignment is [MIN_ALIGN]; the memory contents and the
    library's script are the environment's. *)
Definition init_state (m : memory) (sc : list Z) : state :=
  {| datacache := replicate (Z.to_nat NBUCKETS) empty_bucket;
     dimcache := replicate (Z.to_nat NBUCKETS_DIM) empty_bucket;
     _PyDataMem_eventhook := NULL;
     _PyDataMem_eventhook_user_data := NULL;
     datamem_align := MIN_ALIGN;
     datamem_align_mask := MIN_ALIGN - 1;
     mem := m;
     blocks := ∅;
     script := sc;
     calls := [];
     events := [] |}.

(** ** Predicates on states *)

Definition is_power_of_two (a : Z) : Prop := exists k, 0 <= k /\ a = 2 ^ k.

(** The alignment state as [npy_datamem_set_align] leaves it. *)
Definition align_ok (s : state) : Prop :=
  is_power_of_two (datamem_align s) /\
  MIN_ALIGN <= datamem_align s < modulus /\
  datamem_align_mask s = datamem_align s - 1.

Definition bucket_ok (b : cache_bucket) : Prop :=
  0 <= available b <= NCACHE /\ length (ptrs b) = Z.to_nat NCACHE.

(** The shape of the two static tables. *)
Definition cache_inv (s : state) : Prop :=
  length (datacache s) = Z.to_nat NBUCKETS /\
  length (dimcache s) = Z.to_nat NBUCKETS_DIM /\
  Forall bucket_ok (datacache s) /\
  Forall bucket_ok (dimcache s).

(** Every block held in the data cache is a multiple of the alignment. *)
Definition cache_aligned (s : state) : Prop :=
  forall n i, 0 <= i < available (bucket Datacache n s) ->
    ptr_at (bucket Datacache n s) i mod datamem_align s = 0.

(** [free_data] of the blocks [ps], all of size class [n], one after the
    other. *)
Definition free_all (ps : list Z) (n : Z) : M unit :=
  for_each ps (fun p => npy_free_cache p n).

(** A computation that leaves both cache tables as they are. *)
Definition keeps_caches {A : Type} (c : M A) : Prop :=
  forall s, datacache (snd (c s)) = datacache s /\
            dimcache (snd (c s)) = dimcache s.

(** ** Concrete runs *)

(** Memory as the program finds it: every byte is 0xAA. *)
Definition garbage : memory := fun _ => 170.

(** A hook (at address 77, user data 5) is registered. *)
Definition hooked : state :=
  snd (PyDataMem_SetEventHook 77 5 (init_state garbage [4096])).




(** The alignment is 32 and the library will answer 4112. *)
Definition dims_state : state := run [SetAlign 32] (init_state garbage [4112]).

(** A block is allocated under alignment 16, the alignment is raised to 32,
    then the block is released. *)
Definition stale_state : state :=
  run [AllocData 8; SetAlign 32; FreeData 4112 8] (init_state garbage [4096]).

(** The caller writes 1, 2, ..., n to the [n] bytes at [p]. *)
Definition payload (p n : Z) (m : memory) : memory :=
  fun x => if in_range p n x then 1 + (x - p) else m x.

(** Under alignment 32: a block of 16 bytes, its payload written, then
    resized to 32 bytes, the library moving it from 4112 to 8192. *)
Definition renew_alloc : Z * state :=
  PyDataMem_NEW 16 (run [SetAlign 32] (init_state garbage [4112; 8192])).

Definition renew_before : state :=
  set_mem (payload (fst renew_alloc) 16 (mem (snd renew_alloc)))
    (snd renew_alloc).

Definition renew_after : Z * state :=
  PyDataMem_RENEW (fst renew_alloc) 32 renew_before.

(** The same, the library moving the block from 4096 (offset 32) to 8208
    (offset 16). *)
Definition renew_down_alloc : Z * state :=
  PyDataMem_NEW 16 (run [SetAlign 32] (init_state garbage [4096; 8208])).

Definition renew_down_before : state :=
  set_mem (payload (fst renew_down_alloc) 16 (mem (snd renew_down_alloc)))
    (snd renew_down_alloc).

Definition zeroed_wrapped : Z * state :=
  PyDataMem_NEW_ZEROED (2 ^ 64 - 10) 1 (init_state garbage [4096]).





(** The hook and the alignment are the same in both states. *)
Definition same_settings (s s' : state) : Prop :=
  _PyDataMem_eventhook s' = _PyDataMem_eventhook s /\
  _PyDataMem_eventhook_user_data s' = _PyDataMem_eventhook_user_data s /\
  datamem_align s' = datamem_align s /\
  datamem_align_mask s' = datamem_align_mask s.

(** A computation that leaves the hook and the alignment as they are. *)
Definition keeps_settings {A : Type} (c : M A) : Prop :=
  forall s, same_settings s (snd (c s)).

(** The arguments of an operation have their C type: an alignment is a
    [size_t]. *)
Definition op_ok (o : op) : Prop :=
  match o with
  | SetAlign a => 0 <= a < modulus
  | _ => True
  end.

(** Every address the program releases to the data cache is a multiple of
    the alignment in force at the release. *)
Fixpoint releases_aligned (ops : list op) (s : state) : Prop :=
  match ops with
  | [] => True
  | o :: ops' =>
      match o with
      | FreeData p _ => p mod datamem_align s = 0
      | _ => True
      end /\ releases_aligned ops' (snd (exec o s))
  end.

(** A block is allocated and released under alignment 16, the alignment is
    raised to 32 (which purges it), and a second block is allocated and
    released under 32; in [aligned_run_lowered] the alignment is then
    lowered to 16 again. *)
Definition aligned_run : list op :=
  [AllocData 8; FreeData 4112 8; SetAlign 32; AllocData 8; FreeData 8224 8].

Definition aligned_run_lowered : list op := aligned_run ++ [SetAlign 16].

(** ** Notions used by the further properties *)

(** Every slot below [available] holds a block. *)
Definition cache_nonnull (s : state) : Prop :=
  forall cache n i, 0 <= i < available (bucket cache n s) ->
    ptr_at (bucket cache n s) i <> NULL.

(** [k] allocations of size class [n] in a row; the addresses returned, in
    order. *)
Fixpoint alloc_n (k : nat) (n : Z) : M (list Z) :=
  match k with
  | O => ret []
  | S k' => p <- npy_alloc_cache n ;; ps <- alloc_n k' n ;; ret (p :: ps)
  end.

(** The bucket of the dimension cache that serves [sz] elements. *)
Definition dim_class (sz : Z) : Z := if sz <? 2 then 2 else sz.

(** The blocks a table holds, bucket by bucket, each from slot 0 up. *)
Definition cached_blocks (l : list cache_bucket) : list Z :=
  concat (map (fun b => take (Z.to_nat (available b)) (ptrs b)) l).

(** What [free] is called with for the user address [p]. *)
Definition free_of (m : memory) (p : Z) : sys_call :=
  Free (load_word m (p - sizeof_ptr)).

(** What the hook is called with when [p] is released. *)
Definition release_event (ud p : Z) : hook_event := Event p NULL 0 ud.

Definition is_SetHook (o : op) : bool :=
  match o with SetHook _ _ => true | _ => false end.

(** No hook is registered and the hook has seen what [E] lists. *)
Definition silent (E : list hook_event) (s : state) : Prop :=
  _PyDataMem_eventhook s = NULL /\ events s = E.

Definition is_dims_op (o : op) : bool :=
  match o with AllocDims _ | FreeDims _ _ => true | _ => false end.

(** What the dimension operations have no business with: the data cache,
    the memory, the hook's record and the settings. *)
Definition data_side_kept (s s' : state) : Prop :=
  datacache s' = datacache s /\ mem s' = mem s /\ events s' = events s /\
  same_settings s s'.

(** The library has nothing to give: its script is exhausted or answers
    NULL next. *)
Definition library_refuses (s : state) : Prop :=
  script s = [] \/ exists rest, script s = NULL :: rest.

(** What the hook is told of a call, if one is registered. *)
Definition told (inp outp size : Z) (s : state) : list hook_event :=
  if _PyDataMem_eventhook s =? NULL then events s
  else Event inp outp size (_PyDataMem_eventhook_user_data s) :: events s.

(** * Properties *)

(** ** Runs of the code on small inputs *)

Example first_allocation :
  fst (npy_alloc_cache 8 (init_state garbage [4096])) = 4112 /\
  calls (snd (npy_alloc_cache 8 (init_state garbage [4096])))
  = [Malloc 31 4096] /\
  fst (get_original_pointer 4112
         (snd (npy_alloc_cache 8 (init_state garbage [4096])))) = 4096.
Proof. vm_compute. repeat split. Qed.

Example dims_minimum_two :
  calls (snd (npy_alloc_cache_dim 1 (init_state garbage [4096])))
  = [Malloc 16 4096] /\
  calls (snd (npy_alloc_cache_dim 3 (init_state garbage [4096])))
  = [Malloc 24 4096].
Proof. vm_compute. repeat split. Qed.

Example hook_swap :
  fst (PyDataMem_SetEventHook 99 6 hooked) = (77, 5) /\
  fst (PyDataMem_SetEventHook 77 5 (init_state garbage [])) = (NULL, NULL).
Proof. vm_compute. repeat split. Qed.

Example large_request_bypasses_cache :
  datacache (run [AllocData 2000; FreeData 4112 2000]
               (init_state garbage [4096]))
  = datacache (init_state garbage [4096]) /\
  calls (run [AllocData 2000; FreeData 4112 2000] (init_state garbage [4096]))
  = [Free 4096; Malloc 2023 4096].
Proof. vm_compute. repeat split. Qed.

(** ** Words, bits and bytes *)

Lemma modulus_eq : modulus = 18446744073709551616.
Proof. reflexivity. Qed.

Lemma wrap_small z : 0 <= z < modulus -> wrap z = z.
Proof. intros H. unfold wrap. apply Z.mod_small. exact H. Qed.

Lemma wrap_range z : 0 <= wrap z < modulus.
Proof. unfold wrap. apply Z.mod_pos_bound. reflexivity. Qed.

Lemma wrap_land z : wrap z = Z.land z (Z.ones 64).
Proof. unfold wrap, modulus. symmetry. apply Z.land_ones. lia. Qed.

(** [x & ~mask] clears the low [k] bits. *)
Lemma land_lnot_mask x k :
  0 <= k -> 0 <= x < modulus ->
  Z.land x (wrap (Z.lnot (2 ^ k - 1))) = x - x mod 2 ^ k.
Proof.
  intros Hk Hx.
  rewrite wrap_land, (Z.land_comm (Z.lnot _)), Z.land_assoc.
  rewrite <- wrap_land, (wrap_small x) by exact Hx.
  replace (2 ^ k - 1) with (Z.ones k) by (rewrite Z.ones_equiv; lia).
  rewrite <- Z.ldiff_land, Z.ldiff_ones_r by exact Hk.
  rewrite Z.shiftr_div_pow2, Z.shiftl_mul_pow2 by exact Hk.
  pose proof (Z.div_mod x (2 ^ k)) as E.
  assert (0 < 2 ^ k) by (apply Z.pow_pos_nonneg; lia).
  lia.
Qed.

Lemma pow2_land a : 0 < a -> (Z.land a (a - 1) = 0 <-> is_power_of_two a).
Proof.
  intros Ha. split.
  - intros H0. exists (Z.log2 a). split; [apply Z.log2_nonneg|].
    destruct (Z.log2_spec a Ha) as [Hlo Hhi].
    destruct (Z.eq_dec a (2 ^ Z.log2 a)) as [E|NE]; [exact E|exfalso].
    assert (L : Z.log2 (a - 1) = Z.log2 a).
    { apply Z.log2_unique; [apply Z.log2_nonneg|].
      rewrite <- Z.add_1_r in *. lia. }
    assert (Hb : Z.testbit (Z.land a (a - 1)) (Z.log2 a) = true).
    { rewrite Z.land_spec, Z.bit_log2 by exact Ha. simpl.
      rewrite <- L. apply Z.bit_log2.
      pose proof (Z.pow_pos_nonneg 2 (Z.log2 a)).
      pose proof (Z.log2_nonneg a). lia. }
    rewrite H0 in Hb. rewrite Z.bits_0 in Hb. discriminate.
  - intros (k & Hk & ->).
    replace (2 ^ k - 1) with (Z.ones k) by (rewrite Z.ones_equiv; lia).
    rewrite Z.land_ones by exact Hk. apply Z.mod_same.
    pose proof (Z.pow_pos_nonneg 2 k). lia.
Qed.

(** The test of [npy_datamem_set_align]. *)
Lemma pow2_test a :
  0 < a -> (Z.lxor a (a - 1) =? Z.lor a (a - 1)) = true <-> is_power_of_two a.
Proof.
  intros Ha. rewrite Z.eqb_eq, <- pow2_land by exact Ha.
  pose proof (Z.sub_lor_land a (a - 1)). lia.
Qed.

Lemma byte_of_range v i : 0 <= byte_of v i < 256.
Proof.
  unfold byte_of. change 255 with (Z.ones 8). rewrite Z.land_ones by lia.
  apply Z.mod_pos_bound. reflexivity.
Qed.

Lemma load_store_bytes m a v (n : nat) (j : Z) :
  0 <= j -> j + Z.of_nat n <= 8 -> 0 <= v ->
  load_bytes (store_word m a v) (a + j) n
  = (v / 2 ^ (8 * j)) mod 2 ^ (8 * Z.of_nat n).
Proof.
  revert j. induction n as [|n IH]; intros j Hj Hn Hv.
  - simpl. rewrite Z.mod_1_r. reflexivity.
  - cbn [load_bytes]. replace (a + j + 1) with (a + (j + 1)) by lia.
    rewrite IH by lia.
    unfold store_word at 1, in_range, sizeof_ptr.
    replace ((a <=? a + j) && (a + j <? a + 8)) with true
      by (symmetry; apply andb_true_iff; split; [apply Z.leb_le | apply Z.ltb_lt]; lia).
    unfold byte_of. replace (a + j - a) with j by lia.
    change 255 with (Z.ones 8). rewrite Z.land_ones, Z.shiftr_div_pow2 by lia.
    replace (8 * (j + 1)) with (8 * j + 8) by lia.
    rewrite Z.pow_add_r by lia.
    rewrite <- Z.div_div by (try apply Z.pow_pos_nonneg; lia).
    set (q := v / 2 ^ (8 * j)).
    replace (8 * Z.of_nat (S n)) with (8 + 8 * Z.of_nat n) by lia.
    rewrite Z.pow_add_r by lia. change (2 ^ 8) with 256.
    rewrite (Z.rem_mul_r q 256) by (try apply Z.pow_pos_nonneg; lia).
    reflexivity.
Qed.

Lemma load_store_word m a v :
  0 <= v < modulus -> load_word (store_word m a v) a = v.
Proof.
  intros Hv. unfold load_word.
  replace a with (a + 0) at 2 by lia.
  rewrite load_store_bytes by lia.
  change (2 ^ (8 * 0)) with 1. rewrite Z.div_1_r.
  apply Z.mod_small. exact Hv.
Qed.

(** ** Computations that do not touch the caches *)

Lemma keeps_get_cache {A} (c : M A) (r : cache_ref) s :
  keeps_caches c -> get_cache r (snd (c s)) = get_cache r s.
Proof. intros H. destruct (H s) as [H1 H2]. destruct r; assumption. Qed.

Lemma keeps_bucket {A} (c : M A) (r : cache_ref) n s :
  keeps_caches c -> bucket r n (snd (c s)) = bucket r n s.
Proof. intros H. unfold bucket. rewrite keeps_get_cache by exact H. reflexivity. Qed.

Lemma keeps_bind {A B} (c : M A) (k : A -> M B) :
  keeps_caches c -> (forall a, keeps_caches (k a)) -> keeps_caches (bind c k).
Proof.
  intros Hc Hk s. unfold bind. destruct (c s) as [a s1] eqn:E.
  destruct (Hk a s1) as [H1 H2]. destruct (Hc s) as [H3 H4].
  rewrite E in H3, H4. simpl in H3, H4. split; congruence.
Qed.

Lemma keeps_ret {A} (a : A) : keeps_caches (ret a).
Proof. intros s. split; reflexivity. Qed.

Lemma keeps_gets {A} (f : state -> A) : keeps_caches (gets f).
Proof. intros s. split; reflexivity. Qed.

Lemma keeps_modify f :
  (forall s, datacache (f s) = datacache s /\ dimcache (f s) = dimcache s) ->
  keeps_caches (modify f).
Proof. intros H s. apply H. Qed.

Lemma keeps_if {A} (b : bool) (c1 c2 : M A) :
  keeps_caches c1 -> keeps_caches c2 -> keeps_caches (if b then c1 else c2).
Proof. destruct b; auto. Qed.

Lemma keeps_for_each {A} (l : list A) (body : A -> M unit) :
  (forall x, keeps_caches (body x)) -> keeps_caches (for_each l body).
Proof.
  intros H. induction l as [|x l IH]; simpl.
  - apply keeps_ret.
  - apply keeps_bind; auto.
Qed.

Create HintDb keeps.
#[local] Hint Resolve keeps_ret keeps_gets : keeps.

Ltac keeps :=
  repeat first
    [ solve [auto with keeps nocore]
    | apply keeps_bind; [|intros ?]
    | apply keeps_if
    | apply keeps_modify; intros ?;
      repeat match goal with
             | |- context [if ?b then _ else _] => destruct b
             end; split; reflexivity ].

Lemma keeps_answer : keeps_caches Libc.answer.
Proof. intros s. unfold Libc.answer. destruct (script s); split; reflexivity. Qed.
#[local] Hint Resolve keeps_answer : keeps.

Lemma keeps_malloc size : keeps_caches (Libc.malloc size).
Proof. unfold Libc.malloc. keeps. Qed.

Lemma keeps_calloc n size : keeps_caches (Libc.calloc n size).
Proof. unfold Libc.calloc. keeps. Qed.

Lemma keeps_realloc p size : keeps_caches (Libc.realloc p size).
Proof. unfold Libc.realloc. keeps. Qed.

Lemma keeps_free p : keeps_caches (Libc.free p).
Proof. unfold Libc.free. keeps. Qed.

Lemma keeps_call_eventhook o n sz : keeps_caches (call_eventhook o n sz).
Proof.
  intros s. unfold call_eventhook.
  destruct (_ =? _); split; reflexivity.
Qed.

Lemma keeps_align_pointer p : keeps_caches (align_pointer p).
Proof. intros s. split; reflexivity. Qed.
#[local] Hint Resolve keeps_malloc keeps_calloc keeps_realloc keeps_free
  keeps_call_eventhook keeps_align_pointer : keeps.

Lemma keeps_NEW size : keeps_caches (PyDataMem_NEW size).
Proof. unfold PyDataMem_NEW, get_aligned_size. keeps. Qed.

Lemma keeps_NEW_ZEROED n e : keeps_caches (PyDataMem_NEW_ZEROED n e).
Proof.
  unfold PyDataMem_NEW_ZEROED, get_aligned_size.
  destruct (npy_mul_with_overflow_intp n e) as [o size]. keeps.
Qed.

Lemma keeps_FREE p : keeps_caches (PyDataMem_FREE p).
Proof. unfold PyDataMem_FREE, get_original_pointer. keeps. Qed.

Lemma keeps_RENEW p size : keeps_caches (PyDataMem_RENEW p size).
Proof.
  unfold PyDataMem_RENEW, get_original_pointer, get_aligned_size. keeps.
Qed.

Lemma keeps_SetEventHook h ud : keeps_caches (PyDataMem_SetEventHook h ud).
Proof. unfold PyDataMem_SetEventHook. keeps. Qed.

Lemma keeps_PyArray_malloc size : keeps_caches (PyArray_malloc size).
Proof. apply keeps_malloc. Qed.

Lemma keeps_PyArray_free p : keeps_caches (PyArray_free p).
Proof. apply keeps_free. Qed.
#[local] Hint Resolve keeps_NEW keeps_NEW_ZEROED keeps_FREE keeps_RENEW
  keeps_SetEventHook keeps_PyArray_malloc keeps_PyArray_free : keeps.

(** ** The shape of the tables is invariant *)

Lemma bucket_ok_empty : bucket_ok empty_bucket.
Proof. split; [unfold NCACHE; simpl; lia | reflexivity]. Qed.

Lemma bucket_ok_lookup (c : cache_ref) n s :
  cache_inv s -> bucket_ok (bucket c n s).
Proof.
  intros (_ & _ & Hd & Hm). unfold bucket.
  destruct (get_cache c s !! Z.to_nat n) as [b|] eqn:E; simpl.
  - destruct c; simpl in E;
      [eapply (Forall_lookup_1 _ _ _ _ Hd E) | eapply (Forall_lookup_1 _ _ _ _ Hm E)].
  - apply bucket_ok_empty.
Qed.

Lemma cache_inv_set_bucket (c : cache_ref) n b s :
  cache_inv s -> bucket_ok b -> cache_inv (set_bucket c n b s).
Proof.
  intros (L1 & L2 & Hd & Hm) Hb. unfold cache_inv, set_bucket.
  destruct c; simpl; rewrite ?length_insert;
    repeat split; auto using Forall_insert.
Qed.

Lemma cache_inv_keeps {A} (c : M A) s :
  keeps_caches c -> cache_inv s -> cache_inv (snd (c s)).
Proof.
  intros H Hs. destruct (H s) as [H1 H2].
  unfold cache_inv in *. rewrite H1, H2. exact Hs.
Qed.

Lemma for_each_inv {A} (P : state -> Prop) (l : list A) (body : A -> M unit) :
  (forall x s, P s -> P (snd (body x s))) ->
  forall s, P s -> P (snd (for_each l body s)).
Proof.
  intros H. induction l as [|x l IH]; intros s Hs; simpl.
  - exact Hs.
  - unfold bind. specialize (H x s Hs). destruct (body x s) as [[] s1].
    apply IH. exact H.
Qed.

Lemma cache_inv_alloc nelem esz msz c alloc s :
  (forall n, keeps_caches (alloc n)) ->
  cache_inv s -> cache_inv (snd (_npy_alloc_cache nelem esz msz c alloc s)).
Proof.
  intros Ha Hs. unfold _npy_alloc_cache.
  pose proof (bucket_ok_lookup c nelem s Hs) as [Hav Hlen].
  destruct ((nelem <? msz) && (0 <? available (bucket c nelem s))) eqn:E.
  - simpl. apply cache_inv_set_bucket; [exact Hs|].
    apply andb_true_iff in E as [_ E]. apply Z.ltb_lt in E.
    split; simpl; [lia | exact Hlen].
  - apply cache_inv_keeps; auto.
Qed.

Lemma cache_inv_free p nelem msz c dealloc s :
  (forall q, keeps_caches (dealloc q)) ->
  cache_inv s -> cache_inv (snd (_npy_free_cache p nelem msz c dealloc s)).
Proof.
  intros Hd Hs. unfold _npy_free_cache.
  pose proof (bucket_ok_lookup c nelem s Hs) as [Hav Hlen].
  destruct (negb (p =? NULL) && (nelem <? msz)
            && (available (bucket c nelem s) <? NCACHE)) eqn:E.
  - simpl. apply cache_inv_set_bucket; [exact Hs|].
    apply andb_true_iff in E as [_ E]. apply Z.ltb_lt in E.
    split; simpl; [lia | rewrite length_insert; exact Hlen].
  - apply cache_inv_keeps; auto.
Qed.

Lemma cache_inv_clear_bucket c dealloc nelem s :
  (forall q, keeps_caches (dealloc q)) ->
  cache_inv s -> cache_inv (snd (clear_bucket c dealloc nelem s)).
Proof.
  intros Hd Hs. unfold clear_bucket, bind, gets, modify.
  pose proof (cache_inv_keeps
                (for_each (take (Z.to_nat (available (bucket c nelem s)))
                             (ptrs (bucket c nelem s))) dealloc) s
                (keeps_for_each _ _ Hd) Hs) as H1.
  destruct (for_each _ dealloc s) as [[] s1]. simpl in *.
  apply cache_inv_set_bucket; [exact H1|].
  destruct (bucket_ok_lookup c nelem s1 H1) as [_ Hlen].
  split; simpl; [unfold NCACHE; lia | exact Hlen].
Qed.

Lemma cache_inv_clear msz c dealloc s :
  (forall q, keeps_caches (dealloc q)) ->
  cache_inv s -> cache_inv (snd (_npy_clear_cache msz c dealloc s)).
Proof.
  intros Hd. unfold _npy_clear_cache. apply for_each_inv.
  intros x s'. apply cache_inv_clear_bucket. exact Hd.
Qed.

Lemma cache_inv_set_align a s :
  cache_inv s -> cache_inv (snd (npy_datamem_set_align a s)).
Proof.
  intros Hs. unfold npy_datamem_set_align.
  destruct (a <? MIN_ALIGN); [exact Hs|].
  destruct (negb _); [exact Hs|].
  unfold bind, gets, modify, ret.
  destruct (datamem_align s <? a).
  - pose proof (cache_inv_clear NBUCKETS Datacache PyDataMem_FREE s
                  keeps_FREE Hs) as H.
    destruct (_npy_clear_cache _ _ _ s) as [[] s1]. exact H.
  - exact Hs.
Qed.

Lemma cache_inv_exec o s : cache_inv s -> cache_inv (snd (exec o s)).
Proof.
  intros Hs. destruct o; simpl.
  - unfold bind, ret, npy_alloc_cache.
    pose proof (cache_inv_alloc sz 1 NBUCKETS Datacache PyDataMem_NEW s
                  keeps_NEW Hs) as H.
    destruct (_npy_alloc_cache _ _ _ _ _ s). exact H.
  - unfold npy_alloc_cache_zero. destruct (sz <? NBUCKETS).
    + unfold bind, ret, modify.
      pose proof (cache_inv_alloc sz 1 NBUCKETS Datacache PyDataMem_NEW s
                    keeps_NEW Hs) as H.
      destruct (_npy_alloc_cache _ _ _ _ _ s) as [p s1].
      destruct (negb (p =? NULL)); exact H.
    + apply (cache_inv_keeps (PyDataMem_NEW_ZEROED sz 1 ;; ret tt)); [keeps | exact Hs].
  - apply cache_inv_free; [apply keeps_FREE | exact Hs].
  - unfold bind, ret, npy_alloc_cache_dim.
    match goal with |- context [_npy_alloc_cache ?a ?b ?c ?d ?e s] =>
      pose proof (cache_inv_alloc a b c d e s keeps_PyArray_malloc Hs) as H;
      destruct (_npy_alloc_cache a b c d e s) end.
    exact H.
  - apply cache_inv_free; [apply keeps_PyArray_free | exact Hs].
  - unfold bind, ret.
    pose proof (cache_inv_set_align align s Hs) as H.
    destruct (npy_datamem_set_align align s). exact H.
  - apply (cache_inv_keeps (PyDataMem_SetEventHook hook user_data ;; ret tt)); [keeps | exact Hs].
  - apply (cache_inv_keeps (PyDataMem_NEW size ;; ret tt)); [keeps | exact Hs].
  - apply (cache_inv_keeps (PyDataMem_NEW_ZEROED nelems elsize ;; ret tt)); [keeps | exact Hs].
  - apply (cache_inv_keeps (PyDataMem_RENEW ptr size ;; ret tt)); [keeps | exact Hs].
  - apply cache_inv_keeps; [apply keeps_FREE | exact Hs].
Qed.


Lemma cache_inv_init m sc : cache_inv (init_state m sc).
Proof.
  unfold cache_inv, init_state; cbn [datacache dimcache].
  rewrite !length_replicate. repeat split;
    apply Forall_replicate, bucket_ok_empty.
Qed.

(** ** Hits and misses of the base functions *)

Lemma alloc_hit nelem esz msz c alloc s :
  nelem < msz -> 0 < available (bucket c nelem s) ->
  _npy_alloc_cache nelem esz msz c alloc s
  = (ptr_at (bucket c nelem s) (available (bucket c nelem s) - 1),
     set_bucket c nelem
       (Bucket (available (bucket c nelem s) - 1) (ptrs (bucket c nelem s))) s).
Proof.
  intros H1 H2. unfold _npy_alloc_cache.
  apply Z.ltb_lt in H1, H2. rewrite H1, H2. reflexivity.
Qed.

Lemma alloc_miss nelem esz msz c alloc s :
  msz <= nelem \/ available (bucket c nelem s) <= 0 ->
  _npy_alloc_cache nelem esz msz c alloc s = alloc (wrap (nelem * esz)) s.
Proof.
  intros H. unfold _npy_alloc_cache.
  destruct (nelem <? msz) eqn:E1; [|reflexivity].
  destruct (0 <? available (bucket c nelem s)) eqn:E2; [|reflexivity].
  apply Z.ltb_lt in E1, E2. lia.
Qed.

Lemma free_push p nelem msz c dealloc s :
  p <> NULL -> nelem < msz -> available (bucket c nelem s) < NCACHE ->
  _npy_free_cache p nelem msz c dealloc s
  = (tt, set_bucket c nelem
           (Bucket (available (bucket c nelem s) + 1)
              (<[Z.to_nat (available (bucket c nelem s)) := p]>
                 (ptrs (bucket c nelem s)))) s).
Proof.
  intros H0 H1 H2. unfold _npy_free_cache.
  apply Z.eqb_neq in H0. apply Z.ltb_lt in H1, H2.
  rewrite H0, H1, H2. reflexivity.
Qed.

Lemma free_bypass p nelem msz c dealloc s :
  p = NULL \/ msz <= nelem \/ NCACHE <= available (bucket c nelem s) ->
  _npy_free_cache p nelem msz c dealloc s = dealloc p s.
Proof.
  intros H. unfold _npy_free_cache.
  destruct (p =? NULL) eqn:E0; [reflexivity|]. apply Z.eqb_neq in E0.
  destruct (nelem <? msz) eqn:E1; [|reflexivity]. apply Z.ltb_lt in E1.
  destruct (available (bucket c nelem s) <? NCACHE) eqn:E2; [|reflexivity].
  apply Z.ltb_lt in E2. lia.
Qed.

Lemma bucket_set_bucket c n b s :
  (Z.to_nat n < length (get_cache c s))%nat ->
  bucket c n (set_bucket c n b s) = b.
Proof.
  intros H. unfold bucket, set_bucket.
  destruct c; simpl; rewrite list_lookup_insert_eq by exact H; reflexivity.
Qed.

Lemma bucket_set_bucket_data n b s :
  cache_inv s -> 0 <= n < NBUCKETS ->
  bucket Datacache n (set_bucket Datacache n b s) = b.
Proof.
  intros (L & _) Hn. apply bucket_set_bucket. simpl. rewrite L.
  apply Z2Nat.inj_lt; lia.
Qed.

Lemma set_bucket_frame c n b s :
  calls (set_bucket c n b s) = calls s /\
  events (set_bucket c n b s) = events s /\
  mem (set_bucket c n b s) = mem s /\
  blocks (set_bucket c n b s) = blocks s /\
  datamem_align (set_bucket c n b s) = datamem_align s /\
  datamem_align_mask (set_bucket c n b s) = datamem_align_mask s /\
  _PyDataMem_eventhook (set_bucket c n b s) = _PyDataMem_eventhook s.
Proof. destruct c; repeat split. Qed.

Lemma ptr_at_insert (l : list Z) (i : Z) p :
  0 <= i -> (Z.to_nat i < length l)%nat ->
  ptr_at (Bucket (i + 1) (<[Z.to_nat i := p]> l)) i = p.
Proof.
  intros Hi Hl. unfold ptr_at. simpl.
  rewrite list_lookup_insert_eq by exact Hl. reflexivity.
Qed.

(** The state the first allocation leaves has room in bucket [n]. *)
Lemma alloc_leaves_room s n :
  cache_inv s -> 0 <= n < NBUCKETS ->
  0 <= available (bucket Datacache n (snd (npy_alloc_cache n s))) < NCACHE.
Proof.
  intros Hs Hn. pose proof (bucket_ok_lookup Datacache n s Hs) as [Hav _].
  unfold npy_alloc_cache.
  destruct (Z_lt_le_dec 0 (available (bucket Datacache n s))) as [Hhit|Hmiss].
  - rewrite alloc_hit by lia. cbn [snd].
    rewrite bucket_set_bucket_data by assumption. cbn [available]. lia.
  - rewrite alloc_miss by lia.
    rewrite (keeps_bucket (PyDataMem_NEW _)) by apply keeps_NEW.
    unfold NCACHE in *. lia.
Qed.

(** Allocate, free, allocate again on one size class. *)
Lemma round_trip s n :
  cache_inv s -> 0 <= n < NBUCKETS ->
  fst (npy_alloc_cache n s) <> NULL ->
  let p := fst (npy_alloc_cache n s) in
  let s1 := snd (npy_alloc_cache n s) in
  let a1 := available (bucket Datacache n s1) in
  let slots := <[Z.to_nat a1 := p]> (ptrs (bucket Datacache n s1)) in
  let s2 := set_bucket Datacache n (Bucket (a1 + 1) slots) s1 in
  npy_free_cache p n s1 = (tt, s2) /\
  npy_alloc_cache n s2 = (p, set_bucket Datacache n (Bucket a1 slots) s2).
Proof.
  intros Hs Hn Hp p s1 a1 slots s2.
  assert (Hs1 : cache_inv s1).
  { apply (cache_inv_alloc n 1 NBUCKETS Datacache PyDataMem_NEW s);
      [apply keeps_NEW | exact Hs]. }
  pose proof (alloc_leaves_room s n Hs Hn) as Ha1. fold s1 a1 in Ha1.
  pose proof (bucket_ok_lookup Datacache n s1 Hs1) as [_ Hlen].
  split.
  - unfold npy_free_cache. rewrite free_push; [reflexivity | exact Hp | lia | lia].
  - unfold npy_alloc_cache.
    assert (Hb : bucket Datacache n s2 = Bucket (a1 + 1) slots)
      by (apply bucket_set_bucket_data; assumption).
    rewrite alloc_hit by (rewrite ?Hb; simpl; lia).
    rewrite Hb. cbn [available ptrs].
    replace (a1 + 1 - 1) with a1 by lia. f_equal.
    unfold slots. apply ptr_at_insert; [lia|].
    rewrite Hlen. apply Z2Nat.inj_lt; lia.
Qed.

(** ** What the data allocator tells the hook and the library *)

Ltac run_monad :=
  unfold PyDataMem_NEW, PyDataMem_NEW_ZEROED, PyDataMem_FREE, PyDataMem_RENEW,
    PyArray_malloc, PyArray_free, npy_mul_with_overflow_intp,
    get_aligned_size, get_original_pointer, align_pointer, call_eventhook,
    Libc.malloc, Libc.calloc, Libc.realloc, Libc.free, Libc.answer,
    bind, ret, gets, modify;
  repeat (cbn [fst snd events calls mem blocks script datacache dimcache
               _PyDataMem_eventhook _PyDataMem_eventhook_user_data
               datamem_align datamem_align_mask set_mem set_blocks set_script
               log_call log_event negb] in *;
          match goal with
          | |- context [match script ?s with _ => _ end] =>
              destruct (script s) eqn:?
          | |- context [if ?b then _ else _] => destruct b eqn:?
          end);
  cbn [fst snd events calls mem blocks script datacache dimcache
       _PyDataMem_eventhook _PyDataMem_eventhook_user_data
       datamem_align datamem_align_mask set_mem set_blocks set_script
       log_call log_event negb] in *.

Lemma NEW_events size s :
  events (snd (PyDataMem_NEW size s))
  = if _PyDataMem_eventhook s =? NULL then events s
    else Event NULL (fst (PyDataMem_NEW size s)) size
           (_PyDataMem_eventhook_user_data s) :: events s.
Proof. run_monad; try reflexivity; congruence. Qed.

Lemma NEW_ZEROED_events n e s :
  events (snd (PyDataMem_NEW_ZEROED n e s))
  = if _PyDataMem_eventhook s =? NULL then events s
    else Event NULL (fst (PyDataMem_NEW_ZEROED n e s)) (wrap (n * e))
           (_PyDataMem_eventhook_user_data s) :: events s.
Proof.
  run_monad; try reflexivity; congruence.
Qed.

Lemma FREE_events p s :
  events (snd (PyDataMem_FREE p s))
  = if _PyDataMem_eventhook s =? NULL then events s
    else Event p NULL 0 (_PyDataMem_eventhook_user_data s) :: events s.
Proof. run_monad; try reflexivity; congruence. Qed.

Lemma RENEW_events p size s :
  events (snd (PyDataMem_RENEW p size s))
  = if _PyDataMem_eventhook s =? NULL then events s
    else Event p (fst (PyDataMem_RENEW p size s)) size
           (_PyDataMem_eventhook_user_data s) :: events s.
Proof. run_monad; try reflexivity; congruence. Qed.

Lemma FREE_calls p s :
  calls (snd (PyDataMem_FREE p s))
  = if p =? NULL then calls s
    else Free (load_word (mem s) (p - sizeof_ptr)) :: calls s.
Proof. run_monad; try reflexivity; congruence. Qed.

Lemma FREE_null s :
  PyDataMem_FREE NULL s
  = (tt, if _PyDataMem_eventhook s =? NULL then s
         else log_event
                (Event NULL NULL 0 (_PyDataMem_eventhook_user_data s)) s).
Proof. unfold PyDataMem_FREE, call_eventhook, bind, ret. simpl.
  destruct (_ =? _); reflexivity. Qed.

Lemma PyArray_free_null s : PyArray_free NULL s = (tt, log_call (Free NULL) s).
Proof. reflexivity. Qed.


(** C1: allocate [n] bytes, free the block, allocate [n] bytes again: the
    second allocation returns the address of the first.  It is served from
    the cache: it pops the slot the free has just pushed, and neither the C
    library nor the event hook is reached. *)
Theorem cache_round_trip_reuse (s : state) (n : Z) :
  cache_inv s -> 0 <= n < NBUCKETS ->
  fst (npy_alloc_cache n s) <> NULL ->
  let p := fst (npy_alloc_cache n s) in
  let s1 := snd (npy_alloc_cache n s) in
  let s2 := snd (npy_free_cache p n s1) in
  let s3 := snd (npy_alloc_cache n s2) in
  fst (npy_alloc_cache n s2) = p /\
  available (bucket Datacache n s2) = available (bucket Datacache n s1) + 1 /\
  ptr_at (bucket Datacache n s2) (available (bucket Datacache n s1)) = p /\
  available (bucket Datacache n s3) = available (bucket Datacache n s1) /\
  calls s3 = calls s1 /\ events s3 = events s1.
Proof.
  intros Hs Hn Hp p s1 s2 s3.
  destruct (round_trip s n Hs Hn Hp) as [Hfree Halloc].
  fold p s1 in Hfree, Halloc. cbv zeta in Hfree, Halloc.
  assert (Hs1 : cache_inv s1).
  { apply (cache_inv_alloc n 1 NBUCKETS Datacache PyDataMem_NEW s);
      [apply keeps_NEW | exact Hs]. }
  pose proof (alloc_leaves_room s n Hs Hn) as Ha1. fold s1 in Ha1.
  pose proof (bucket_ok_lookup Datacache n s1 Hs1) as [_ Hlen].
  assert (E2 : s2 = set_bucket Datacache n
                      (Bucket (available (bucket Datacache n s1) + 1)
                         (<[Z.to_nat (available (bucket Datacache n s1)) := p]>
                            (ptrs (bucket Datacache n s1)))) s1)
    by (unfold s2; rewrite Hfree; reflexivity).
  assert (Hs2 : cache_inv s2).
  { rewrite E2. apply cache_inv_set_bucket; [exact Hs1|].
    split; cbn [available ptrs]; [lia | rewrite length_insert; exact Hlen]. }
  unfold s3. rewrite <- E2 in Halloc. rewrite Halloc. cbn [fst snd].
  rewrite bucket_set_bucket_data by assumption.
  rewrite E2 at 1 2. rewrite bucket_set_bucket_data by assumption.
  cbn [available ptrs].
  repeat split.
  - apply ptr_at_insert; [lia|]. rewrite Hlen. apply Z2Nat.inj_lt; lia.
  - rewrite E2. reflexivity.
  - rewrite E2. reflexivity.
Qed.

Lemma cache_round_trip_reuse_witness :
  cache_inv (init_state garbage [4096]) /\ 0 <= 8 < NBUCKETS /\
  fst (npy_alloc_cache 8 (init_state garbage [4096])) <> NULL /\
  fst (npy_alloc_cache 8
         (snd (npy_free_cache
                 (fst (npy_alloc_cache 8 (init_state garbage [4096]))) 8
                 (snd (npy_alloc_cache 8 (init_state garbage [4096]))))))
  = fst (npy_alloc_cache 8 (init_state garbage [4096])).
Proof.
  assert (H1 : cache_inv (init_state garbage [4096])) by apply cache_inv_init.
  assert (H2 : 0 <= 8 < NBUCKETS) by (unfold NBUCKETS; lia).
  assert (H3 : fst (npy_alloc_cache 8 (init_state garbage [4096])) <> NULL)
    by (vm_compute; discriminate).
  split; [exact H1 | split; [exact H2 | split; [exact H3 |]]].
  exact (proj1 (cache_round_trip_reuse _ 8 H1 H2 H3)).
Defined.

(** C2: a registered hook is invoked exactly once by each of
    [PyDataMem_NEW], [PyDataMem_NEW_ZEROED], [PyDataMem_FREE] and
    [PyDataMem_RENEW], and not at all by an allocation or a release that the
    cache serves.  Allocating 500 bytes on a miss invokes it once with
    (NULL, addr, 500); freeing the block into the bucket and allocating 500
    bytes again do not invoke it, and the same address comes back. *)
Theorem hook_invocation_contract (s : state) :
  _PyDataMem_eventhook s <> NULL ->
  let ud := _PyDataMem_eventhook_user_data s in
  (forall size,
     events (snd (PyDataMem_NEW size s))
     = Event NULL (fst (PyDataMem_NEW size s)) size ud :: events s) /\
  (forall nelems elsize,
     events (snd (PyDataMem_NEW_ZEROED nelems elsize s))
     = Event NULL (fst (PyDataMem_NEW_ZEROED nelems elsize s))
         (wrap (nelems * elsize)) ud :: events s) /\
  (forall ptr,
     events (snd (PyDataMem_FREE ptr s)) = Event ptr NULL 0 ud :: events s) /\
  (forall ptr size,
     events (snd (PyDataMem_RENEW ptr size s))
     = Event ptr (fst (PyDataMem_RENEW ptr size s)) size ud :: events s) /\
  (forall nelem esz msz cache alloc,
     nelem < msz -> 0 < available (bucket cache nelem s) ->
     events (snd (_npy_alloc_cache nelem esz msz cache alloc s)) = events s) /\
  (forall p nelem msz cache dealloc,
     p <> NULL -> nelem < msz -> available (bucket cache nelem s) < NCACHE ->
     events (snd (_npy_free_cache p nelem msz cache dealloc s)) = events s) /\
  (cache_inv s -> available (bucket Datacache 500 s) = 0 ->
   fst (npy_alloc_cache 500 s) <> NULL ->
   let addr := fst (npy_alloc_cache 500 s) in
   let s1 := snd (npy_alloc_cache 500 s) in
   let s2 := snd (npy_free_cache addr 500 s1) in
   let s3 := snd (npy_alloc_cache 500 s2) in
   events s1 = Event NULL addr 500 ud :: events s /\
   events s2 = events s1 /\
   fst (npy_alloc_cache 500 s2) = addr /\
   events s3 = events s2).
Proof.
  intros Hh ud. apply Z.eqb_neq in Hh.
  split; [intros; rewrite NEW_events, Hh; reflexivity|].
  split; [intros; rewrite NEW_ZEROED_events, Hh; reflexivity|].
  split; [intros; rewrite FREE_events, Hh; reflexivity|].
  split; [intros; rewrite RENEW_events, Hh; reflexivity|].
  split; [intros; rewrite alloc_hit by assumption;
          apply set_bucket_frame|].
  split; [intros; rewrite free_push by assumption;
          apply set_bucket_frame|].
  intros Hs Hempty Hp addr s1 s2 s3.
  assert (Hn : 0 <= 500 < NBUCKETS) by (unfold NBUCKETS; lia).
  destruct (round_trip s 500 Hs Hn Hp) as [Hfree Halloc].
  fold addr s1 in Hfree, Halloc. cbv zeta in Hfree, Halloc.
  assert (E1 : npy_alloc_cache 500 s = PyDataMem_NEW 500 s).
  { unfold npy_alloc_cache. rewrite alloc_miss by lia. reflexivity. }
  unfold s3, s2. rewrite Hfree. cbn [snd]. rewrite Halloc. cbn [fst snd].
  repeat split.
  unfold s1, addr. rewrite E1, NEW_events, Hh. reflexivity.
Qed.

Lemma hook_invocation_contract_witness :
  _PyDataMem_eventhook hooked <> NULL /\
  events (snd (npy_alloc_cache 500 hooked)) = [Event NULL 4112 500 5] /\
  events (snd (npy_free_cache 4112 500 (snd (npy_alloc_cache 500 hooked))))
  = [Event NULL 4112 500 5] /\
  npy_alloc_cache 500
    (snd (npy_free_cache 4112 500 (snd (npy_alloc_cache 500 hooked))))
  = (4112,
     snd (npy_alloc_cache 500
            (snd (npy_free_cache 4112 500
                    (snd (npy_alloc_cache 500 hooked)))))) /\
  events
    (snd (npy_alloc_cache 500
            (snd (npy_free_cache 4112 500
                    (snd (npy_alloc_cache 500 hooked))))))
  = [Event NULL 4112 500 5].
Proof.
  assert (Hh : _PyDataMem_eventhook hooked <> NULL)
    by (vm_compute; discriminate).
  assert (Hs : cache_inv hooked)
    by (apply (cache_inv_keeps (PyDataMem_SetEventHook 77 5));
        [apply keeps_SetEventHook | apply cache_inv_init]).
  assert (He : available (bucket Datacache 500 hooked) = 0) by reflexivity.
  assert (Hp : fst (npy_alloc_cache 500 hooked) <> NULL)
    by (vm_compute; discriminate).
  destruct (hook_invocation_contract hooked Hh)
    as (_ & _ & _ & _ & _ & _ & H).
  destruct (H Hs He Hp) as (E1 & E2 & E3 & E4).
  change (fst (npy_alloc_cache 500 hooked)) with 4112 in E1, E2, E3, E4.
  split; [exact Hh|].
  split; [exact E1|].
  split; [rewrite E2; exact E1|].
  split; [rewrite <- E3 at 1; apply surjective_pairing|].
  rewrite E4, E2. exact E1.
Defined.






(** ** Alignment *)

Lemma set_align_rejects align s :
  0 <= align < modulus -> ~ is_power_of_two align \/ align < MIN_ALIGN ->
  npy_datamem_set_align align s = (-1, s).
Proof.
  intros Hr H. unfold npy_datamem_set_align.
  destruct (align <? MIN_ALIGN) eqn:E; [reflexivity|].
  apply Z.ltb_ge in E. unfold MIN_ALIGN in *.
  destruct H as [H|H]; [|lia].
  rewrite wrap_small by lia.
  destruct (Z.lxor align (align - 1) =? Z.lor align (align - 1)) eqn:T;
    [|reflexivity].
  apply pow2_test in T; [contradiction | lia].
Qed.

Lemma set_align_accepts align s :
  0 <= align < modulus -> is_power_of_two align -> MIN_ALIGN <= align ->
  fst (npy_datamem_set_align align s) = 0 /\
  datamem_align (snd (npy_datamem_set_align align s)) = align /\
  datamem_align_mask (snd (npy_datamem_set_align align s)) = align - 1.
Proof.
  intros Hr Hp Hm. unfold npy_datamem_set_align.
  assert (E : (align <? MIN_ALIGN) = false) by (apply Z.ltb_ge; exact Hm).
  rewrite E. unfold MIN_ALIGN in *. rewrite wrap_small by lia.
  assert (T : (Z.lxor align (align - 1) =? Z.lor align (align - 1)) = true)
    by (apply pow2_test; [lia | exact Hp]).
  rewrite T. cbn [negb]. unfold bind, gets, modify, ret.
  destruct (datamem_align s <? align).
  - destruct (_npy_clear_cache _ _ _ s) as [[] s1]. repeat split.
  - repeat split.
Qed.

(** C7: [npy_datamem_set_align] returns -1 and leaves the whole state as it
    is for a value that is not a power of two or is below [MIN_ALIGN]; for
    a power of two that is at least [MIN_ALIGN] it returns 0, and
    [npy_datamem_get_align] then returns that value. *)
Theorem set_align_validation (s : state) (align : Z) :
  0 <= align < modulus ->
  (~ is_power_of_two align \/ align < MIN_ALIGN ->
   npy_datamem_set_align align s = (-1, s) /\ -1 <> NULL) /\
  (is_power_of_two align -> MIN_ALIGN <= align ->
   fst (npy_datamem_set_align align s) = 0 /\
   fst (npy_datamem_get_align (snd (npy_datamem_set_align align s))) = align /\
   datamem_align_mask (snd (npy_datamem_set_align align s)) = align - 1).
Proof.
  intros Hr. split.
  - intros H. split; [apply set_align_rejects; assumption | discriminate].
  - intros Hp Hm. apply set_align_accepts; assumption.
Qed.

Lemma set_align_validation_witness :
  0 <= 64 < modulus /\ is_power_of_two 64 /\ MIN_ALIGN <= 64 /\
  fst (npy_datamem_set_align 64 (init_state garbage [])) = 0 /\
  fst (npy_datamem_get_align
         (snd (npy_datamem_set_align 64 (init_state garbage [])))) = 64 /\
  0 <= 24 < modulus /\ ~ is_power_of_two 24 /\
  npy_datamem_set_align 24 (init_state garbage [])
  = (-1, init_state garbage []).
Proof.
  assert (R1 : 0 <= 64 < modulus) by (unfold modulus; lia).
  assert (P1 : is_power_of_two 64) by (exists 6; split; [lia | reflexivity]).
  assert (M1 : MIN_ALIGN <= 64) by (unfold MIN_ALIGN; lia).
  assert (R2 : 0 <= 24 < modulus) by (unfold modulus; lia).
  assert (P2 : ~ is_power_of_two 24).
  { intros (k & Hk & E).
    assert (k < 5) by (apply (Z.pow_lt_mono_r_iff 2); lia).
    assert (k = 0 \/ k = 1 \/ k = 2 \/ k = 3 \/ k = 4) as D by lia.
    destruct D as [-> | [-> | [-> | [-> | ->]]]]; discriminate E. }
  destruct (set_align_validation (init_state garbage []) 64 R1) as [_ H1].
  destruct (H1 P1 M1) as (A1 & A2 & _).
  destruct (set_align_validation (init_state garbage []) 24 R2) as [H2 _].
  destruct (H2 (or_introl P2)) as [B1 _].
  repeat (split; [assumption|]). exact B1.
Defined.

Lemma align_ok_range s :
  align_ok s ->
  exists k, 4 <= k < 64 /\ datamem_align s = 2 ^ k /\
            datamem_align_mask s = 2 ^ k - 1.
Proof.
  intros ((k & Hk & E) & Hr & Hm). exists k. rewrite E in *.
  unfold MIN_ALIGN, modulus in Hr. repeat split; try assumption.
  - apply (Z.pow_le_mono_r_iff 2); [lia | lia | ]. change (2 ^ 4) with 16. lia.
  - apply (Z.pow_lt_mono_r_iff 2); lia.
Qed.

(** The address [align_pointer] computes, without the store. *)
Lemma align_pointer_value ptr s :
  align_ok s ->
  fst (align_pointer ptr s)
  = wrap (ptr + sizeof_ptr + datamem_align_mask s)
    - wrap (ptr + sizeof_ptr + datamem_align_mask s) mod datamem_align s.
Proof.
  intros H. destruct (align_ok_range s H) as (k & Hk & Ea & Em).
  unfold align_pointer. cbn [fst]. rewrite Em, Ea.
  apply land_lnot_mask; [lia | apply wrap_range].
Qed.

Lemma align_pointer_aligned ptr s :
  align_ok s -> fst (align_pointer ptr s) mod datamem_align s = 0.
Proof.
  intros H. rewrite align_pointer_value by exact H.
  destruct (align_ok_range s H) as (k & Hk & Ea & Em).
  assert (0 < datamem_align s) by (rewrite Ea; apply Z.pow_pos_nonneg; lia).
  set (x := wrap _). set (a := datamem_align s) in *.
  rewrite Zminus_mod, Z.mod_mod, Z.sub_diag by lia. apply Z.mod_0_l. lia.
Qed.

(** C10: when [size + sizeof(void * ) + (a - 1)] does not overflow and the
    block of [get_aligned_size(size)] bytes at [base] lies in the address
    space, the address [align_pointer] computes leaves room for the header
    word before it and for [size] bytes after it inside the block, is a
    multiple of the alignment, and [get_original_pointer] reads [base]
    back from the header. *)
Theorem aligned_layout_safe (s : state) (size base : Z) :
  align_ok s -> 0 <= size ->
  size + sizeof_ptr + (datamem_align s - 1) < modulus ->
  0 <= base -> base + fst (get_aligned_size size s) < modulus ->
  let user := fst (align_pointer base s) in
  let s' := snd (align_pointer base s) in
  base + sizeof_ptr <= user /\
  user + size <= base + fst (get_aligned_size size s) /\
  user mod datamem_align s = 0 /\
  fst (get_original_pointer user s') = base.
Proof.
  intros Hok Hsize Hno Hbase Hblock user s'.
  pose proof (align_pointer_aligned base s Hok) as Hal.
  pose proof (align_pointer_value base s Hok) as Hval.
  destruct (align_ok_range s Hok) as (k & Hk & Ea & Em).
  assert (Hpos : 16 <= datamem_align s).
  { destruct Hok as (_ & Hr & _). unfold MIN_ALIGN in Hr. lia. }
  fold user in Hal, Hval.
  unfold get_aligned_size, gets in *. cbn [fst] in *.
  unfold sizeof_ptr in *.
  assert (Em' : datamem_align_mask s = datamem_align s - 1) by lia.
  rewrite Em' in *.
  rewrite (wrap_small (size + 8 + _)) in * by lia.
  rewrite (wrap_small (base + 8 + _)) in Hval by lia.
  pose proof (Z.mod_pos_bound (base + 8 + (datamem_align s - 1))
                (datamem_align s) ltac:(lia)) as Hm.
  split; [lia|]. split; [lia|]. split; [exact Hal|].
  unfold s', get_original_pointer, gets, align_pointer.
  cbn [fst snd mem set_mem]. apply load_store_word. lia.
Qed.

Lemma aligned_layout_safe_witness :
  align_ok (init_state garbage []) /\
  4096 + sizeof_ptr <= fst (align_pointer 4096 (init_state garbage [])) /\
  fst (align_pointer 4096 (init_state garbage [])) + 100
  <= 4096 + fst (get_aligned_size 100 (init_state garbage [])) /\
  fst (get_original_pointer (fst (align_pointer 4096 (init_state garbage [])))
         (snd (align_pointer 4096 (init_state garbage [])))) = 4096.
Proof.
  assert (Hok : align_ok (init_state garbage [])).
  { split; [exists 4; split; [lia | reflexivity]|].
    split; [vm_compute; split; [discriminate | reflexivity] | reflexivity]. }
  destruct (aligned_layout_safe (init_state garbage []) 100 4096 Hok)
    as (H1 & H2 & _ & H4).
  - lia.
  - vm_compute. reflexivity.
  - lia.
  - vm_compute. reflexivity.
  - split; [exact Hok | split; [exact H1 | split; [exact H2 | exact H4]]].
Defined.

Lemma NEW_aligned size s :
  align_ok s -> fst (PyDataMem_NEW size s) mod datamem_align s = 0.
Proof.
  intros Hok. unfold PyDataMem_NEW, get_aligned_size, bind, gets, ret.
  destruct (Libc.malloc _ s) as [r s1] eqn:E.
  assert (Ha : datamem_align s1 = datamem_align s /\
               datamem_align_mask s1 = datamem_align_mask s).
  { revert E. unfold Libc.malloc, Libc.answer, bind, modify, ret.
    destruct (script s); intros [= <- <-];
      repeat match goal with |- context [if ?b then _ else _] => destruct b end;
      split; reflexivity. }
  destruct Ha as [Ha Hm].
  assert (Hok1 : align_ok s1).
  { unfold align_ok in *. rewrite Ha, Hm. exact Hok. }
  destruct (r =? NULL) eqn:Er; cbn [negb].
  - apply Z.eqb_eq in Er. subst r. unfold call_eventhook.
    destruct (_PyDataMem_eventhook _ =? NULL); cbn [fst]; apply Z.mod_0_l;
      destruct Hok as (_ & ? & _); unfold MIN_ALIGN in *; lia.
  - pose proof (align_pointer_aligned r s1 Hok1) as H.
    destruct (align_pointer r s1) as [q s2]. cbn [fst] in *.
    unfold call_eventhook.
    destruct (_PyDataMem_eventhook _ =? NULL); cbn [fst]; congruence.
Qed.

Lemma align_ok_init m sc : align_ok (init_state m sc).
Proof.
  split; [exists 4; split; [lia | reflexivity]|].
  split; [vm_compute; split; [discriminate | reflexivity] | reflexivity].
Qed.

Lemma cache_aligned_init m sc : cache_aligned (init_state m sc).
Proof.
  intros n i Hi. exfalso. revert Hi. unfold bucket.
  cbn [get_cache init_state datacache].
  destruct (replicate _ _ !! Z.to_nat n) as [b|] eqn:E.
  - apply lookup_replicate in E as [-> _]. simpl. lia.
  - simpl. lia.
Qed.

(** C4 as stated fails: under alignment 32, [npy_alloc_cache_dim] returns
    the 16-aligned address the library answered, and [npy_alloc_cache]
    returns from the cache a block that was allocated under alignment 16
    and released after the alignment was raised. *)
Lemma allocation_alignment_counterexample :
  (datamem_align dims_state = 32 /\
   fst (npy_alloc_cache_dim 2 dims_state) = 4112 /\
   4112 <> NULL /\ 4112 mod 32 <> 0) /\
  (datamem_align stale_state = 32 /\
   fst (npy_alloc_cache 8 stale_state) = 4112).
Proof. vm_compute. repeat split; discriminate. Qed.

(** C9, as amended: releasing a null block changes no bucket and releases
    nothing, but the null block is handed to the underlying deallocator:
    [PyDataMem_FREE] for the data cache, which invokes a registered hook
    once with (NULL, NULL, 0), and [PyArray_free] for the dimension
    cache. *)
Theorem null_release (s : state) (sz : Z) :
  npy_free_cache NULL sz s
  = (tt, if _PyDataMem_eventhook s =? NULL then s
         else log_event
                (Event NULL NULL 0 (_PyDataMem_eventhook_user_data s)) s) /\
  npy_free_cache_dim NULL sz s = (tt, log_call (Free NULL) s) /\
  (forall cache,
     get_cache cache (snd (npy_free_cache NULL sz s)) = get_cache cache s /\
     get_cache cache (snd (npy_free_cache_dim NULL sz s)) = get_cache cache s) /\
  blocks (snd (npy_free_cache NULL sz s)) = blocks s /\
  calls (snd (npy_free_cache NULL sz s)) = calls s /\
  blocks (snd (npy_free_cache_dim NULL sz s)) = blocks s /\
  events (snd (npy_free_cache_dim NULL sz s)) = events s.
Proof.
  assert (E1 : npy_free_cache NULL sz s = PyDataMem_FREE NULL s)
    by (apply free_bypass; auto).
  assert (E2 : npy_free_cache_dim NULL sz s = PyArray_free NULL s)
    by (apply free_bypass; auto).
  rewrite E1, E2, FREE_null, PyArray_free_null. cbn [snd].
  repeat split; destruct cache || idtac;
    destruct (_PyDataMem_eventhook s =? NULL); reflexivity.
Qed.

(** C9 as stated fails: a registered hook is invoked by the release of a
    null block. *)
Lemma null_release_counterexample :
  _PyDataMem_eventhook hooked <> NULL /\
  events hooked = [] /\
  events (snd (npy_free_cache NULL 8 hooked)) = [Event NULL NULL 0 5].
Proof. vm_compute. repeat split; discriminate. Qed.

(** ** The purge *)

Lemma FREE_mem p s : mem (snd (PyDataMem_FREE p s)) = mem s.
Proof. run_monad; reflexivity. Qed.

Lemma bucket_set_bucket_ne c n k b s :
  0 <= n -> 0 <= k -> n <> k ->
  bucket c n (set_bucket c k b s) = bucket c n s.
Proof.
  intros Hn Hk Hne. unfold bucket, set_bucket.
  assert (Z.to_nat k <> Z.to_nat n) by lia.
  destruct c; simpl; rewrite list_lookup_insert_ne by assumption; reflexivity.
Qed.

(** The inner loop: every block goes to [PyDataMem_FREE]. *)
Lemma free_each ps : forall s,
  let s' := snd (for_each ps PyDataMem_FREE s) in
  mem s' = mem s /\
  (forall c, c ∈ calls s -> c ∈ calls s') /\
  (forall p, p ∈ ps -> p <> NULL ->
     Free (load_word (mem s) (p - sizeof_ptr)) ∈ calls s').
Proof.
  induction ps as [|q ps IH]; intros s; cbn [for_each].
  - simpl. repeat split; auto. intros p Hp. inversion Hp.
  - unfold bind.
    pose proof (FREE_mem q s) as Hm. pose proof (FREE_calls q s) as Hc.
    destruct (PyDataMem_FREE q s) as [[] s1]. cbn [snd] in Hm, Hc.
    specialize (IH s1). cbv zeta in IH. destruct IH as (I1 & I2 & I3).
    cbv zeta. split; [congruence|]. split.
    + intros c Hin. apply I2. rewrite Hc.
      destruct (q =? NULL); [exact Hin | right; exact Hin].
    + intros p Hp Hnn. apply elem_of_cons in Hp as [->|Hp].
      * apply I2. rewrite Hc.
        replace (q =? NULL) with false by (symmetry; apply Z.eqb_neq; exact Hnn).
        left.
      * rewrite <- Hm. apply I3; assumption.
Qed.

(** One bucket of the data cache is purged. *)
Lemma clear_bucket_data k s :
  cache_inv s -> 0 <= k < NBUCKETS ->
  let s' := snd (clear_bucket Datacache PyDataMem_FREE k s) in
  cache_inv s' /\ dimcache s' = dimcache s /\ mem s' = mem s /\
  (forall c, c ∈ calls s -> c ∈ calls s') /\
  available (bucket Datacache k s') = 0 /\
  (forall n, 0 <= n -> n <> k ->
     bucket Datacache n s' = bucket Datacache n s) /\
  (forall i, 0 <= i < available (bucket Datacache k s) ->
     ptr_at (bucket Datacache k s) i <> NULL ->
     Free (load_word (mem s) (ptr_at (bucket Datacache k s) i - sizeof_ptr))
       ∈ calls s').
Proof.
  intros Hs Hk s'.
  pose proof (cache_inv_clear_bucket Datacache PyDataMem_FREE k s keeps_FREE Hs)
    as Hinv. fold s' in Hinv.
  pose proof (bucket_ok_lookup Datacache k s Hs) as [Hav Hlen].
  revert Hinv. unfold s', clear_bucket, bind, gets, modify.
  set (ps := take (Z.to_nat (available (bucket Datacache k s)))
               (ptrs (bucket Datacache k s))).
  pose proof (free_each ps s) as (F1 & F2 & F3).
  pose proof (keeps_for_each ps PyDataMem_FREE keeps_FREE s) as [K1 K2].
  pose proof (cache_inv_keeps (for_each ps PyDataMem_FREE) s
                (keeps_for_each _ _ keeps_FREE) Hs) as Hs1.
  destruct (for_each ps PyDataMem_FREE s) as [[] s1]. cbn [snd] in *.
  intros Hinv.
  split; [exact Hinv|]. split; [exact K2|]. split; [exact F1|].
  split; [exact F2|]. split.
  { rewrite bucket_set_bucket_data by assumption. reflexivity. }
  split.
  { intros n Hn Hne. rewrite bucket_set_bucket_ne by (try assumption; lia).
    unfold bucket. cbn [get_cache]. rewrite K1. reflexivity. }
  intros i Hi Hnn.
  change (calls (set_bucket Datacache k _ s1)) with (calls s1).
  apply F3; [|exact Hnn].
  apply list_elem_of_lookup. exists (Z.to_nat i). unfold ps.
  rewrite lookup_take_lt by lia.
  unfold ptr_at.
  destruct (ptrs (bucket Datacache k s) !! Z.to_nat i) eqn:E; [reflexivity|].
  apply lookup_ge_None in E. rewrite Hlen in E. unfold NCACHE in *. lia.
Qed.

Lemma clear_buckets_data l : forall s,
  cache_inv s -> Forall (fun k => 0 <= k < NBUCKETS) l ->
  let s' := snd (for_each l (clear_bucket Datacache PyDataMem_FREE) s) in
  cache_inv s' /\ dimcache s' = dimcache s /\ mem s' = mem s /\
  (forall c, c ∈ calls s -> c ∈ calls s') /\
  (forall n, 0 <= n ->
     (n ∈ l -> available (bucket Datacache n s') = 0) /\
     (n ∉ l -> bucket Datacache n s' = bucket Datacache n s)) /\
  (forall n i, n ∈ l -> 0 <= i < available (bucket Datacache n s) ->
     ptr_at (bucket Datacache n s) i <> NULL ->
     Free (load_word (mem s) (ptr_at (bucket Datacache n s) i - sizeof_ptr))
       ∈ calls s').
Proof.
  induction l as [|k l IH]; intros s Hs Hl; cbn [for_each].
  - cbv zeta. cbn [snd ret].
    split; [exact Hs|]. split; [reflexivity|]. split; [reflexivity|].
    split; [auto|]. split.
    + intros n Hn. split; [intros H; inversion H | reflexivity].
    + intros n i H. inversion H.
  - apply Forall_cons in Hl as [Hk Hl]. unfold bind.
    pose proof (clear_bucket_data k s Hs Hk) as H. cbv zeta in H.
    destruct (clear_bucket Datacache PyDataMem_FREE k s) as [[] s1].
    cbn [snd] in H. destruct H as (C1 & C2 & C3 & C4 & C5 & C6 & C7).
    specialize (IH s1 C1 Hl). cbv zeta in IH.
    destruct IH as (I1 & I2 & I3 & I4 & I5 & I6). cbv zeta.
    split; [exact I1|]. split; [congruence|]. split; [congruence|].
    split; [auto|]. split.
    + intros n Hn. destruct (I5 n Hn) as [I5a I5b]. split.
      * intros Hin. destruct (decide (n ∈ l)) as [Hnl|Hnl]; [auto|].
        apply elem_of_cons in Hin as [->|Hin]; [|contradiction].
        rewrite I5b by exact Hnl. exact C5.
      * intros Hnin. apply not_elem_of_cons in Hnin as [Hne Hnl].
        rewrite I5b by exact Hnl. apply C6; assumption.
    + intros n i Hin Hi Hnn.
      destruct (decide (n = k)) as [->|Hne].
      * apply I4. apply C7; assumption.
      * apply elem_of_cons in Hin as [->|Hin]; [contradiction|].
        assert (Hn : 0 <= n).
        { rewrite Forall_forall in Hl. apply Hl in Hin. lia. }
        rewrite <- C3, <- (C6 n Hn Hne).
        apply I6; [exact Hin | rewrite C6 by assumption; exact Hi
                  | rewrite C6 by assumption; exact Hnn].
Qed.

Lemma bucket_index_in n :
  0 <= n < NBUCKETS -> n ∈ (Z.of_nat <$> seq 0 (Z.to_nat NBUCKETS)).
Proof.
  intros Hn. apply list_elem_of_fmap. exists (Z.to_nat n). split; [lia|].
  apply elem_of_seq. lia.
Qed.

Lemma bucket_indices_range :
  Forall (fun k => 0 <= k < NBUCKETS) (Z.of_nat <$> seq 0 (Z.to_nat NBUCKETS)).
Proof.
  apply Forall_forall. intros k Hk.
  apply list_elem_of_fmap in Hk as (j & -> & Hj). apply elem_of_seq in Hj. lia.
Qed.

(** What raising the alignment does to the caches: every block held in the
    data cache goes to [free], every bucket of the data cache is emptied,
    the dimension cache is not touched. *)
Lemma set_align_raise_purges align s :
  cache_inv s -> 0 <= align < modulus -> is_power_of_two align ->
  MIN_ALIGN <= align -> datamem_align s < align ->
  let s' := snd (npy_datamem_set_align align s) in
  (forall n, 0 <= n < NBUCKETS -> available (bucket Datacache n s') = 0) /\
  dimcache s' = dimcache s /\
  (forall n i, 0 <= n < NBUCKETS ->
     0 <= i < available (bucket Datacache n s) ->
     ptr_at (bucket Datacache n s) i <> NULL ->
     Free (load_word (mem s) (ptr_at (bucket Datacache n s) i - sizeof_ptr))
       ∈ calls s').
Proof.
  intros Hs Hr Hp Hm Hlt s'. unfold s', npy_datamem_set_align.
  replace (align <? MIN_ALIGN) with false by (symmetry; apply Z.ltb_ge; lia).
  unfold MIN_ALIGN in *. rewrite wrap_small by lia.
  replace (Z.lxor align (align - 1) =? Z.lor align (align - 1)) with true
    by (symmetry; apply pow2_test; [lia | exact Hp]).
  cbn [negb]. unfold bind, gets, modify, ret.
  replace (datamem_align s <? align) with true by (symmetry; apply Z.ltb_lt; lia).
  pose proof (clear_buckets_data _ s Hs bucket_indices_range) as H.
  cbv zeta in H. fold (_npy_clear_cache NBUCKETS Datacache PyDataMem_FREE) in H.
  destruct (_npy_clear_cache NBUCKETS Datacache PyDataMem_FREE s) as [[] s1].
  cbn [snd] in *. destruct H as (_ & H2 & _ & _ & H5 & H6).
  split; [|split].
  - intros n Hn. apply (H5 n); [lia | apply bucket_index_in; exact Hn].
  - exact H2.
  - intros n i Hn. apply H6. apply bucket_index_in. exact Hn.
Qed.

(** A value that does not exceed the current alignment purges nothing. *)
Lemma set_align_no_raise align s :
  0 <= align < modulus -> is_power_of_two align -> MIN_ALIGN <= align ->
  align <= datamem_align s ->
  npy_datamem_set_align align s = (0, set_align align (align - 1) s).
Proof.
  intros Hr Hp Hm Hle. unfold npy_datamem_set_align.
  replace (align <? MIN_ALIGN) with false by (symmetry; apply Z.ltb_ge; lia).
  unfold MIN_ALIGN in *. rewrite wrap_small by lia.
  replace (Z.lxor align (align - 1) =? Z.lor align (align - 1)) with true
    by (symmetry; apply pow2_test; [lia | exact Hp]).
  cbn [negb]. unfold bind, gets, modify, ret.
  replace (datamem_align s <? align) with false by (symmetry; apply Z.ltb_ge; lia).
  reflexivity.
Qed.

(** ** Alignment over runs *)

Lemma same_settings_refl s : same_settings s s.
Proof. repeat split. Qed.

Lemma same_settings_trans s1 s2 s3 :
  same_settings s1 s2 -> same_settings s2 s3 -> same_settings s1 s3.
Proof.
  intros (A1 & A2 & A3 & A4) (B1 & B2 & B3 & B4).
  repeat split; congruence.
Qed.

Lemma settings_ret {A} (a : A) : keeps_settings (ret a).
Proof. intros s. apply same_settings_refl. Qed.

Lemma settings_bind {A B} (c : M A) (k : A -> M B) :
  keeps_settings c -> (forall a, keeps_settings (k a)) ->
  keeps_settings (bind c k).
Proof.
  intros Hc Hk s. unfold bind. specialize (Hc s).
  destruct (c s) as [a s1]. cbn [snd] in Hc.
  eapply same_settings_trans; [exact Hc | apply Hk].
Qed.

Lemma settings_for_each {A} (l : list A) (body : A -> M unit) :
  (forall x, keeps_settings (body x)) -> keeps_settings (for_each l body).
Proof.
  intros H. induction l as [|x l IH]; cbn [for_each].
  - apply settings_ret.
  - apply settings_bind; auto.
Qed.

Lemma settings_NEW size : keeps_settings (PyDataMem_NEW size).
Proof. intros s. unfold same_settings. run_monad; repeat split. Qed.

Lemma settings_NEW_ZEROED n e : keeps_settings (PyDataMem_NEW_ZEROED n e).
Proof. intros s. unfold same_settings. run_monad; repeat split. Qed.

Lemma settings_FREE p : keeps_settings (PyDataMem_FREE p).
Proof. intros s. unfold same_settings. run_monad; repeat split. Qed.

Lemma settings_RENEW p size : keeps_settings (PyDataMem_RENEW p size).
Proof. intros s. unfold same_settings. run_monad; repeat split. Qed.

Lemma settings_PyArray_malloc size : keeps_settings (PyArray_malloc size).
Proof. intros s. unfold same_settings. run_monad; repeat split. Qed.

Lemma settings_PyArray_free p : keeps_settings (PyArray_free p).
Proof. intros s. unfold same_settings. run_monad; repeat split. Qed.

Lemma settings_set_bucket c n b s : same_settings s (set_bucket c n b s).
Proof. destruct c; repeat split. Qed.

Lemma settings_alloc nelem esz msz c alloc :
  (forall n, keeps_settings (alloc n)) ->
  keeps_settings (_npy_alloc_cache nelem esz msz c alloc).
Proof.
  intros H s. unfold _npy_alloc_cache.
  destruct (_ && _); [apply settings_set_bucket | apply H].
Qed.

Lemma settings_free p nelem msz c dealloc :
  (forall q, keeps_settings (dealloc q)) ->
  keeps_settings (_npy_free_cache p nelem msz c dealloc).
Proof.
  intros H s. unfold _npy_free_cache.
  destruct (_ && _); [apply settings_set_bucket | apply H].
Qed.

Lemma settings_clear msz c dealloc :
  (forall q, keeps_settings (dealloc q)) ->
  keeps_settings (_npy_clear_cache msz c dealloc).
Proof.
  intros H. unfold _npy_clear_cache. apply settings_for_each. intros k.
  unfold clear_bucket. apply settings_bind; [intros s; apply same_settings_refl|].
  intros b. apply settings_bind; [apply settings_for_each, H|].
  intros _ s. apply settings_set_bucket.
Qed.

Lemma settings_alloc_zero sz : keeps_settings (npy_alloc_cache_zero sz).
Proof.
  unfold npy_alloc_cache_zero. destruct (sz <? NBUCKETS);
    [|apply settings_NEW_ZEROED].
  apply settings_bind; [apply settings_alloc, settings_NEW|]. intros p.
  apply settings_bind; [|intros; apply settings_ret].
  destruct (negb _); [intros s; repeat split | apply settings_ret].
Qed.

(** What [npy_datamem_set_align] does, by cases. *)
Lemma set_align_cases align s :
  0 <= align < modulus ->
  npy_datamem_set_align align s = (-1, s) \/
  (is_power_of_two align /\ MIN_ALIGN <= align /\
   fst (npy_datamem_set_align align s) = 0 /\
   datamem_align (snd (npy_datamem_set_align align s)) = align /\
   datamem_align_mask (snd (npy_datamem_set_align align s)) = align - 1).
Proof.
  intros Hr.
  destruct (Z_lt_le_dec align MIN_ALIGN) as [Hlt|Hge].
  { left. apply set_align_rejects; auto. }
  destruct (Z.lxor align (align - 1) =? Z.lor align (align - 1)) eqn:T.
  - right. apply pow2_test in T; [|unfold MIN_ALIGN in *; lia].
    split; [exact T|]. split; [exact Hge|].
    apply set_align_accepts; assumption.
  - left. apply set_align_rejects; [exact Hr|]. left. intros Hp.
    apply pow2_test in Hp; [congruence | unfold MIN_ALIGN in *; lia].
Qed.

Lemma align_ok_same s s' : same_settings s s' -> align_ok s -> align_ok s'.
Proof.
  intros (_ & _ & Ha & Hm) H. unfold align_ok in *. rewrite Ha, Hm. exact H.
Qed.

Lemma settings_exec o s :
  match o with SetAlign _ | SetHook _ _ => True
          | _ => same_settings s (snd (exec o s)) end.
Proof.
  destruct o; cbn [exec]; try exact I.
  - apply (settings_bind (npy_alloc_cache sz) (fun _ => ret tt));
      [apply settings_alloc, settings_NEW | intros; apply settings_ret].
  - apply (settings_bind (npy_alloc_cache_zero sz) (fun _ => ret tt));
      [apply settings_alloc_zero | intros; apply settings_ret].
  - apply settings_free, settings_FREE.
  - apply (settings_bind (npy_alloc_cache_dim sz) (fun _ => ret tt));
      [apply settings_alloc, settings_PyArray_malloc
      | intros; apply settings_ret].
  - apply settings_free, settings_PyArray_free.
  - apply (settings_bind (PyDataMem_NEW size) (fun _ => ret tt));
      [apply settings_NEW | intros; apply settings_ret].
  - apply (settings_bind (PyDataMem_NEW_ZEROED nelems elsize) (fun _ => ret tt));
      [apply settings_NEW_ZEROED | intros; apply settings_ret].
  - apply (settings_bind (PyDataMem_RENEW ptr size) (fun _ => ret tt));
      [apply settings_RENEW | intros; apply settings_ret].
  - apply settings_FREE.
Qed.

Lemma align_ok_exec o s : op_ok o -> align_ok s -> align_ok (snd (exec o s)).
Proof.
  intros Ho Hs. pose proof (settings_exec o s) as H.
  destruct o; try (eapply align_ok_same; [exact H | exact Hs]).
  - cbn [exec op_ok] in *. unfold bind, ret.
    destruct (set_align_cases align s Ho) as [E|(Hp & Hm & _ & Ha & Hk)].
    + rewrite E. exact Hs.
    + destruct (npy_datamem_set_align align s) as [r s1]. cbn [snd] in *.
      unfold align_ok. rewrite Ha, Hk. repeat split; try assumption; lia.
  - cbn [exec]. unfold PyDataMem_SetEventHook, bind, gets, modify, ret.
    cbn [snd]. exact Hs.
Qed.

(** ** The blocks in the data cache stay aligned *)

Lemma cache_aligned_ext s s' :
  datacache s' = datacache s -> datamem_align s' = datamem_align s ->
  cache_aligned s -> cache_aligned s'.
Proof.
  intros Hc Ha H n i. unfold bucket. cbn [get_cache]. rewrite Hc, Ha.
  apply H.
Qed.

Lemma cache_aligned_keeps {A} (c : M A) s :
  keeps_caches c -> keeps_settings c ->
  cache_aligned s -> cache_aligned (snd (c s)).
Proof.
  intros Hk Hset. apply cache_aligned_ext; [apply Hk | apply Hset].
Qed.

Lemma bucket_other_cache n k b s :
  bucket Datacache n (set_bucket Dimcache k b s) = bucket Datacache n s.
Proof. reflexivity. Qed.

Lemma bucket_set_data_cases k n b s :
  bucket Datacache k (set_bucket Datacache n b s) = b \/
  bucket Datacache k (set_bucket Datacache n b s) = bucket Datacache k s.
Proof.
  unfold bucket, set_bucket. cbn [set_cache get_cache set_datacache datacache].
  destruct (decide (Z.to_nat n = Z.to_nat k)) as [E|Hne].
  - rewrite E.
    destruct (decide (Z.to_nat k < length (datacache s))%nat).
    + rewrite list_lookup_insert_eq by assumption. left. reflexivity.
    + rewrite list_insert_ge by lia. right. reflexivity.
  - rewrite list_lookup_insert_ne by assumption. right. reflexivity.
Qed.

Lemma cache_aligned_set_bucket c n b s :
  cache_aligned s ->
  (forall i, 0 <= i < available b -> ptr_at b i mod datamem_align s = 0) ->
  cache_aligned (set_bucket c n b s).
Proof.
  intros Hs Hb k i Hi.
  replace (datamem_align (set_bucket c n b s)) with (datamem_align s)
    by (destruct c; reflexivity).
  destruct c.
  - destruct (bucket_set_data_cases k n b s) as [E|E]; rewrite E in *; auto.
  - rewrite bucket_other_cache in *. auto.
Qed.

Lemma cache_aligned_alloc nelem esz msz c alloc s :
  (forall n, keeps_caches (alloc n)) -> (forall n, keeps_settings (alloc n)) ->
  cache_aligned s ->
  cache_aligned (snd (_npy_alloc_cache nelem esz msz c alloc s)).
Proof.
  intros Hk Hset Hs. unfold _npy_alloc_cache.
  destruct (_ && _) eqn:E; [|apply cache_aligned_keeps; auto].
  cbn [snd]. destruct c.
  - apply cache_aligned_set_bucket; [exact Hs|].
    intros i Hi. cbn [available] in Hi. unfold ptr_at. cbn [ptrs].
    apply (Hs nelem i). lia.
  - intros k i. rewrite bucket_other_cache. apply Hs.
Qed.

Lemma cache_aligned_free_data p sz s :
  cache_inv s -> cache_aligned s -> p mod datamem_align s = 0 ->
  cache_aligned (snd (npy_free_cache p sz s)).
Proof.
  intros Hinv Hs Hp. unfold npy_free_cache, _npy_free_cache.
  destruct (negb (p =? NULL) && (sz <? NBUCKETS)
            && (available (bucket Datacache sz s) <? NCACHE)) eqn:E;
    [|apply cache_aligned_keeps;
        [apply keeps_FREE | apply settings_FREE | exact Hs]].
  apply andb_true_iff in E as [_ E3]. apply Z.ltb_lt in E3.
  pose proof (bucket_ok_lookup Datacache sz s Hinv) as [Hav Hlen].
  cbn [snd]. apply cache_aligned_set_bucket; [exact Hs|].
  intros i Hi. cbn [available] in Hi. unfold ptr_at. cbn [ptrs].
  destruct (decide (i = available (bucket Datacache sz s))) as [->|Hne].
  - rewrite list_lookup_insert_eq; [exact Hp|].
    rewrite Hlen. unfold NCACHE in *. lia.
  - rewrite list_lookup_insert_ne by lia. apply (Hs sz i). lia.
Qed.

Lemma cache_aligned_free_dim p sz s :
  cache_aligned s -> cache_aligned (snd (npy_free_cache_dim p sz s)).
Proof.
  intros Hs. unfold npy_free_cache_dim, _npy_free_cache.
  destruct (_ && _);
    [|apply cache_aligned_keeps;
        [apply keeps_PyArray_free | apply settings_PyArray_free | exact Hs]].
  intros k i. cbn [snd]. rewrite bucket_other_cache. apply Hs.
Qed.

(** A multiple of a power of two is a multiple of every smaller one. *)
Lemma pow2_mod_mono a b p :
  is_power_of_two a -> is_power_of_two b -> a <= b ->
  p mod b = 0 -> p mod a = 0.
Proof.
  intros (i & Hi & ->) (j & Hj & ->) Hle Hp.
  assert (i <= j) by (apply (Z.pow_le_mono_r_iff 2); lia).
  apply Z.mod_divide in Hp; [|pose proof (Z.pow_pos_nonneg 2 j); lia].
  apply Z.mod_divide; [pose proof (Z.pow_pos_nonneg 2 i); lia|].
  apply Z.divide_trans with (2 ^ j); [|exact Hp].
  exists (2 ^ (j - i)). rewrite <- Z.pow_add_r by lia. f_equal. lia.
Qed.

Lemma bucket_data_empty_outside n s :
  cache_inv s -> NBUCKETS <= n -> available (bucket Datacache n s) = 0.
Proof.
  intros (L & _) Hn. unfold bucket. cbn [get_cache].
  rewrite (proj2 (lookup_ge_None _ _)); [reflexivity|].
  rewrite L. apply Z2Nat.inj_le; unfold NBUCKETS in *; lia.
Qed.

Lemma bucket_negative c n s : n < 0 -> bucket c n s = bucket c 0 s.
Proof. intros H. unfold bucket. rewrite Z2Nat.nonpos by lia. reflexivity. Qed.

Lemma cache_aligned_set_align a s :
  0 <= a < modulus -> cache_inv s -> align_ok s -> cache_aligned s ->
  cache_aligned (snd (npy_datamem_set_align a s)).
Proof.
  intros Hr Hinv Hok Hs.
  destruct (set_align_cases a s Hr) as [E|(Hp & Hm & _ & Ha & _)].
  { rewrite E. exact Hs. }
  destruct (Z_lt_le_dec (datamem_align s) a) as [Hraise|Hlow].
  - pose proof (set_align_raise_purges a s Hinv Hr Hp Hm Hraise) as (H0 & _).
    pose proof (cache_inv_set_align a s Hinv) as Hinv'.
    intros n i Hi. exfalso.
    assert (Hz : forall k, 0 <= k ->
              available (bucket Datacache k (snd (npy_datamem_set_align a s)))
              = 0).
    { intros k Hk. destruct (Z_lt_le_dec k NBUCKETS).
      - apply H0. lia.
      - apply bucket_data_empty_outside; assumption. }
    destruct (Z_lt_le_dec n 0) as [Hneg|Hpos].
    + rewrite bucket_negative in Hi by exact Hneg. rewrite Hz in Hi; lia.
    + rewrite Hz in Hi; lia.
  - rewrite set_align_no_raise by assumption. cbn [snd].
    intros n i Hi.
    change (bucket Datacache n (set_align a (a - 1) s))
      with (bucket Datacache n s) in *.
    change (datamem_align (set_align a (a - 1) s)) with a.
    apply (pow2_mod_mono a (datamem_align s));
      [exact Hp | apply Hok | exact Hlow | apply Hs; exact Hi].
Qed.

(** One operation keeps the three invariants together. *)
Lemma aligned_exec o s :
  op_ok o ->
  match o with FreeData p _ => p mod datamem_align s = 0 | _ => True end ->
  cache_inv s /\ align_ok s /\ cache_aligned s ->
  cache_inv (snd (exec o s)) /\ align_ok (snd (exec o s)) /\
  cache_aligned (snd (exec o s)).
Proof.
  intros Ho Hrel (Hinv & Hok & Hal).
  split; [apply cache_inv_exec; exact Hinv|].
  split; [apply align_ok_exec; assumption|].
  destruct o; cbn [exec].
  - unfold bind, ret, npy_alloc_cache.
    pose proof (cache_aligned_alloc sz 1 NBUCKETS Datacache PyDataMem_NEW s
                  keeps_NEW settings_NEW Hal) as H.
    destruct (_npy_alloc_cache _ _ _ _ _ s). exact H.
  - unfold npy_alloc_cache_zero. destruct (sz <? NBUCKETS).
    + unfold bind, ret, modify.
      pose proof (cache_aligned_alloc sz 1 NBUCKETS Datacache PyDataMem_NEW s
                    keeps_NEW settings_NEW Hal) as H.
      destruct (_npy_alloc_cache _ _ _ _ _ s) as [p s1].
      destruct (negb (p =? NULL)); exact H.
    + apply (cache_aligned_keeps (PyDataMem_NEW_ZEROED sz 1 ;; ret tt));
        [apply keeps_bind; [apply keeps_NEW_ZEROED | intros; apply keeps_ret]
        |apply settings_bind; [apply settings_NEW_ZEROED
                              | intros; apply settings_ret]
        |exact Hal].
  - apply cache_aligned_free_data; assumption.
  - unfold bind, ret, npy_alloc_cache_dim.
    match goal with |- context [_npy_alloc_cache ?a ?b ?c ?d ?e s] =>
      pose proof (cache_aligned_alloc a b c d e s keeps_PyArray_malloc
                    settings_PyArray_malloc Hal) as H;
      destruct (_npy_alloc_cache a b c d e s) end.
    exact H.
  - apply cache_aligned_free_dim. exact Hal.
  - unfold bind, ret. cbn [op_ok] in Ho.
    pose proof (cache_aligned_set_align align s Ho Hinv Hok Hal) as H.
    destruct (npy_datamem_set_align align s). exact H.
  - unfold PyDataMem_SetEventHook, bind, gets, modify, ret. cbn [snd].
    exact Hal.
  - apply (cache_aligned_keeps (PyDataMem_NEW size ;; ret tt));
      [apply keeps_bind; [apply keeps_NEW | intros; apply keeps_ret]
      |apply settings_bind; [apply settings_NEW | intros; apply settings_ret]
      |exact Hal].
  - apply (cache_aligned_keeps (PyDataMem_NEW_ZEROED nelems elsize ;; ret tt));
      [apply keeps_bind; [apply keeps_NEW_ZEROED | intros; apply keeps_ret]
      |apply settings_bind; [apply settings_NEW_ZEROED
                            | intros; apply settings_ret]
      |exact Hal].
  - apply (cache_aligned_keeps (PyDataMem_RENEW ptr size ;; ret tt));
      [apply keeps_bind; [apply keeps_RENEW | intros; apply keeps_ret]
      |apply settings_bind; [apply settings_RENEW | intros; apply settings_ret]
      |exact Hal].
  - apply cache_aligned_keeps; [apply keeps_FREE | apply settings_FREE | exact Hal].
Qed.

Lemma aligned_run_inv ops : forall s,
  Forall op_ok ops -> releases_aligned ops s ->
  cache_inv s /\ align_ok s /\ cache_aligned s ->
  cache_inv (run ops s) /\ align_ok (run ops s) /\ cache_aligned (run ops s).
Proof.
  unfold run. induction ops as [|o ops IH]; intros s Hok Hrel Hs.
  - exact Hs.
  - apply Forall_cons in Hok as [Ho Hok]. destruct Hrel as [Hr Hrel].
    cbn [for_each]. unfold bind.
    pose proof (aligned_exec o s Ho Hr Hs) as H1.
    destruct (exec o s) as [[] s1]. cbn [snd] in *. apply IH; assumption.
Qed.

(** C4, as amended: in every reachable state an address returned by
    [PyDataMem_NEW] is a multiple of the alignment, and so is an address
    returned by [npy_alloc_cache], from the cache or not, in every run in
    which each address released to the data cache was a multiple of the
    alignment in force at its release; [npy_alloc_cache_dim] on a miss
    returns the address the underlying allocator answers, as it is. *)
Theorem allocation_alignment (m : memory) (sc : list Z) (ops : list op) :
  Forall op_ok ops ->
  let s := run ops (init_state m sc) in
  align_ok s /\
  (forall size, fst (PyDataMem_NEW size s) mod datamem_align s = 0) /\
  (releases_aligned ops (init_state m sc) ->
   forall sz, fst (npy_alloc_cache sz s) mod datamem_align s = 0) /\
  (forall sz,
     NBUCKETS_DIM <= (if sz <? 2 then 2 else sz) \/
     available (bucket Dimcache (if sz <? 2 then 2 else sz) s) <= 0 ->
     fst (npy_alloc_cache_dim sz s)
     = fst (Libc.malloc (wrap ((if sz <? 2 then 2 else sz) * sizeof_ptr)) s)).
Proof.
  intros Hops s.
  assert (Hok : align_ok s).
  { unfold s, run. generalize (align_ok_init m sc).
    generalize (init_state m sc) as s0. clear s.
    induction Hops as [|o ops Ho _ IH]; intros s0 H0; cbn [for_each].
    - exact H0.
    - unfold bind. pose proof (align_ok_exec o s0 Ho H0) as H1.
      destruct (exec o s0) as [[] s1]. apply IH. exact H1. }
  split; [exact Hok|].
  split; [intros; apply NEW_aligned; exact Hok|]. split.
  - intros Hrel sz.
    destruct (aligned_run_inv ops (init_state m sc) Hops Hrel)
      as (_ & _ & Hal).
    { split; [apply cache_inv_init|].
      split; [apply align_ok_init | apply cache_aligned_init]. }
    fold s in Hal. unfold npy_alloc_cache, _npy_alloc_cache.
    destruct ((sz <? NBUCKETS) && (0 <? available (bucket Datacache sz s)))
      eqn:E.
    + cbn [fst]. apply andb_true_iff in E as [_ E]. apply Z.ltb_lt in E.
      apply Hal. lia.
    + apply NEW_aligned. exact Hok.
  - intros sz H. unfold npy_alloc_cache_dim. rewrite alloc_miss by exact H.
    reflexivity.
Qed.

Lemma allocation_alignment_witness :
  Forall op_ok aligned_run /\
  releases_aligned aligned_run (init_state garbage [4096; 8192]) /\
  datamem_align (run aligned_run (init_state garbage [4096; 8192])) = 32 /\
  available
    (bucket Datacache 8 (run aligned_run (init_state garbage [4096; 8192])))
  = 1 /\
  fst (npy_alloc_cache 8 (run aligned_run (init_state garbage [4096; 8192])))
  = 8224 /\
  fst (npy_alloc_cache 8 (run aligned_run (init_state garbage [4096; 8192])))
  mod datamem_align (run aligned_run (init_state garbage [4096; 8192])) = 0 /\
  Forall op_ok aligned_run_lowered /\
  releases_aligned aligned_run_lowered (init_state garbage [4096; 8192]) /\
  datamem_align (run aligned_run_lowered (init_state garbage [4096; 8192]))
  = 16 /\
  fst (npy_alloc_cache 8
         (run aligned_run_lowered (init_state garbage [4096; 8192])))
  mod datamem_align
        (run aligned_run_lowered (init_state garbage [4096; 8192])) = 0.
Proof.
  assert (O1 : Forall op_ok aligned_run).
  { unfold aligned_run. repeat constructor; unfold modulus; cbn; lia. }
  assert (R1 : releases_aligned aligned_run (init_state garbage [4096; 8192])).
  { vm_compute. repeat split. }
  assert (O2 : Forall op_ok aligned_run_lowered).
  { unfold aligned_run_lowered, aligned_run.
    repeat constructor; unfold modulus; cbn; lia. }
  assert (R2 : releases_aligned aligned_run_lowered
                 (init_state garbage [4096; 8192])).
  { vm_compute. repeat split. }
  destruct (allocation_alignment garbage [4096; 8192] aligned_run O1)
    as (_ & _ & A1 & _).
  destruct (allocation_alignment garbage [4096; 8192] aligned_run_lowered O2)
    as (_ & _ & A2 & _).
  split; [exact O1|]. split; [exact R1|].
  split; [vm_compute; reflexivity|]. split; [vm_compute; reflexivity|].
  split; [vm_compute; reflexivity|].
  split; [exact (A1 R1 8)|].
  split; [exact O2|]. split; [exact R2|].
  split; [vm_compute; reflexivity|].
  exact (A2 R2 8).
Defined.

(** C5 fails on the code.  Under alignment 32 a block of 16 bytes is
    allocated at base 4112 (user address 4128, offset 16) and filled with
    1..16; [PyDataMem_RENEW] to 32 bytes, the library moving the block to
    base 8192 (offset 32), stores the header word over bytes 8..15 of the
    payload before it moves the payload: byte 8 of the result is 0, not 9. *)
Theorem renew_loses_content :
  fst renew_alloc = 4128 /\
  datamem_align renew_before = 32 /\
  calls renew_before = [Malloc 55 4112] /\
  map (fun i => mem renew_before (4128 + i)) [0; 1; 7; 8; 9; 15]
  = [1; 2; 8; 9; 10; 16] /\
  fst renew_after = 8224 /\
  calls (snd renew_after) = [Realloc 4112 71 8192; Malloc 55 4112] /\
  map (fun i => mem (snd renew_after) (8224 + i)) [0; 1; 7; 8; 9; 15]
  = [1; 2; 8; 0; 32; 0].
Proof. vm_compute. repeat split. Qed.

(** C6 fails on the code.  For [nelems = 2^64 - 10] and [elsize = 1] the
    product does not overflow, but [get_aligned_size] wraps to 13: calloc
    is asked for 13 bytes at 4096, and the address returned, 4112, is not
    null and is not zero-filled (it is not even inside the block). *)
Theorem zeroed_padding_wraps :
  npy_mul_with_overflow_intp (2 ^ 64 - 10) 1 = (false, 2 ^ 64 - 10) /\
  fst zeroed_wrapped = 4112 /\
  calls (snd zeroed_wrapped) = [Calloc 13 1 4096] /\
  blocks (snd zeroed_wrapped) !! 4096 = Some 13 /\
  mem (snd zeroed_wrapped) 4112 = 170.
Proof. vm_compute. repeat split. Qed.

(** C8 fails on the code.  A block allocated under alignment 16 is still
    in use when the alignment is raised to 32 (the call succeeds and purges
    the cache); released afterwards it enters the cache, and the next
    allocation returns it: 4112 is a multiple of 16 only. *)
Theorem raise_then_stale_block :
  fst (npy_alloc_cache 8 (init_state garbage [4096])) = 4112 /\
  fst (npy_datamem_set_align 32 (run [AllocData 8] (init_state garbage [4096])))
  = 0 /\
  datamem_align stale_state = 32 /\
  fst (npy_alloc_cache 8 stale_state) = 4112 /\
  calls (snd (npy_alloc_cache 8 stale_state)) = [Malloc 31 4096] /\
  4112 mod 16 = 0 /\ 4112 mod 32 = 16.
Proof. vm_compute. repeat split. Qed.

(** ** What does hold of [PyDataMem_RENEW] *)

Lemma RENEW_refused ptr size s :
  fst (Libc.realloc (fst (get_original_pointer ptr s))
         (fst (get_aligned_size size s)) s) = NULL ->
  fst (PyDataMem_RENEW ptr size s) = NULL /\
  blocks (snd (PyDataMem_RENEW ptr size s)) = blocks s /\
  mem (snd (PyDataMem_RENEW ptr size s)) = mem s.
Proof.
  run_monad; intros H; cbn in H; subst;
    repeat split; try reflexivity; try discriminate.
Qed.

Lemma RENEW_in_place ptr size s :
  fst (Libc.realloc (fst (get_original_pointer ptr s))
         (fst (get_aligned_size size s)) s) <> NULL ->
  fst (Libc.realloc (fst (get_original_pointer ptr s))
         (fst (get_aligned_size size s)) s)
  = fst (get_original_pointer ptr s) ->
  fst (PyDataMem_RENEW ptr size s) = ptr /\
  mem (snd (PyDataMem_RENEW ptr size s)) = mem s.
Proof.
  run_monad; intros H1 H2; cbn in H1, H2; subst;
    repeat split; try reflexivity;
    repeat match goal with
           | H : (_ =? _) = true |- _ => apply Z.eqb_eq in H
           | H : (_ =? _) = false |- _ => apply Z.eqb_neq in H
           end; try congruence; try contradiction.
Qed.

(** When the library moves the block and the payload's offset in the new
    block is not larger than in the old one, the header store falls before
    the bytes realloc copied, and the payload is preserved. *)
Lemma RENEW_moved_preserves ptr size s base oldsz newbase rest :
  align_ok s -> 0 <= size ->
  size + sizeof_ptr + (datamem_align s - 1) < modulus ->
  load_word (mem s) (ptr - sizeof_ptr) = base ->
  blocks s !! base = Some (oldsz + sizeof_ptr + (datamem_align s - 1)) ->
  0 <= oldsz -> 0 < base ->
  base + sizeof_ptr <= ptr <= base + sizeof_ptr + (datamem_align s - 1) ->
  ptr < modulus ->
  script s = newbase :: rest -> newbase <> base -> 0 < newbase ->
  newbase + (size + sizeof_ptr + (datamem_align s - 1)) < modulus ->
  fst (PyDataMem_RENEW ptr size s) - newbase <= ptr - base ->
  forall i, 0 <= i < Z.min oldsz size ->
    mem (snd (PyDataMem_RENEW ptr size s)) (fst (PyDataMem_RENEW ptr size s) + i)
    = mem s (ptr + i).
Proof.
  intros Hok Hsize Hno Hhdr Hblk Hold Hbase Hptr Hptr' Hsc Hne Hnb Hnblk.
  destruct (align_ok_range s Hok) as (k & Hk & Ea & Em).
  assert (Hpos : 16 <= datamem_align s).
  { destruct Hok as (_ & Hr & _). unfold MIN_ALIGN in Hr. lia. }
  assert (Em' : datamem_align_mask s = datamem_align s - 1) by lia.
  unfold sizeof_ptr in *.
  set (a := datamem_align s) in *.
  set (asz := size + 8 + (a - 1)) in *.
  set (n := Z.min (oldsz + 8 + (a - 1)) asz).
  set (s1 := log_call (Realloc base asz newbase)
               (set_mem (memmove (mem s) newbase base n)
                  (set_blocks (<[newbase := asz]> (delete base (blocks s)))
                     (set_script rest s)))).
  assert (Hok1 : align_ok s1) by exact Hok.
  pose proof (align_pointer_value newbase s1 Hok1) as Hval.
  change (datamem_align_mask s1) with (datamem_align_mask s) in Hval.
  change (datamem_align s1) with a in Hval.
  rewrite Em' in Hval. unfold sizeof_ptr in Hval.
  rewrite (wrap_small (newbase + 8 + _)) in Hval by (unfold asz in *; lia).
  pose proof (Z.mod_pos_bound (newbase + 8 + (a - 1)) a ltac:(lia)) as Hm.
  assert (E : PyDataMem_RENEW ptr size s
              = (let '(r, s2) := align_pointer newbase s1 in
                 let s3 := if negb (wrap (r - newbase) =? wrap (ptr - base))
                           then set_mem (memmove (mem s2) r
                                           (wrap (newbase + wrap (ptr - base)))
                                           size) s2
                           else s2 in
                 let '(_, s4) := call_eventhook ptr r size s3 in
                 (r, s4))).
  { unfold PyDataMem_RENEW, get_original_pointer, get_aligned_size,
      Libc.realloc, Libc.answer, bind, gets, modify, ret.
    rewrite Hsc. cbv beta iota.
    cbn [fst snd mem set_script datamem_align_mask blocks].
    unfold sizeof_ptr. rewrite Hhdr, Em'. fold asz.
    rewrite (wrap_small asz) by (unfold asz; lia).
    replace (newbase =? NULL) with false
      by (symmetry; apply Z.eqb_neq; unfold NULL; lia).
    replace (newbase =? base) with false
      by (symmetry; apply Z.eqb_neq; exact Hne).
    rewrite Hblk. cbn [from_option id]. fold n. fold s1.
    destruct (align_pointer newbase s1) as [r s2].
    destruct (negb (wrap (r - newbase) =? wrap (ptr - base))); reflexivity. }
  rewrite E. clear E.
  destruct (align_pointer newbase s1) as [r s2] eqn:Ep.
  cbn [fst] in Hval.
  assert (Hmem : mem s2 = store_word (mem s1) (r - sizeof_ptr) newbase).
  { unfold align_pointer in Ep. injection Ep as <- <-. reflexivity. }
  assert (Hcopied : forall j, ptr - base <= j -> j < ptr - base + Z.min oldsz size ->
            mem s2 (newbase + j) = mem s (base + j) \/ newbase + j < r).
  { intros j Hj1 Hj2.
    destruct (Z_lt_le_dec (newbase + j) r) as [Hlt|Hge]; [right; exact Hlt|left].
    rewrite Hmem. unfold store_word, in_range, sizeof_ptr.
    replace ((r - 8 <=? newbase + j) && (newbase + j <? r - 8 + 8)) with false
      by (symmetry; apply andb_false_iff; right; apply Z.ltb_ge; lia).
    unfold s1. cbn [mem log_call set_mem]. unfold memmove, in_range.
    replace ((newbase <=? newbase + j) && (newbase + j <? newbase + n)) with true
      by (symmetry; apply andb_true_iff; split;
          [apply Z.leb_le | apply Z.ltb_lt]; unfold n, asz; lia).
    f_equal. lia. }
  assert (Hoff : wrap (ptr - base) = ptr - base) by (apply wrap_small; lia).
  assert (Hnoff : wrap (r - newbase) = r - newbase)
    by (apply wrap_small; unfold asz in *; lia).
  rewrite Hoff, Hnoff.
  rewrite (wrap_small (newbase + (ptr - base))) by (unfold asz in *; lia).
  cbv zeta.
  assert (Hfst : forall s3,
            fst (let '(_, s4) := call_eventhook ptr r size s3 in (r, s4)) = r).
  { intros s3. unfold call_eventhook.
    destruct (_PyDataMem_eventhook s3 =? NULL); reflexivity. }
  assert (Hsnd : forall s3,
            mem (snd (let '(_, s4) := call_eventhook ptr r size s3 in (r, s4)))
            = mem s3).
  { intros s3. unfold call_eventhook.
    destruct (_PyDataMem_eventhook s3 =? NULL); reflexivity. }
  rewrite Hfst, Hsnd. intros Hle i Hi.
  destruct (Hcopied (ptr - base + i) ltac:(lia) ltac:(lia)) as [H|H]; [|lia].
  destruct (r - newbase =? ptr - base) eqn:Eo; cbn [negb].
  - apply Z.eqb_eq in Eo.
    replace (r + i) with (newbase + (ptr - base + i)) by lia.
    rewrite H. f_equal. lia.
  - cbn [mem set_mem]. unfold memmove at 1, in_range.
    replace ((r <=? r + i) && (r + i <? r + size)) with true
      by (symmetry; apply andb_true_iff; split;
          [apply Z.leb_le | apply Z.ltb_lt]; lia).
    replace (newbase + (ptr - base) + (r + i - r))
      with (newbase + (ptr - base + i)) by lia.
    rewrite H. f_equal. lia.
Qed.

Example renew_down_keeps_content :
  fst renew_down_alloc = 4128 /\
  fst (PyDataMem_RENEW 4128 32 renew_down_before) = 8224 /\
  forall i, 0 <= i < 16 ->
    mem (snd (PyDataMem_RENEW 4128 32 renew_down_before)) (8224 + i)
    = mem renew_down_before (4128 + i).
Proof.
  split; [reflexivity|]. split; [reflexivity|]. intros i Hi.
  change 8224 with (fst (PyDataMem_RENEW 4128 32 renew_down_before)).
  apply (RENEW_moved_preserves 4128 32 renew_down_before 4096 16 8208 []);
    try (vm_compute; congruence); try reflexivity; try lia.
  - split; [exists 5; split; [lia | reflexivity]|].
    split; [vm_compute; split; [discriminate | reflexivity] | reflexivity].
  - vm_compute. split; discriminate.
Qed.

(** ** What does hold of the zeroed allocations *)

Lemma NEW_ZEROED_overflow nelems elsize s :
  modulus <= nelems * elsize ->
  fst (PyDataMem_NEW_ZEROED nelems elsize s) = NULL /\
  calls (snd (PyDataMem_NEW_ZEROED nelems elsize s)) = calls s /\
  blocks (snd (PyDataMem_NEW_ZEROED nelems elsize s)) = blocks s /\
  script (snd (PyDataMem_NEW_ZEROED nelems elsize s)) = script s.
Proof.
  intros H. apply Z.leb_le in H.
  unfold PyDataMem_NEW_ZEROED, npy_mul_with_overflow_intp. rewrite H.
  unfold bind, ret, call_eventhook.
  destruct (_PyDataMem_eventhook s =? NULL); repeat split.
Qed.

Lemma NEW_ZEROED_zero_filled nelems elsize s base rest :
  align_ok s -> 0 <= nelems * elsize ->
  nelems * elsize + sizeof_ptr + (datamem_align s - 1) < modulus ->
  script s = base :: rest -> 0 < base ->
  base + (nelems * elsize + sizeof_ptr + (datamem_align s - 1)) < modulus ->
  fst (PyDataMem_NEW_ZEROED nelems elsize s) <> NULL /\
  forall i, 0 <= i < nelems * elsize ->
    mem (snd (PyDataMem_NEW_ZEROED nelems elsize s))
      (fst (PyDataMem_NEW_ZEROED nelems elsize s) + i) = 0.
Proof.
  intros Hok Hsz Hno Hsc Hbase Hblk.
  set (size := nelems * elsize) in *.
  destruct (align_ok_range s Hok) as (k & Hk & Ea & Em).
  assert (Hpos : 16 <= datamem_align s).
  { destruct Hok as (_ & Hr & _). unfold MIN_ALIGN in Hr. lia. }
  assert (Em' : datamem_align_mask s = datamem_align s - 1) by lia.
  unfold sizeof_ptr in *.
  assert (Hnov : (modulus <=? size) = false) by (apply Z.leb_gt; lia).
  set (asz := size + 8 + (datamem_align s - 1)) in *.
  (* the state calloc leaves *)
  set (s1 := log_call (Calloc asz 1 base)
               (set_mem (memset (mem s) base 0 (asz * 1))
                  (set_blocks (<[base := asz * 1]> (blocks s))
                     (set_script rest s)))).
  assert (Hok1 : align_ok s1) by exact Hok.
  pose proof (align_pointer_value base s1 Hok1) as Hval.
  change (datamem_align_mask s1) with (datamem_align_mask s) in Hval.
  change (datamem_align s1) with (datamem_align s) in Hval.
  rewrite Em' in Hval. unfold sizeof_ptr in Hval.
  rewrite (wrap_small (base + 8 + _)) in Hval by (unfold asz in *; lia).
  pose proof (Z.mod_pos_bound (base + 8 + (datamem_align s - 1))
                (datamem_align s) ltac:(lia)) as Hm.
  assert (E : PyDataMem_NEW_ZEROED nelems elsize s
              = (let '(p, s2) := align_pointer base s1 in
                 let '(_, s3) := call_eventhook NULL p (wrap size) s2 in
                 (p, s3))).
  { unfold PyDataMem_NEW_ZEROED, npy_mul_with_overflow_intp.
    fold size. rewrite Hnov, (wrap_small size) by lia.
    unfold bind at 1 2 3, get_aligned_size, gets, Libc.calloc, Libc.answer.
    unfold bind at 1 2 3 4, modify, ret. rewrite Hsc. cbn [fst snd].
    rewrite Em'. unfold sizeof_ptr. fold asz. rewrite (wrap_small asz) by (unfold asz; lia).
    replace (modulus <=? asz * 1) with false by (symmetry; apply Z.leb_gt; lia).
    replace (base =? NULL) with false by (symmetry; apply Z.eqb_neq; unfold NULL; lia).
    cbn [negb]. reflexivity. }
  rewrite E. clear E.
  destruct (align_pointer base s1) as [p s2] eqn:Ep.
  cbn [fst] in Hval.
  assert (Hmem : mem s2 = store_word (mem s1) (p - sizeof_ptr) base).
  { unfold align_pointer in Ep. injection Ep as <- <-. reflexivity. }
  unfold call_eventhook.
  destruct (_PyDataMem_eventhook s2 =? NULL); cbn [fst snd mem log_event];
    (split; [unfold NULL; lia|]); intros i Hi; rewrite Hmem;
    unfold store_word, in_range, sizeof_ptr, s1; cbn [mem log_call set_mem];
    unfold memset, in_range;
    replace ((p - 8 <=? p + i) && (p + i <? p - 8 + 8)) with false
      by (symmetry; apply andb_false_iff; right; apply Z.ltb_ge; lia);
    replace ((base <=? p + i) && (p + i <? base + asz * 1)) with true
      by (symmetry; apply andb_true_iff; split;
          [apply Z.leb_le | apply Z.ltb_lt]; unfold asz; lia);
    reflexivity.
Qed.

Lemma alloc_cache_zero_filled sz s :
  0 <= sz < NBUCKETS -> fst (npy_alloc_cache_zero sz s) <> NULL ->
  forall i, 0 <= i < sz ->
    mem (snd (npy_alloc_cache_zero sz s)) (fst (npy_alloc_cache_zero sz s) + i)
    = 0.
Proof.
  intros Hsz. unfold npy_alloc_cache_zero.
  replace (sz <? NBUCKETS) with true by (symmetry; apply Z.ltb_lt; lia).
  unfold bind, ret, modify.
  destruct (_npy_alloc_cache sz 1 NBUCKETS Datacache PyDataMem_NEW s)
    as [p s1].
  destruct (p =? NULL) eqn:E; cbn [negb fst snd].
  - apply Z.eqb_eq in E. contradiction.
  - intros _ i Hi. cbn [mem set_mem]. unfold memset, in_range.
    replace ((p <=? p + i) && (p + i <? p + sz)) with true
      by (symmetry; apply andb_true_iff; split;
          [apply Z.leb_le | apply Z.ltb_lt]; lia).
    reflexivity.
Qed.

(** * Further properties of the allocator *)

(** ** Slots below [available] hold blocks *)

Lemma bucket_set_cases c c' k n b s :
  bucket c' k (set_bucket c n b s) = b \/
  bucket c' k (set_bucket c n b s) = bucket c' k s.
Proof.
  destruct c, c'.
  - apply bucket_set_data_cases.
  - right. reflexivity.
  - right. reflexivity.
  - unfold bucket, set_bucket.
    cbn [set_cache get_cache set_dimcache dimcache].
    destruct (decide (Z.to_nat n = Z.to_nat k)) as [E|Hne].
    + rewrite E.
      destruct (decide (Z.to_nat k < length (dimcache s))%nat).
      * rewrite list_lookup_insert_eq by assumption. left. reflexivity.
      * rewrite list_insert_ge by lia. right. reflexivity.
    + rewrite list_lookup_insert_ne by assumption. right. reflexivity.
Qed.

Lemma nonnull_set_bucket c n b s :
  cache_nonnull s ->
  (forall i, 0 <= i < available b -> ptr_at b i <> NULL) ->
  cache_nonnull (set_bucket c n b s).
Proof.
  intros Hs Hb c' k i Hi.
  destruct (bucket_set_cases c c' k n b s) as [E|E]; rewrite E in *; auto.
Qed.

Lemma nonnull_keeps {A} (c : M A) s :
  keeps_caches c -> cache_nonnull s -> cache_nonnull (snd (c s)).
Proof.
  intros Hk Hs c' k i. rewrite (keeps_bucket c c' k s Hk). apply Hs.
Qed.

Lemma nonnull_alloc nelem esz msz c alloc s :
  (forall n, keeps_caches (alloc n)) ->
  cache_nonnull s ->
  cache_nonnull (snd (_npy_alloc_cache nelem esz msz c alloc s)).
Proof.
  intros Ha Hs. unfold _npy_alloc_cache.
  destruct (_ && _) eqn:E; [|apply nonnull_keeps; auto].
  cbn [snd]. apply nonnull_set_bucket; [exact Hs|].
  intros i Hi. cbn [available] in Hi. unfold ptr_at. cbn [ptrs].
  apply (Hs c nelem i). lia.
Qed.

Lemma nonnull_free p nelem msz c dealloc s :
  (forall q, keeps_caches (dealloc q)) ->
  cache_inv s -> cache_nonnull s ->
  cache_nonnull (snd (_npy_free_cache p nelem msz c dealloc s)).
Proof.
  intros Hd Hinv Hs. unfold _npy_free_cache.
  destruct (negb (p =? NULL) && (nelem <? msz)
            && (available (bucket c nelem s) <? NCACHE)) eqn:E;
    [|apply nonnull_keeps; auto].
  apply andb_true_iff in E as [E E3]. apply andb_true_iff in E as [E1 E2].
  apply negb_true_iff, Z.eqb_neq in E1. apply Z.ltb_lt in E3.
  pose proof (bucket_ok_lookup c nelem s Hinv) as [Hav Hlen].
  cbn [snd]. apply nonnull_set_bucket; [exact Hs|].
  intros i Hi. cbn [available] in Hi. unfold ptr_at. cbn [ptrs].
  destruct (decide (i = available (bucket c nelem s))) as [->|Hne].
  - rewrite list_lookup_insert_eq; [exact E1|].
    rewrite Hlen. unfold NCACHE in *. lia.
  - rewrite list_lookup_insert_ne by lia. apply (Hs c nelem i). lia.
Qed.

Lemma nonnull_clear_bucket c dealloc k s :
  (forall q, keeps_caches (dealloc q)) ->
  cache_nonnull s -> cache_nonnull (snd (clear_bucket c dealloc k s)).
Proof.
  intros Hd Hs. unfold clear_bucket, bind, gets, modify.
  pose proof (nonnull_keeps
                (for_each (take (Z.to_nat (available (bucket c k s)))
                             (ptrs (bucket c k s))) dealloc) s
                (keeps_for_each _ _ Hd) Hs) as H1.
  destruct (for_each _ dealloc s) as [[] s1]. cbn [snd] in *.
  apply nonnull_set_bucket; [exact H1|]. cbn [available]. intros i Hi. lia.
Qed.

Lemma nonnull_clear msz c dealloc s :
  (forall q, keeps_caches (dealloc q)) ->
  cache_nonnull s -> cache_nonnull (snd (_npy_clear_cache msz c dealloc s)).
Proof.
  intros Hd. unfold _npy_clear_cache. apply for_each_inv.
  intros x s'. apply nonnull_clear_bucket. exact Hd.
Qed.

Lemma nonnull_set_align a s :
  cache_nonnull s -> cache_nonnull (snd (npy_datamem_set_align a s)).
Proof.
  intros Hs. unfold npy_datamem_set_align.
  destruct (a <? MIN_ALIGN); [exact Hs|].
  destruct (negb _); [exact Hs|].
  unfold bind, gets, modify, ret.
  destruct (datamem_align s <? a); [|exact Hs].
  pose proof (nonnull_clear NBUCKETS Datacache PyDataMem_FREE s keeps_FREE Hs)
    as H.
  destruct (_npy_clear_cache NBUCKETS Datacache PyDataMem_FREE s) as [[] s1].
  exact H.
Qed.

Lemma keeps_then_tt {A} (c : M A) :
  keeps_caches c -> keeps_caches (c ;; ret tt).
Proof. intros H. apply keeps_bind; [exact H | intros; apply keeps_ret]. Qed.

Lemma nonnull_exec o s :
  cache_inv s -> cache_nonnull s -> cache_nonnull (snd (exec o s)).
Proof.
  intros Hinv Hs. destruct o; cbn [exec].
  - unfold bind, ret, npy_alloc_cache.
    pose proof (nonnull_alloc sz 1 NBUCKETS Datacache PyDataMem_NEW s
                  keeps_NEW Hs) as H.
    destruct (_npy_alloc_cache _ _ _ _ _ s). exact H.
  - unfold npy_alloc_cache_zero. destruct (sz <? NBUCKETS).
    + unfold bind, ret, modify.
      pose proof (nonnull_alloc sz 1 NBUCKETS Datacache PyDataMem_NEW s
                    keeps_NEW Hs) as H.
      destruct (_npy_alloc_cache _ _ _ _ _ s) as [p s1].
      destruct (negb (p =? NULL)); exact H.
    + apply nonnull_keeps; [apply keeps_then_tt, keeps_NEW_ZEROED | exact Hs].
  - apply nonnull_free; [apply keeps_FREE | exact Hinv | exact Hs].
  - unfold bind, ret, npy_alloc_cache_dim.
    match goal with |- context [_npy_alloc_cache ?a ?b ?c ?d ?e s] =>
      pose proof (nonnull_alloc a b c d e s keeps_PyArray_malloc Hs) as H;
      destruct (_npy_alloc_cache a b c d e s) end.
    exact H.
  - apply nonnull_free; [apply keeps_PyArray_free | exact Hinv | exact Hs].
  - unfold bind, ret.
    pose proof (nonnull_set_align align s Hs) as H.
    destruct (npy_datamem_set_align align s). exact H.
  - apply nonnull_keeps; [apply keeps_then_tt, keeps_SetEventHook | exact Hs].
  - apply nonnull_keeps; [apply keeps_then_tt, keeps_NEW | exact Hs].
  - apply nonnull_keeps; [apply keeps_then_tt, keeps_NEW_ZEROED | exact Hs].
  - apply nonnull_keeps; [apply keeps_then_tt, keeps_RENEW | exact Hs].
  - apply nonnull_keeps; [apply keeps_FREE | exact Hs].
Qed.

Lemma nonnull_init m sc : cache_nonnull (init_state m sc).
Proof.
  intros c n i Hi. exfalso. revert Hi. unfold bucket.
  destruct c; cbn [get_cache init_state datacache dimcache].
  - destruct (replicate _ _ !! Z.to_nat n) as [b|] eqn:E.
    + apply lookup_replicate in E as [-> _]. simpl. lia.
    + simpl. lia.
  - destruct (replicate _ _ !! Z.to_nat n) as [b|] eqn:E.
    + apply lookup_replicate in E as [-> _]. simpl. lia.
    + simpl. lia.
Qed.

Lemma reachable_inv ops : forall s,
  cache_inv s -> cache_nonnull s ->
  cache_inv (run ops s) /\ cache_nonnull (run ops s).
Proof.
  unfold run. induction ops as [|o ops IH]; intros s H1 H2; cbn [for_each].
  - split; assumption.
  - unfold bind. pose proof (cache_inv_exec o s H1) as I1.
    pose proof (nonnull_exec o s H1 H2) as I2.
    destruct (exec o s) as [[] s1]. apply IH; assumption.
Qed.

(** X1: the cache never hands out NULL.  In every reachable state every
    slot below [available] holds a non-null address, so an allocation that
    the cache serves returns a non-null address, for both caches. *)
Theorem cache_never_returns_null (m : memory) (sc : list Z) (ops : list op) :
  (forall cache n i,
     0 <= i < available (bucket cache n (run ops (init_state m sc))) ->
     ptr_at (bucket cache n (run ops (init_state m sc))) i <> NULL) /\
  (forall sz, sz < NBUCKETS ->
     0 < available (bucket Datacache sz (run ops (init_state m sc))) ->
     fst (npy_alloc_cache sz (run ops (init_state m sc))) <> NULL /\
     fst (npy_alloc_cache_zero sz (run ops (init_state m sc))) <> NULL) /\
  (forall sz, (if sz <? 2 then 2 else sz) < NBUCKETS_DIM ->
     0 < available (bucket Dimcache (if sz <? 2 then 2 else sz)
                      (run ops (init_state m sc))) ->
     fst (npy_alloc_cache_dim sz (run ops (init_state m sc))) <> NULL).
Proof.
  destruct (reachable_inv ops (init_state m sc) (cache_inv_init m sc)
              (nonnull_init m sc)) as [Hinv Hnn].
  set (s := run ops (init_state m sc)) in *.
  split; [exact Hnn|]. split.
  - intros sz Hsz Hav.
    assert (H : fst (npy_alloc_cache sz s) <> NULL).
    { unfold npy_alloc_cache. rewrite alloc_hit by assumption. cbn [fst].
      apply Hnn. lia. }
    split; [exact H|]. unfold npy_alloc_cache_zero.
    replace (sz <? NBUCKETS) with true by (symmetry; apply Z.ltb_lt; exact Hsz).
    unfold bind, ret, modify. fold (npy_alloc_cache sz).
    destruct (npy_alloc_cache sz s) as [p s1]. cbn [fst] in *.
    destruct (negb (p =? NULL)); exact H.
  - intros sz Hsz Hav. unfold npy_alloc_cache_dim.
    rewrite alloc_hit by assumption. cbn [fst]. apply Hnn. lia.
Qed.

Lemma cache_never_returns_null_witness :
  0 < available
        (bucket Datacache 8
           (run [AllocData 8; FreeData 4112 8] (init_state garbage [4096]))) /\
  fst (npy_alloc_cache 8
         (run [AllocData 8; FreeData 4112 8] (init_state garbage [4096])))
  <> NULL.
Proof.
  assert (H : 0 < available
                    (bucket Datacache 8
                       (run [AllocData 8; FreeData 4112 8]
                          (init_state garbage [4096]))))
    by (vm_compute; reflexivity).
  assert (L : 8 < NBUCKETS) by (vm_compute; reflexivity).
  split; [exact H|].
  exact (proj1 (proj1 (proj2 (cache_never_returns_null garbage [4096]
                                [AllocData 8; FreeData 4112 8])) 8 L H)).
Defined.

(** ** The buckets are stacks *)

Lemma alloc_n_snoc n k : forall s,
  alloc_n (S k) n s
  = (let '(l, s1) := alloc_n k n s in
     let '(p, s2) := npy_alloc_cache n s1 in (l ++ [p], s2)).
Proof.
  induction k as [|k IH]; intros s.
  - cbn [alloc_n]. unfold bind, ret.
    destruct (npy_alloc_cache n s) as [p s1]. reflexivity.
  - change (alloc_n (S (S k)) n s)
      with (let '(p0, s0) := npy_alloc_cache n s in
            let '(l, s1) := alloc_n (S k) n s0 in (p0 :: l, s1)).
    change (alloc_n (S k) n s)
      with (let '(p0, s0) := npy_alloc_cache n s in
            let '(l, s1) := alloc_n k n s0 in (p0 :: l, s1)).
    destruct (npy_alloc_cache n s) as [p0 s0]. rewrite IH.
    destruct (alloc_n k n s0) as [l s1].
    destruct (npy_alloc_cache n s1) as [p s2]. reflexivity.
Qed.

Lemma free_all_cons p ps n s :
  free_all (p :: ps) n s = free_all ps n (snd (npy_free_cache p n s)).
Proof.
  unfold free_all. cbn [for_each]. unfold bind.
  destruct (npy_free_cache p n s) as [[] s1]. reflexivity.
Qed.

Lemma lifo ps : forall s n,
  cache_inv s -> 0 <= n < NBUCKETS -> Forall (fun p => p <> NULL) ps ->
  available (bucket Datacache n s) + Z.of_nat (length ps) <= NCACHE ->
  let r := alloc_n (length ps) n (snd (free_all ps n s)) in
  fst r = rev ps /\ cache_inv (snd r) /\
  available (bucket Datacache n (snd r)) = available (bucket Datacache n s) /\
  (forall i, 0 <= i < available (bucket Datacache n s) ->
     ptr_at (bucket Datacache n (snd r)) i = ptr_at (bucket Datacache n s) i) /\
  calls (snd r) = calls s /\ events (snd r) = events s.
Proof.
  induction ps as [|p ps IH]; intros s n Hs Hn Hnn Hroom.
  - cbv zeta. unfold free_all. cbn [length alloc_n for_each ret fst snd rev].
    split; [reflexivity|]. split; [exact Hs|]. repeat split.
  - apply Forall_cons in Hnn as [Hp Hnn]. cbn [length] in Hroom.
    pose proof (bucket_ok_lookup Datacache n s Hs) as [Hav Hsl].
    pose proof (free_push p n NBUCKETS Datacache PyDataMem_FREE s Hp
                  ltac:(lia) ltac:(lia)) as E.
    fold (npy_free_cache p n) in E. revert E.
    set (s1 := set_bucket Datacache n _ s). intros E.
    assert (Hb : bucket Datacache n s1
                 = Bucket (available (bucket Datacache n s) + 1)
                     (<[Z.to_nat (available (bucket Datacache n s)) := p]>
                        (ptrs (bucket Datacache n s)))).
    { unfold s1. apply bucket_set_bucket_data; assumption. }
    assert (Hs1 : cache_inv s1).
    { pose proof (cache_inv_free p n NBUCKETS Datacache PyDataMem_FREE s
                    keeps_FREE Hs) as H.
      fold (npy_free_cache p n) in H. rewrite E in H. exact H. }
    assert (Ha1 : available (bucket Datacache n s1)
                  = available (bucket Datacache n s) + 1)
      by (rewrite Hb; reflexivity).
    assert (Hslot : forall i, 0 <= i ->
              ptr_at (bucket Datacache n s1) i
              = if decide (i = available (bucket Datacache n s)) then p
                else ptr_at (bucket Datacache n s) i).
    { intros i Hi. rewrite Hb. unfold ptr_at. cbn [ptrs].
      destruct (decide (i = available (bucket Datacache n s))) as [->|Hne].
      - rewrite list_lookup_insert_eq; [reflexivity|].
        rewrite Hsl. unfold NCACHE in *. lia.
      - rewrite list_lookup_insert_ne by lia. reflexivity. }
    specialize (IH s1 n Hs1 Hn Hnn ltac:(lia)). cbv zeta in IH.
    cbv zeta. rewrite free_all_cons, E. cbn [snd length].
    rewrite alloc_n_snoc.
    destruct (alloc_n (length ps) n (snd (free_all ps n s1))) as [l s2].
    cbn [fst snd] in IH. destruct IH as (I1 & I2 & I3 & I4 & I5 & I6).
    rewrite Ha1 in I3, I4.
    unfold npy_alloc_cache. rewrite alloc_hit by lia.
    cbn [fst snd]. rewrite I3.
    replace (available (bucket Datacache n s) + 1 - 1)
      with (available (bucket Datacache n s)) by lia.
    rewrite I4, Hslot by lia.
    destruct (decide _) as [_|Hc]; [|contradiction].
    rewrite bucket_set_bucket_data by assumption. cbn [available].
    split; [subst l; reflexivity|].
    split.
    { apply cache_inv_set_bucket; [exact I2|].
      pose proof (bucket_ok_lookup Datacache n s2 I2) as [_ Hl2].
      split; [cbn [available]; lia | exact Hl2]. }
    split; [reflexivity|].
    split.
    { intros i Hi. unfold ptr_at at 1. cbn [ptrs].
      fold (ptr_at (bucket Datacache n s2) i). rewrite I4, Hslot by lia.
      destruct (decide _); [lia | reflexivity]. }
    destruct (set_bucket_frame Datacache n
                (Bucket (available (bucket Datacache n s))
                   (ptrs (bucket Datacache n s2))) s2) as (F1 & F2 & _).
    split; [rewrite F1, I5 | rewrite F2, I6]; reflexivity.
Qed.

(** X2: a bucket is a stack.  Blocks released into a bucket that has room
    for them come back in reverse order from the next allocations of that
    size class; neither the library nor the hook is reached, and the
    bucket ends as it began. *)
Theorem cache_is_lifo (s : state) (n : Z) (ps : list Z) :
  cache_inv s -> 0 <= n < NBUCKETS -> Forall (fun p => p <> NULL) ps ->
  available (bucket Datacache n s) + Z.of_nat (length ps) <= NCACHE ->
  fst (alloc_n (length ps) n (snd (free_all ps n s))) = rev ps /\
  available
    (bucket Datacache n (snd (alloc_n (length ps) n (snd (free_all ps n s)))))
  = available (bucket Datacache n s) /\
  calls (snd (alloc_n (length ps) n (snd (free_all ps n s)))) = calls s /\
  events (snd (alloc_n (length ps) n (snd (free_all ps n s)))) = events s.
Proof.
  intros Hs Hn Hnn Hroom.
  destruct (lifo ps s n Hs Hn Hnn Hroom) as (H1 & _ & H3 & _ & H5 & H6).
  repeat split; assumption.
Qed.

Lemma cache_is_lifo_witness :
  cache_inv (init_state garbage []) /\
  fst (alloc_n 3 8 (snd (free_all [4112; 4240; 4368] 8 (init_state garbage []))))
  = [4368; 4240; 4112].
Proof.
  split; [apply cache_inv_init|].
  refine (proj1 (cache_is_lifo (init_state garbage []) 8 [4112; 4240; 4368]
                   (cache_inv_init garbage []) _ _ _)).
  - unfold NBUCKETS. lia.
  - repeat constructor; discriminate.
  - vm_compute. discriminate.
Defined.

(** ** The dimension cache *)

Lemma dim_class_range sz : 2 <= dim_class sz.
Proof.
  unfold dim_class. destruct (sz <? 2) eqn:E; [lia|].
  apply Z.ltb_ge in E. exact E.
Qed.

Lemma bucket_set_bucket_dim n b s :
  cache_inv s -> 0 <= n < NBUCKETS_DIM ->
  bucket Dimcache n (set_bucket Dimcache n b s) = b.
Proof.
  intros (_ & L & _) Hn. apply bucket_set_bucket. simpl. rewrite L.
  apply Z2Nat.inj_lt; lia.
Qed.

Lemma PyArray_malloc_effect size s :
  calls (snd (PyArray_malloc size s))
  = Malloc size (fst (PyArray_malloc size s)) :: calls s /\
  events (snd (PyArray_malloc size s)) = events s /\
  mem (snd (PyArray_malloc size s)) = mem s /\
  fst (PyArray_malloc size s) = hd NULL (script s).
Proof. run_monad; repeat split. Qed.

(** X3: the dimension cache reuses blocks, and requests of 0, 1 and 2
    elements share a bucket.  A block obtained for [sz1] elements and
    released as [sz2] elements is what the next allocation of [sz3]
    elements returns, when the three fall in one size class below
    [NBUCKETS_DIM]; the second allocation reaches neither the library nor
    the hook, and no dimension operation writes memory. *)
Theorem dims_round_trip (s : state) (sz1 sz2 sz3 : Z) :
  cache_inv s ->
  dim_class sz1 < NBUCKETS_DIM ->
  dim_class sz2 = dim_class sz1 -> dim_class sz3 = dim_class sz1 ->
  fst (npy_alloc_cache_dim sz1 s) <> NULL ->
  let p := fst (npy_alloc_cache_dim sz1 s) in
  let s1 := snd (npy_alloc_cache_dim sz1 s) in
  let s2 := snd (npy_free_cache_dim p sz2 s1) in
  let s3 := snd (npy_alloc_cache_dim sz3 s2) in
  fst (npy_alloc_cache_dim sz3 s2) = p /\
  calls s3 = calls s1 /\ events s3 = events s /\ mem s3 = mem s.
Proof.
  intros Hs Hc1 Hc2 Hc3 Hp p s1 s2 s3.
  set (n := dim_class sz1) in *.
  pose proof (dim_class_range sz1) as Hn2. fold n in Hn2.
  assert (Hn : 0 <= n < NBUCKETS_DIM) by lia.
  assert (Ea : npy_alloc_cache_dim sz1
               = _npy_alloc_cache n sizeof_ptr NBUCKETS_DIM Dimcache
                   PyArray_malloc) by reflexivity.
  assert (Ef : npy_free_cache_dim p sz2
               = _npy_free_cache p n NBUCKETS_DIM Dimcache PyArray_free).
  { unfold npy_free_cache_dim. fold (dim_class sz2). rewrite Hc2. reflexivity. }
  assert (Ea3 : npy_alloc_cache_dim sz3
                = _npy_alloc_cache n sizeof_ptr NBUCKETS_DIM Dimcache
                    PyArray_malloc).
  { unfold npy_alloc_cache_dim. fold (dim_class sz3). rewrite Hc3. reflexivity. }
  assert (Hs1 : cache_inv s1).
  { unfold s1. rewrite Ea. apply cache_inv_alloc;
      [apply keeps_PyArray_malloc | exact Hs]. }
  pose proof (bucket_ok_lookup Dimcache n s Hs) as [Hav _].
  assert (H1 : 0 <= available (bucket Dimcache n s1) < NCACHE /\
               events s1 = events s /\ mem s1 = mem s).
  { unfold s1. rewrite Ea.
    destruct (Z_lt_le_dec 0 (available (bucket Dimcache n s))) as [Hhit|Hmiss].
    - rewrite alloc_hit by lia. cbn [snd].
      rewrite bucket_set_bucket_dim by assumption. cbn [available].
      repeat split; lia.
    - rewrite alloc_miss by lia.
      rewrite (keeps_bucket (PyArray_malloc _))
        by apply keeps_PyArray_malloc.
      destruct (PyArray_malloc_effect (wrap (n * sizeof_ptr)) s)
        as (_ & E2 & E3 & _).
      split; [unfold NCACHE in *; lia | split; assumption]. }
  destruct H1 as (Ha1 & Hev1 & Hm1).
  pose proof (bucket_ok_lookup Dimcache n s1 Hs1) as [_ Hlen].
  assert (E2 : s2 = set_bucket Dimcache n
                      (Bucket (available (bucket Dimcache n s1) + 1)
                         (<[Z.to_nat (available (bucket Dimcache n s1)) := p]>
                            (ptrs (bucket Dimcache n s1)))) s1).
  { unfold s2. rewrite Ef, free_push by (try assumption; lia). reflexivity. }
  assert (Hb : bucket Dimcache n s2
               = Bucket (available (bucket Dimcache n s1) + 1)
                   (<[Z.to_nat (available (bucket Dimcache n s1)) := p]>
                      (ptrs (bucket Dimcache n s1)))).
  { rewrite E2. apply bucket_set_bucket_dim; assumption. }
  assert (E3 : npy_alloc_cache_dim sz3 s2
               = (p, set_bucket Dimcache n
                       (Bucket (available (bucket Dimcache n s1))
                          (<[Z.to_nat (available (bucket Dimcache n s1)) := p]>
                             (ptrs (bucket Dimcache n s1)))) s2)).
  { rewrite Ea3, alloc_hit by (rewrite ?Hb; cbn [available]; lia).
    rewrite Hb. cbn [available ptrs].
    replace (available (bucket Dimcache n s1) + 1 - 1)
      with (available (bucket Dimcache n s1)) by lia.
    f_equal. apply ptr_at_insert; [lia|].
    rewrite Hlen. apply Z2Nat.inj_lt; unfold NCACHE in *; lia. }
  unfold s3. rewrite E3. cbn [fst snd].
  split; [reflexivity|]. rewrite E2.
  repeat split; assumption.
Qed.

Lemma dims_round_trip_witness :
  cache_inv (init_state garbage [4096]) /\
  fst (npy_alloc_cache_dim 0 (init_state garbage [4096])) = 4096 /\
  calls (snd (npy_alloc_cache_dim 0 (init_state garbage [4096])))
  = [Malloc 16 4096] /\
  fst (npy_alloc_cache_dim 2
         (snd (npy_free_cache_dim
                 (fst (npy_alloc_cache_dim 0 (init_state garbage [4096]))) 1
                 (snd (npy_alloc_cache_dim 0 (init_state garbage [4096]))))))
  = fst (npy_alloc_cache_dim 0 (init_state garbage [4096])).
Proof.
  split; [apply cache_inv_init|].
  split; [vm_compute; reflexivity|]. split; [vm_compute; reflexivity|].
  refine (proj1 (dims_round_trip (init_state garbage [4096]) 0 1 2
                   (cache_inv_init garbage [4096]) _ _ _ _)).
  - vm_compute. reflexivity.
  - reflexivity.
  - reflexivity.
  - vm_compute. discriminate.
Defined.

(** ** A block from allocation to release *)

Lemma align_pointer_bounds base s :
  align_ok s -> 0 <= base ->
  base + sizeof_ptr + (datamem_align s - 1) < modulus ->
  base + sizeof_ptr <= fst (align_pointer base s)
  <= base + sizeof_ptr + (datamem_align s - 1).
Proof.
  intros Hok Hbase Hno.
  pose proof (align_pointer_value base s Hok) as Hval.
  destruct Hok as (_ & Hr & Hm). unfold MIN_ALIGN in Hr.
  rewrite Hm in Hval. unfold sizeof_ptr in *.
  rewrite (wrap_small (base + 8 + _)) in Hval by lia.
  pose proof (Z.mod_pos_bound (base + 8 + (datamem_align s - 1))
                (datamem_align s) ltac:(lia)).
  lia.
Qed.

(** [PyDataMem_NEW] when the library answers [base] for a request that
    does not wrap. *)
Lemma NEW_success size s base rest :
  align_ok s -> 0 <= size ->
  size + sizeof_ptr + (datamem_align s - 1) < modulus ->
  script s = base :: rest -> 0 < base ->
  base + (size + sizeof_ptr + (datamem_align s - 1)) < modulus ->
  let asz := size + sizeof_ptr + (datamem_align s - 1) in
  let s0 := log_call (Malloc asz base)
              (set_blocks (<[base := asz]> (blocks s)) (set_script rest s)) in
  let p := fst (align_pointer base s0) in
  PyDataMem_NEW size s
  = (p, snd (call_eventhook NULL p size (snd (align_pointer base s0)))) /\
  base + sizeof_ptr <= p /\ p + size <= base + asz /\
  p mod datamem_align s = 0.
Proof.
  intros Hok Hsize Hno Hsc Hbase Hblk asz s0 p.
  assert (Hok0 : align_ok s0) by exact Hok.
  assert (Hm : datamem_align_mask s = datamem_align s - 1) by apply Hok.
  assert (Hr : 16 <= datamem_align s).
  { destruct Hok as (_ & Hr & _). unfold MIN_ALIGN in Hr. lia. }
  pose proof (align_pointer_bounds base s0 Hok0 ltac:(lia)) as Hb.
  change (datamem_align s0) with (datamem_align s) in Hb.
  fold p in Hb. unfold sizeof_ptr in *.
  specialize (Hb ltac:(lia)).
  split; [|split; [lia | split; [unfold asz; lia|]]].
  - unfold PyDataMem_NEW, get_aligned_size, Libc.malloc, Libc.answer,
      bind, gets, modify, ret.
    rewrite Hsc. cbv beta iota. cbn [fst snd]. rewrite Hm.
    unfold sizeof_ptr. fold asz.
    rewrite (wrap_small asz) by (unfold asz; lia).
    replace (base =? NULL) with false
      by (symmetry; apply Z.eqb_neq; unfold NULL; lia).
    cbn [negb].
    match goal with |- ?L = _ =>
      change L with (let '(a, s') := align_pointer base s0 in
                     let '(_, s'') := call_eventhook NULL a size s' in
                     (a, s''))
    end.
    unfold p. destruct (align_pointer base s0) as [q s1]. cbn [fst snd].
    destruct (call_eventhook NULL q size s1) as [[] s2]. reflexivity.
  - apply (align_pointer_aligned base s0 Hok0).
Qed.

(** X4: a block goes back to the library as it came.  When the library
    answers [base] for a request that does not wrap, [PyDataMem_NEW]
    returns an aligned address inside the block and records the block;
    [PyDataMem_FREE] of that address calls [free] on exactly [base], the
    table of live blocks is as before the allocation, the caches are
    untouched, and the only bytes written are the header word before the
    address. *)
Theorem new_free_round_trip (s : state) (size base : Z) (rest : list Z) :
  align_ok s -> 0 <= size ->
  size + sizeof_ptr + (datamem_align s - 1) < modulus ->
  script s = base :: rest -> 0 < base ->
  base + (size + sizeof_ptr + (datamem_align s - 1)) < modulus ->
  blocks s !! base = None ->
  let asz := size + sizeof_ptr + (datamem_align s - 1) in
  let p := fst (PyDataMem_NEW size s) in
  let s1 := snd (PyDataMem_NEW size s) in
  let s2 := snd (PyDataMem_FREE p s1) in
  p <> NULL /\ p mod datamem_align s = 0 /\
  base + sizeof_ptr <= p /\ p + size <= base + asz /\
  blocks s1 = <[base := asz]> (blocks s) /\
  calls s2 = Free base :: Malloc asz base :: calls s /\
  blocks s2 = blocks s /\
  datacache s2 = datacache s /\ dimcache s2 = dimcache s /\
  (forall x, x < p - sizeof_ptr \/ p <= x -> mem s2 x = mem s x).
Proof.
  intros Hok Hsize Hno Hsc Hbase Hblk Hfresh asz p s1 s2.
  pose proof (NEW_success size s base rest Hok Hsize Hno Hsc Hbase Hblk) as H.
  cbv zeta in H. destruct H as (E & L1 & L2 & L3).
  fold asz in E, L1, L2, L3.
  set (s0 := log_call (Malloc asz base)
               (set_blocks (<[base := asz]> (blocks s)) (set_script rest s)))
    in *.
  set (q := fst (align_pointer base s0)) in *.
  assert (Ep : p = q) by (unfold p; rewrite E; reflexivity).
  assert (Hs1 : blocks s1 = <[base := asz]> (blocks s) /\
                calls s1 = Malloc asz base :: calls s /\
                mem s1 = store_word (mem s) (q - sizeof_ptr) base /\
                datacache s1 = datacache s /\ dimcache s1 = dimcache s).
  { unfold s1. rewrite E. cbn [snd]. unfold call_eventhook, align_pointer.
    cbn [snd]. fold q.
    destruct (_PyDataMem_eventhook _ =? NULL); repeat split. }
  destruct Hs1 as (B1 & C1 & M1 & D1 & D2).
  assert (Hq : q <> NULL) by (unfold NULL, sizeof_ptr in *; lia).
  change (datamem_align s0) with (datamem_align s) in *.
  assert (Horig : load_word (mem s1) (q - sizeof_ptr) = base).
  { rewrite M1. apply load_store_word. unfold sizeof_ptr in *.
    destruct Hok as (_ & Hr & _). unfold MIN_ALIGN in Hr. lia. }
  assert (Hs2 : calls s2 = Free base :: calls s1 /\
                blocks s2 = delete base (blocks s1) /\
                mem s2 = mem s1 /\
                datacache s2 = datacache s1 /\ dimcache s2 = dimcache s1).
  { unfold s2. rewrite Ep.
    unfold PyDataMem_FREE, get_original_pointer, Libc.free, call_eventhook,
      bind, gets, modify, ret.
    replace (q =? NULL) with false by (symmetry; apply Z.eqb_neq; exact Hq).
    cbn [negb fst snd mem]. rewrite Horig.
    replace (base =? NULL) with false
      by (symmetry; apply Z.eqb_neq; unfold NULL; lia).
    cbn [_PyDataMem_eventhook log_call set_blocks].
    destruct (_PyDataMem_eventhook s1 =? NULL); repeat split. }
  destruct Hs2 as (C2 & B2 & M2 & D3 & D4).
  rewrite Ep. split; [exact Hq|]. split; [exact L3|].
  split; [exact L1|]. split; [exact L2|]. split; [exact B1|].
  split; [rewrite C2, C1; reflexivity|].
  split; [rewrite B2, B1; apply delete_insert_id; exact Hfresh|].
  split; [congruence|]. split; [congruence|].
  intros x Hx. rewrite M2, M1. unfold store_word, in_range, sizeof_ptr in *.
  replace ((q - 8 <=? x) && (x <? q - 8 + 8)) with false; [reflexivity|].
  symmetry. apply andb_false_iff.
  destruct Hx; [left; apply Z.leb_gt | right; apply Z.ltb_ge]; lia.
Qed.

Lemma new_free_round_trip_witness :
  align_ok (init_state garbage [4096]) /\
  script (init_state garbage [4096]) = [4096] /\
  fst (PyDataMem_NEW 100 (init_state garbage [4096])) = 4112 /\
  calls (snd (PyDataMem_FREE (fst (PyDataMem_NEW 100 (init_state garbage [4096])))
                (snd (PyDataMem_NEW 100 (init_state garbage [4096])))))
  = [Free 4096; Malloc 123 4096] /\
  blocks (snd (PyDataMem_FREE
                 (fst (PyDataMem_NEW 100 (init_state garbage [4096])))
                 (snd (PyDataMem_NEW 100 (init_state garbage [4096])))))
  = blocks (init_state garbage [4096]).
Proof.
  pose proof (align_ok_init garbage [4096]) as Hok.
  destruct (new_free_round_trip (init_state garbage [4096]) 100 4096 [] Hok)
    as (_ & _ & _ & _ & _ & H6 & H7 & _).
  - lia.
  - vm_compute. reflexivity.
  - reflexivity.
  - lia.
  - vm_compute. reflexivity.
  - reflexivity.
  - split; [exact Hok|]. split; [reflexivity|].
    split; [vm_compute; reflexivity|].
    split; [exact H6 | exact H7].
Defined.

(** ** The purge, block by block *)

Lemma free_each_exact ps : forall s,
  Forall (fun p => p <> NULL) ps ->
  let s' := snd (for_each ps PyDataMem_FREE s) in
  calls s' = rev (map (free_of (mem s)) ps) ++ calls s /\
  events s'
  = (if _PyDataMem_eventhook s =? NULL then events s
     else rev (map (release_event (_PyDataMem_eventhook_user_data s)) ps)
          ++ events s) /\
  mem s' = mem s /\ same_settings s s'.
Proof.
  induction ps as [|q ps IH]; intros s Hnn; cbn [for_each].
  - cbv zeta. cbn [snd ret map rev app].
    destruct (_ =? _); repeat split.
  - apply Forall_cons in Hnn as [Hq Hnn]. unfold bind.
    pose proof (FREE_mem q s) as Hm. pose proof (FREE_calls q s) as Hc.
    pose proof (FREE_events q s) as He. pose proof (settings_FREE q s) as Hset.
    destruct (PyDataMem_FREE q s) as [[] s1]. cbn [snd] in Hm, Hc, He, Hset.
    specialize (IH s1 Hnn). cbv zeta in IH.
    destruct IH as (I1 & I2 & I3 & I4). cbv zeta.
    replace (q =? NULL) with false in Hc
      by (symmetry; apply Z.eqb_neq; exact Hq).
    destruct Hset as (S1 & S2 & S3 & S4).
    split; [|split; [|split]].
    + rewrite I1, Hc, Hm. cbn [map rev]. rewrite <- app_assoc. reflexivity.
    + rewrite I2, S1, S2, He.
      destruct (_PyDataMem_eventhook s =? NULL); [reflexivity|].
      cbn [map rev]. rewrite <- app_assoc. reflexivity.
    + congruence.
    + eapply same_settings_trans; [|exact I4]. repeat split; assumption.
Qed.

Lemma cached_blocks_cons b l :
  cached_blocks (b :: l)
  = take (Z.to_nat (available b)) (ptrs b) ++ cached_blocks l.
Proof. reflexivity. Qed.

Lemma clear_range k : forall i s,
  cache_inv s -> (i + k <= length (datacache s))%nat ->
  Forall (fun p => p <> NULL) (cached_blocks (take k (drop i (datacache s)))) ->
  let s' := snd (for_each (Z.of_nat <$> seq i k)
                   (clear_bucket Datacache PyDataMem_FREE) s) in
  calls s'
  = rev (map (free_of (mem s)) (cached_blocks (take k (drop i (datacache s)))))
    ++ calls s /\
  events s'
  = (if _PyDataMem_eventhook s =? NULL then events s
     else rev (map (release_event (_PyDataMem_eventhook_user_data s))
                 (cached_blocks (take k (drop i (datacache s)))))
          ++ events s) /\
  mem s' = mem s /\ same_settings s s' /\ dimcache s' = dimcache s.
Proof.
  induction k as [|k IH]; intros i s Hs Hlen Hnn.
  - cbv zeta. cbn [seq fmap list_fmap for_each ret snd take cached_blocks
                   concat map rev app].
    destruct (_ =? _); repeat split.
  - assert (Hi : (i < length (datacache s))%nat) by lia.
    destruct (lookup_lt_is_Some_2 _ _ Hi) as [b Hb].
    rewrite (drop_S _ b i Hb) in *. cbn [take] in *.
    rewrite cached_blocks_cons in *.
    apply Forall_app in Hnn as [Hnb Hnn].
    assert (Ebk : bucket Datacache (Z.of_nat i) s = b).
    { unfold bucket. cbn [get_cache]. rewrite Nat2Z.id, Hb. reflexivity. }
    cbn [seq fmap list_fmap for_each]. unfold bind.
    (* this bucket *)
    assert (H1 : let s1 := snd (clear_bucket Datacache PyDataMem_FREE
                                  (Z.of_nat i) s) in
                 calls s1
                 = rev (map (free_of (mem s))
                          (take (Z.to_nat (available b)) (ptrs b))) ++ calls s /\
                 events s1
                 = (if _PyDataMem_eventhook s =? NULL then events s
                    else rev (map (release_event
                                     (_PyDataMem_eventhook_user_data s))
                                (take (Z.to_nat (available b)) (ptrs b)))
                         ++ events s) /\
                 mem s1 = mem s /\ same_settings s s1 /\
                 dimcache s1 = dimcache s /\
                 datacache s1 = <[i := Bucket 0 (ptrs b)]> (datacache s)).
    { unfold clear_bucket, bind, gets, modify. rewrite Ebk.
      pose proof (free_each_exact _ s Hnb) as (F1 & F2 & F3 & F4).
      pose proof (keeps_for_each (take (Z.to_nat (available b)) (ptrs b))
                    PyDataMem_FREE keeps_FREE s) as [K1 K2].
      destruct (for_each _ PyDataMem_FREE s) as [[] s0]. cbn [snd] in *.
      cbv zeta. cbn [snd].
      assert (E0 : bucket Datacache (Z.of_nat i) s0 = b).
      { unfold bucket. cbn [get_cache]. rewrite K1, Nat2Z.id, Hb. reflexivity. }
      rewrite E0. unfold set_bucket. cbn [set_cache get_cache].
      rewrite Nat2Z.id, K1.
      split; [exact F1|]. split; [exact F2|]. split; [exact F3|].
      split; [exact F4|]. split; [exact K2 | reflexivity]. }
    cbv zeta in H1.
    pose proof (cache_inv_clear_bucket Datacache PyDataMem_FREE (Z.of_nat i) s
                  keeps_FREE Hs) as Hs1.
    destruct (clear_bucket Datacache PyDataMem_FREE (Z.of_nat i) s)
      as [[] s1]. cbn [snd] in *.
    destruct H1 as (C1 & C2 & C3 & C4 & C5 & C6).
    assert (Hd : drop (S i) (datacache s1) = drop (S i) (datacache s)).
    { rewrite C6. apply drop_insert_lt. lia. }
    specialize (IH (S i) s1 Hs1).
    rewrite Hd in IH. cbv zeta in IH.
    destruct IH as (I1 & I2 & I3 & I4 & I5).
    { rewrite C6, length_insert. lia. }
    { exact Hnn. }
    cbv zeta. destruct C4 as (S1 & S2 & S3 & S4).
    split; [|split; [|split; [|split]]].
    + rewrite I1, C1, C3, map_app, rev_app_distr, <- app_assoc. reflexivity.
    + rewrite I2, S1, S2, C2.
      destruct (_PyDataMem_eventhook s =? NULL); [reflexivity|].
      rewrite map_app, rev_app_distr, <- app_assoc. reflexivity.
    + congruence.
    + eapply same_settings_trans; [|exact I4]. repeat split; assumption.
    + congruence.
Qed.

Lemma cached_nonnull s :
  cache_nonnull s ->
  Forall (fun p => p <> NULL) (cached_blocks (datacache s)).
Proof.
  intros Hs. apply Forall_forall. intros p Hp.
  apply list_elem_of_In, in_concat in Hp as (l & Hl & Hp).
  apply in_map_iff in Hl as (b & <- & Hb).
  apply list_elem_of_In, list_elem_of_lookup in Hb as (idx & Hidx).
  apply list_elem_of_In, list_elem_of_lookup in Hp as (j & Hj).
  apply lookup_take_Some in Hj as [Hj Hlt].
  assert (Ebk : bucket Datacache (Z.of_nat idx) s = b).
  { unfold bucket. cbn [get_cache]. rewrite Nat2Z.id, Hidx. reflexivity. }
  specialize (Hs Datacache (Z.of_nat idx) (Z.of_nat j)).
  rewrite Ebk in Hs. unfold ptr_at in Hs. rewrite Nat2Z.id, Hj in Hs.
  apply Hs. lia.
Qed.

Lemma cached_blocks_empty l :
  Forall (fun b => available b = 0) l -> cached_blocks l = [].
Proof.
  induction 1 as [|b l Hb _ IH]; [reflexivity|].
  rewrite cached_blocks_cons, IH, Hb. reflexivity.
Qed.

(** X5: the purge releases every cached block exactly once.  When a
    successful [npy_datamem_set_align] raises the alignment in a reachable
    state, the calls it makes to the library are exactly one [free] per
    block held in the data cache, bucket by bucket and slot by slot, each
    on the base address stored before the block; a registered hook sees
    exactly these releases; afterwards the data cache holds nothing, and
    memory and the dimension cache are as before. *)
Theorem purge_releases_each_block_once
  (m : memory) (sc : list Z) (ops : list op) (align : Z) :
  0 <= align < modulus -> is_power_of_two align -> MIN_ALIGN <= align ->
  datamem_align (run ops (init_state m sc)) < align ->
  let s := run ops (init_state m sc) in
  let s' := snd (npy_datamem_set_align align s) in
  calls s' = rev (map (free_of (mem s)) (cached_blocks (datacache s)))
             ++ calls s /\
  events s'
  = (if _PyDataMem_eventhook s =? NULL then events s
     else rev (map (release_event (_PyDataMem_eventhook_user_data s))
                 (cached_blocks (datacache s))) ++ events s) /\
  cached_blocks (datacache s') = [] /\
  mem s' = mem s /\ dimcache s' = dimcache s.
Proof.
  intros Hr Hp Hm Hraise s s'.
  destruct (reachable_inv ops (init_state m sc) (cache_inv_init m sc)
              (nonnull_init m sc)) as [Hinv Hnn]. fold s in Hinv, Hnn.
  pose proof (set_align_raise_purges align s Hinv Hr Hp Hm Hraise)
    as (Hz & _).
  pose proof (cache_inv_set_align align s Hinv) as Hinv'.
  fold s' in Hz, Hinv'.
  assert (Hlen : length (datacache s) = Z.to_nat NBUCKETS) by apply Hinv.
  pose proof (clear_range (Z.to_nat NBUCKETS) 0 s Hinv ltac:(lia)) as H.
  rewrite drop_0, take_ge in H by lia.
  specialize (H (cached_nonnull s Hnn)). cbv zeta in H.
  fold (_npy_clear_cache NBUCKETS Datacache PyDataMem_FREE) in H.
  assert (E : s' = set_align align (align - 1)
                     (snd (_npy_clear_cache NBUCKETS Datacache
                             PyDataMem_FREE s))).
  { unfold s', npy_datamem_set_align.
    replace (align <? MIN_ALIGN) with false
      by (symmetry; apply Z.ltb_ge; lia).
    unfold MIN_ALIGN in *. rewrite wrap_small by lia.
    replace (Z.lxor align (align - 1) =? Z.lor align (align - 1)) with true
      by (symmetry; apply pow2_test; [lia | exact Hp]).
    cbn [negb]. unfold bind, gets, modify, ret.
    replace (datamem_align s <? align) with true
      by (symmetry; apply Z.ltb_lt; exact Hraise).
    destruct (_npy_clear_cache NBUCKETS Datacache PyDataMem_FREE s)
      as [[] s1]. reflexivity. }
  destruct H as (H1 & H2 & H3 & _ & H5).
  split; [rewrite E; exact H1|]. split; [rewrite E; exact H2|].
  split; [|split; [rewrite E; exact H3 | rewrite E; exact H5]].
  apply cached_blocks_empty, Forall_forall. intros b Hb.
  apply list_elem_of_lookup in Hb as (idx & Hidx).
  assert (Hi : (idx < Z.to_nat NBUCKETS)%nat).
  { apply lookup_lt_Some in Hidx. destruct Hinv' as (L & _). lia. }
  specialize (Hz (Z.of_nat idx) ltac:(lia)).
  unfold bucket in Hz. cbn [get_cache] in Hz.
  rewrite Nat2Z.id, Hidx in Hz. exact Hz.
Qed.

Lemma purge_releases_each_block_once_witness :
  0 <= 32 < modulus /\ is_power_of_two 32 /\
  datamem_align
    (run [AllocData 8; AllocData 8; FreeData 4112 8; FreeData 4240 8]
       (init_state garbage [4096; 4224])) < 32 /\
  cached_blocks
    (datacache
       (run [AllocData 8; AllocData 8; FreeData 4112 8; FreeData 4240 8]
          (init_state garbage [4096; 4224]))) = [4112; 4240] /\
  calls
    (snd (npy_datamem_set_align 32
            (run [AllocData 8; AllocData 8; FreeData 4112 8; FreeData 4240 8]
               (init_state garbage [4096; 4224]))))
  = [Free 4224; Free 4096; Malloc 31 4224; Malloc 31 4096].
Proof.
  assert (R : 0 <= 32 < modulus) by (unfold modulus; lia).
  assert (P : is_power_of_two 32) by (exists 5; split; [lia | reflexivity]).
  assert (L : datamem_align
                (run [AllocData 8; AllocData 8; FreeData 4112 8;
                      FreeData 4240 8] (init_state garbage [4096; 4224]))
              < 32) by (vm_compute; reflexivity).
  assert (C : cached_blocks
                (datacache
                   (run [AllocData 8; AllocData 8; FreeData 4112 8;
                         FreeData 4240 8] (init_state garbage [4096; 4224])))
              = [4112; 4240]) by (vm_compute; reflexivity).
  destruct (purge_releases_each_block_once garbage [4096; 4224]
              [AllocData 8; AllocData 8; FreeData 4112 8; FreeData 4240 8]
              32 R P ltac:(unfold MIN_ALIGN; lia) L) as (H1 & _).
  split; [exact R|]. split; [exact P|]. split; [exact L|].
  split; [exact C|]. rewrite H1, C. vm_compute. reflexivity.
Defined.

(** ** Without a hook nothing is reported *)

Lemma silent_settings E s s' :
  same_settings s s' -> events s' = events s -> silent E s -> silent E s'.
Proof. intros (H1 & _) He [Hh Hev]. split; congruence. Qed.

Lemma silent_NEW E size s : silent E s -> silent E (snd (PyDataMem_NEW size s)).
Proof.
  intros H. apply (silent_settings E s); [apply settings_NEW | | exact H].
  rewrite NEW_events. destruct H as [-> _]. reflexivity.
Qed.

Lemma silent_NEW_ZEROED E n e s :
  silent E s -> silent E (snd (PyDataMem_NEW_ZEROED n e s)).
Proof.
  intros H. apply (silent_settings E s); [apply settings_NEW_ZEROED | | exact H].
  rewrite NEW_ZEROED_events. destruct H as [-> _]. reflexivity.
Qed.

Lemma silent_FREE E p s : silent E s -> silent E (snd (PyDataMem_FREE p s)).
Proof.
  intros H. apply (silent_settings E s); [apply settings_FREE | | exact H].
  rewrite FREE_events. destruct H as [-> _]. reflexivity.
Qed.

Lemma silent_RENEW E p size s :
  silent E s -> silent E (snd (PyDataMem_RENEW p size s)).
Proof.
  intros H. apply (silent_settings E s); [apply settings_RENEW | | exact H].
  rewrite RENEW_events. destruct H as [-> _]. reflexivity.
Qed.

Lemma silent_PyArray_malloc E size s :
  silent E s -> silent E (snd (PyArray_malloc size s)).
Proof.
  intros H. apply (silent_settings E s);
    [apply settings_PyArray_malloc | run_monad; reflexivity | exact H].
Qed.

Lemma silent_PyArray_free E p s :
  silent E s -> silent E (snd (PyArray_free p s)).
Proof.
  intros H. apply (silent_settings E s);
    [apply settings_PyArray_free | run_monad; reflexivity | exact H].
Qed.

Lemma silent_set_bucket E c n b s : silent E s -> silent E (set_bucket c n b s).
Proof. intros H. destruct c; exact H. Qed.

Lemma silent_alloc E nelem esz msz c alloc s :
  (forall n s', silent E s' -> silent E (snd (alloc n s'))) ->
  silent E s -> silent E (snd (_npy_alloc_cache nelem esz msz c alloc s)).
Proof.
  intros Ha H. unfold _npy_alloc_cache.
  destruct (_ && _); [apply silent_set_bucket; exact H | apply Ha; exact H].
Qed.

Lemma silent_free E p nelem msz c dealloc s :
  (forall q s', silent E s' -> silent E (snd (dealloc q s'))) ->
  silent E s -> silent E (snd (_npy_free_cache p nelem msz c dealloc s)).
Proof.
  intros Hd H. unfold _npy_free_cache.
  destruct (_ && _); [apply silent_set_bucket; exact H | apply Hd; exact H].
Qed.

Lemma silent_clear E msz c s :
  silent E s -> silent E (snd (_npy_clear_cache msz c PyDataMem_FREE s)).
Proof.
  unfold _npy_clear_cache. apply for_each_inv. clear s. intros k s H.
  unfold clear_bucket, bind, gets, modify.
  pose proof (for_each_inv (silent E)
                (take (Z.to_nat (available (bucket c k s)))
                   (ptrs (bucket c k s)))
                PyDataMem_FREE (fun q s' => silent_FREE E q s') s H) as H1.
  destruct (for_each _ PyDataMem_FREE s) as [[] s1]. cbn [snd] in *.
  apply silent_set_bucket. exact H1.
Qed.

Lemma silent_exec E o s :
  is_SetHook o = false -> silent E s -> silent E (snd (exec o s)).
Proof.
  intros Ho H. destruct o; cbn [exec]; try discriminate Ho.
  - unfold bind, ret, npy_alloc_cache.
    pose proof (silent_alloc E sz 1 NBUCKETS Datacache PyDataMem_NEW s
                  (silent_NEW E) H) as H1.
    destruct (_npy_alloc_cache _ _ _ _ _ s). exact H1.
  - unfold npy_alloc_cache_zero. destruct (sz <? NBUCKETS).
    + unfold bind, ret, modify.
      pose proof (silent_alloc E sz 1 NBUCKETS Datacache PyDataMem_NEW s
                    (silent_NEW E) H) as H1.
      destruct (_npy_alloc_cache _ _ _ _ _ s) as [p s1].
      destruct (negb (p =? NULL)); exact H1.
    + unfold bind, ret. pose proof (silent_NEW_ZEROED E sz 1 s H) as H1.
      destruct (PyDataMem_NEW_ZEROED sz 1 s). exact H1.
  - apply silent_free; [apply silent_FREE | exact H].
  - unfold bind, ret, npy_alloc_cache_dim.
    match goal with |- context [_npy_alloc_cache ?a ?b ?c ?d ?e s] =>
      pose proof (silent_alloc E a b c d e s (silent_PyArray_malloc E) H) as H1;
      destruct (_npy_alloc_cache a b c d e s) end.
    exact H1.
  - apply silent_free; [apply silent_PyArray_free | exact H].
  - unfold bind, ret, npy_datamem_set_align.
    destruct (align <? MIN_ALIGN); [exact H|].
    destruct (negb _); [exact H|].
    unfold bind, gets, modify, ret.
    destruct (datamem_align s <? align); [|exact H].
    pose proof (silent_clear E NBUCKETS Datacache s H) as H1.
    destruct (_npy_clear_cache _ _ _ s) as [[] s1]. exact H1.
  - unfold bind, ret. pose proof (silent_NEW E size s H) as H1.
    destruct (PyDataMem_NEW size s). exact H1.
  - unfold bind, ret. pose proof (silent_NEW_ZEROED E nelems elsize s H) as H1.
    destruct (PyDataMem_NEW_ZEROED nelems elsize s). exact H1.
  - unfold bind, ret. pose proof (silent_RENEW E ptr size s H) as H1.
    destruct (PyDataMem_RENEW ptr size s). exact H1.
  - apply silent_FREE. exact H.
Qed.

(** X6: without a hook nothing is reported.  From a state with no hook
    registered, no sequence of operations that does not register one
    records an event, and no hook is registered at its end; this includes
    the purge and every failing allocation. *)
Theorem no_hook_no_events (s : state) (ops : list op) :
  _PyDataMem_eventhook s = NULL ->
  forallb (fun o => negb (is_SetHook o)) ops = true ->
  events (run ops s) = events s /\ _PyDataMem_eventhook (run ops s) = NULL.
Proof.
  intros Hh Hops.
  assert (H : silent (events s) (run ops s)).
  { unfold run. assert (H0 : silent (events s) s) by (split; auto).
    revert H0. generalize (events s) as E. revert s Hh.
    induction ops as [|o ops IH]; intros s Hh E H0; cbn [for_each].
    - exact H0.
    - cbn [forallb] in Hops. apply andb_true_iff in Hops as [Ho Hops].
      apply negb_true_iff in Ho. unfold bind.
      pose proof (silent_exec E o s Ho H0) as H1.
      destruct (exec o s) as [[] s1]. cbn [snd] in *.
      apply (IH Hops s1); [apply H1 | exact H1]. }
  destruct H as [H1 H2]. split; assumption.
Qed.

Lemma no_hook_no_events_witness :
  _PyDataMem_eventhook (init_state garbage [4096]) = NULL /\
  events (run [AllocData 8; FreeData 4112 8; SetAlign 32; FreeData 0 8;
               AllocData 8; NewZeroed 4 4; FreeRaw 0]
            (init_state garbage [4096])) = [].
Proof.
  split; [reflexivity|].
  refine (proj1 (no_hook_no_events (init_state garbage [4096]) _ eq_refl _)).
  reflexivity.
Defined.

(** ** The two caches do not interfere *)

Lemma data_side_set_bucket n b s : data_side_kept s (set_bucket Dimcache n b s).
Proof. repeat split. Qed.

Lemma data_side_PyArray_malloc size s :
  data_side_kept s (snd (PyArray_malloc size s)).
Proof. run_monad; repeat split. Qed.

Lemma data_side_PyArray_free p s :
  data_side_kept s (snd (PyArray_free p s)).
Proof. run_monad; repeat split. Qed.

Lemma dimcache_set_bucket n b s :
  dimcache (set_bucket Datacache n b s) = dimcache s.
Proof. reflexivity. Qed.

Lemma dimcache_clear D s :
  dimcache s = D ->
  dimcache (snd (_npy_clear_cache NBUCKETS Datacache PyDataMem_FREE s)) = D.
Proof.
  unfold _npy_clear_cache. apply (for_each_inv (fun s => dimcache s = D)).
  clear s. intros k s H. unfold clear_bucket, bind, gets, modify.
  pose proof (for_each_inv (fun s => dimcache s = D)
                (take (Z.to_nat (available (bucket Datacache k s)))
                   (ptrs (bucket Datacache k s)))
                PyDataMem_FREE
                (fun q s' Hs' => eq_trans (proj2 (keeps_FREE q s')) Hs')
                s H) as H1.
  destruct (for_each _ PyDataMem_FREE s) as [[] s1]. exact H1.
Qed.

(** X7: the two caches do not interfere.  The two dimension operations
    leave the data cache, the memory, the hook's record, the hook and the
    alignment as they were; every other operation leaves the dimension
    cache as it was, the purge of a raised alignment included. *)
Theorem caches_independent (o : op) (s : state) :
  if is_dims_op o then data_side_kept s (snd (exec o s))
  else dimcache (snd (exec o s)) = dimcache s.
Proof.
  destruct o; cbn [is_dims_op exec].
  - unfold bind, ret, npy_alloc_cache, _npy_alloc_cache.
    destruct (_ && _); [reflexivity|].
    pose proof (proj2 (keeps_NEW (wrap (sz * 1)) s)) as H.
    destruct (PyDataMem_NEW (wrap (sz * 1)) s). exact H.
  - unfold npy_alloc_cache_zero. destruct (sz <? NBUCKETS).
    + unfold bind, ret, modify, _npy_alloc_cache.
      destruct (_ && _).
      * destruct (negb _); reflexivity.
      * pose proof (proj2 (keeps_NEW (wrap (sz * 1)) s)) as H.
        destruct (PyDataMem_NEW (wrap (sz * 1)) s) as [p s1].
        destruct (negb _); exact H.
    + unfold bind, ret. pose proof (proj2 (keeps_NEW_ZEROED sz 1 s)) as H.
      destruct (PyDataMem_NEW_ZEROED sz 1 s). exact H.
  - unfold npy_free_cache, _npy_free_cache.
    destruct (_ && _); [reflexivity|]. apply keeps_FREE.
  - unfold bind, ret, npy_alloc_cache_dim, _npy_alloc_cache.
    destruct (_ && _); [apply data_side_set_bucket|].
    match goal with |- context [PyArray_malloc ?n s] =>
      pose proof (data_side_PyArray_malloc n s) as H;
      destruct (PyArray_malloc n s) end.
    exact H.
  - unfold npy_free_cache_dim, _npy_free_cache.
    destruct (_ && _); [apply data_side_set_bucket|].
    apply data_side_PyArray_free.
  - unfold bind, ret, npy_datamem_set_align.
    destruct (align <? MIN_ALIGN); [reflexivity|].
    destruct (negb _); [reflexivity|].
    unfold bind, gets, modify, ret.
    destruct (datamem_align s <? align); [|reflexivity].
    pose proof (dimcache_clear (dimcache s) s eq_refl) as H.
    destruct (_npy_clear_cache _ _ _ s) as [[] s1]. exact H.
  - reflexivity.
  - unfold bind, ret. pose proof (proj2 (keeps_NEW size s)) as H.
    destruct (PyDataMem_NEW size s). exact H.
  - unfold bind, ret. pose proof (proj2 (keeps_NEW_ZEROED nelems elsize s)) as H.
    destruct (PyDataMem_NEW_ZEROED nelems elsize s). exact H.
  - unfold bind, ret. pose proof (proj2 (keeps_RENEW ptr size s)) as H.
    destruct (PyDataMem_RENEW ptr size s). exact H.
  - apply keeps_FREE.
Qed.

(** ** A recycled block handed out zeroed *)

Lemma load_bytes_ext m m' n : forall a,
  (forall x, a <= x < a + Z.of_nat n -> m x = m' x) ->
  load_bytes m a n = load_bytes m' a n.
Proof.
  induction n as [|n IH]; intros a H; cbn [load_bytes]; [reflexivity|].
  rewrite (H a) by lia. rewrite (IH (a + 1)); [reflexivity|].
  intros x Hx. apply H. lia.
Qed.

(** X8: a recycled block handed out zeroed.  When the bucket of a small
    size holds a block, [npy_alloc_cache_zero] returns the block released
    last, with its [sz] bytes zero, every byte outside them as it was (so
    the header below the block still names the library's block), and
    without calling the library or the hook. *)
Theorem alloc_zero_recycles (sz : Z) (s : state) :
  0 <= sz < NBUCKETS ->
  0 < available (bucket Datacache sz s) ->
  let b := bucket Datacache sz s in
  let p := ptr_at b (available b - 1) in
  p <> NULL ->
  let s' := snd (npy_alloc_cache_zero sz s) in
  fst (npy_alloc_cache_zero sz s) = p /\
  (forall i, 0 <= i < sz -> mem s' (p + i) = 0) /\
  (forall x, x < p \/ p + sz <= x -> mem s' x = mem s x) /\
  fst (get_original_pointer p s') = fst (get_original_pointer p s) /\
  available (bucket Datacache sz s') = available b - 1 /\
  calls s' = calls s /\ events s' = events s /\ blocks s' = blocks s /\
  script s' = script s.
Proof.
  intros Hsz Hav b p Hp. unfold npy_alloc_cache_zero.
  replace (sz <? NBUCKETS) with true by (symmetry; apply Z.ltb_lt; lia).
  unfold bind, ret, modify, _npy_alloc_cache.
  replace (sz <? NBUCKETS) with true by (symmetry; apply Z.ltb_lt; lia).
  fold b. replace (0 <? available b) with true
    by (symmetry; apply Z.ltb_lt; exact Hav).
  cbn [andb]. fold p.
  replace (p =? NULL) with false by (symmetry; apply Z.eqb_neq; exact Hp).
  cbn [negb fst snd].
  assert (Hin : forall x, x < p \/ p + sz <= x ->
            memset (mem s) p 0 sz x = mem s x).
  { intros x Hx. unfold memset, in_range.
    destruct (p <=? x) eqn:E1; [|reflexivity].
    destruct (x <? p + sz) eqn:E2; [|reflexivity].
    apply Z.leb_le in E1. apply Z.ltb_lt in E2. lia. }
  split; [reflexivity|]. split; [|split; [|split; [|split]]].
  - intros i Hi. cbn [mem set_mem set_bucket set_cache]. unfold memset, in_range.
    replace (p <=? p + i) with true by (symmetry; apply Z.leb_le; lia).
    replace (p + i <? p + sz) with true by (symmetry; apply Z.ltb_lt; lia).
    reflexivity.
  - intros x Hx. apply Hin. exact Hx.
  - unfold get_original_pointer, gets, load_word. cbn [fst mem set_mem].
    apply load_bytes_ext. intros x Hx. apply Hin. unfold sizeof_ptr in Hx. lia.
  - unfold bucket. cbn [get_cache datacache set_mem set_bucket set_cache
                        set_datacache].
    destruct (get_cache Datacache s !! Z.to_nat sz) eqn:E.
    + rewrite list_lookup_insert_eq; [reflexivity|].
      apply lookup_lt_Some in E. exact E.
    + exfalso. unfold b, bucket in Hav. rewrite E in Hav.
      cbn in Hav. lia.
  - repeat split.
Qed.

Lemma alloc_zero_recycles_witness :
  let s := snd (npy_free_cache 4112 8
                  (snd (npy_alloc_cache 8 (init_state garbage [4096])))) in
  fst (npy_alloc_cache_zero 8 s) = 4112 /\
  (forall i, 0 <= i < 8 ->
     mem (snd (npy_alloc_cache_zero 8 s)) (4112 + i) = 0) /\
  fst (get_original_pointer 4112 (snd (npy_alloc_cache_zero 8 s))) = 4096.
Proof.
  cbv zeta.
  set (s := snd (npy_free_cache 4112 8
                   (snd (npy_alloc_cache 8 (init_state garbage [4096]))))).
  assert (H1 : 0 <= 8 < NBUCKETS) by (unfold NBUCKETS; lia).
  assert (H2 : 0 < available (bucket Datacache 8 s)) by (vm_compute; reflexivity).
  assert (H3 : ptr_at (bucket Datacache 8 s)
                 (available (bucket Datacache 8 s) - 1) <> NULL)
    by (vm_compute; discriminate).
  assert (E : ptr_at (bucket Datacache 8 s)
                (available (bucket Datacache 8 s) - 1) = 4112)
    by (vm_compute; reflexivity).
  assert (G : fst (get_original_pointer 4112 s) = 4096)
    by (vm_compute; reflexivity).
  pose proof (alloc_zero_recycles 8 s H1 H2 H3) as H. cbv zeta in H.
  rewrite E in H. destruct H as (A & B & _ & D & _).
  split; [exact A|]. split; [exact B|]. rewrite D. exact G.
Defined.

(** ** Refusals of the library *)

Ltac refused H :=
  let rest := fresh "rest" in
  destruct H as [H | [rest H]]; unfold told; run_monad;
  try discriminate; try reflexivity;
  repeat match goal with
         | H1 : script ?s = _, H2 : script ?s = _ |- _ =>
             rewrite H1 in H2; inversion H2; subst; clear H2
         | H1 : _ :: _ = _ :: _ |- _ => inversion H1; subst; clear H1
         | H1 : _ :: _ = [] |- _ => discriminate H1
         | H1 : [] = _ :: _ |- _ => discriminate H1
         | H1 : (NULL =? NULL) = false |- _ => discriminate H1
         end;
  try (repeat split; reflexivity).

(** X9: a refused resize.  When the library refuses, [PyDataMem_RENEW]
    returns NULL, the caller's block stays registered with its bytes as
    they were (no header is written, nothing moved), realloc was called
    once with the block's recorded base and the padded size, and a
    registered hook is still told, with NULL as the new address. *)
Theorem renew_refused_keeps_block (ptr size : Z) (s : state) :
  library_refuses s ->
  let s' := snd (PyDataMem_RENEW ptr size s) in
  fst (PyDataMem_RENEW ptr size s) = NULL /\
  blocks s' = blocks s /\ mem s' = mem s /\
  calls s' = Realloc (load_word (mem s) (ptr - sizeof_ptr))
               (wrap (size + sizeof_ptr + datamem_align_mask s)) NULL
             :: calls s /\
  events s' = told ptr NULL size s.
Proof.
  intros H. cbv zeta. repeat split; refused H.
Qed.

Lemma renew_refused_keeps_block_witness :
  let s := snd (PyDataMem_NEW 16 (run [SetHook 77 5] (init_state garbage [4096]))) in
  fst (PyDataMem_RENEW 4112 64 s) = NULL /\
  blocks (snd (PyDataMem_RENEW 4112 64 s)) !! 4096 = Some 39 /\
  calls (snd (PyDataMem_RENEW 4112 64 s))
  = [Realloc 4096 87 NULL; Malloc 39 4096] /\
  events (snd (PyDataMem_RENEW 4112 64 s))
  = [Event 4112 NULL 64 5; Event NULL 4112 16 5].
Proof.
  cbv zeta.
  set (s := snd (PyDataMem_NEW 16
                   (run [SetHook 77 5] (init_state garbage [4096])))).
  assert (H : library_refuses s) by (left; reflexivity).
  pose proof (renew_refused_keeps_block 4112 64 s H) as R. cbv zeta in R.
  destruct R as (R1 & R2 & _ & R4 & R5).
  split; [exact R1|]. split; [rewrite R2; vm_compute; reflexivity|].
  split; [rewrite R4; vm_compute; reflexivity|].
  rewrite R5. vm_compute. reflexivity.
Defined.

(** X10: a resize in place.  When realloc answers the block's own base,
    [PyDataMem_RENEW] returns the caller's address, leaves every byte as it
    was (the header is not rewritten, nothing moved), records the padded
    size for the block and tells a registered hook. *)
Theorem renew_in_place_keeps_memory (ptr size : Z) (s : state) (rest : list Z) :
  load_word (mem s) (ptr - sizeof_ptr) <> NULL ->
  script s = load_word (mem s) (ptr - sizeof_ptr) :: rest ->
  let base := load_word (mem s) (ptr - sizeof_ptr) in
  let asz := wrap (size + sizeof_ptr + datamem_align_mask s) in
  let s' := snd (PyDataMem_RENEW ptr size s) in
  fst (PyDataMem_RENEW ptr size s) = ptr /\
  mem s' = mem s /\
  blocks s' = <[base := asz]> (blocks s) /\
  calls s' = Realloc base asz base :: calls s /\
  events s' = told ptr ptr size s /\
  script s' = rest.
Proof.
  intros Hnn Hsc. cbv zeta. apply Z.eqb_neq in Hnn.
  unfold told, PyDataMem_RENEW, get_original_pointer, get_aligned_size,
    Libc.realloc, Libc.answer, call_eventhook, bind, ret, gets, modify.
  rewrite Hsc. cbn [fst snd script set_script].
  rewrite Hnn, Z.eqb_refl.
  cbn [fst snd mem blocks calls events log_call set_blocks set_script
       _PyDataMem_eventhook _PyDataMem_eventhook_user_data].
  destruct (_PyDataMem_eventhook s =? NULL); repeat split.
Qed.

Lemma renew_in_place_keeps_memory_witness :
  let s := snd (PyDataMem_NEW 16 (init_state garbage [4096; 4096])) in
  fst (PyDataMem_RENEW 4112 64 s) = 4112 /\
  mem (snd (PyDataMem_RENEW 4112 64 s)) = mem s /\
  blocks (snd (PyDataMem_RENEW 4112 64 s)) !! 4096 = Some 87.
Proof.
  cbv zeta.
  set (s := snd (PyDataMem_NEW 16 (init_state garbage [4096; 4096]))).
  assert (E : load_word (mem s) (4112 - sizeof_ptr) = 4096)
    by (vm_compute; reflexivity).
  assert (H1 : load_word (mem s) (4112 - sizeof_ptr) <> NULL)
    by (rewrite E; discriminate).
  assert (H2 : script s = load_word (mem s) (4112 - sizeof_ptr) :: [])
    by (rewrite E; vm_compute; reflexivity).
  pose proof (renew_in_place_keeps_memory 4112 64 s [] H1 H2) as R.
  cbv zeta in R. destruct R as (R1 & R2 & R3 & _).
  split; [exact R1|]. split; [exact R2|].
  rewrite R3, E. vm_compute. reflexivity.
Defined.

(** X11: refused allocations.  When the library refuses, the three
    allocating entry points return NULL, write no header and fill nothing
    (the memory is as it was), register no block, and the two
    [PyDataMem_] functions still tell a registered hook; a refused
    [npy_alloc_cache_zero] of a small size leaves the caches alone too. *)
Theorem refused_allocation (size nelems elsize sz : Z) (s : state) :
  library_refuses s ->
  (fst (PyDataMem_NEW size s) = NULL /\
   mem (snd (PyDataMem_NEW size s)) = mem s /\
   blocks (snd (PyDataMem_NEW size s)) = blocks s /\
   events (snd (PyDataMem_NEW size s)) = told NULL NULL size s) /\
  (fst (PyDataMem_NEW_ZEROED nelems elsize s) = NULL /\
   mem (snd (PyDataMem_NEW_ZEROED nelems elsize s)) = mem s /\
   blocks (snd (PyDataMem_NEW_ZEROED nelems elsize s)) = blocks s /\
   events (snd (PyDataMem_NEW_ZEROED nelems elsize s))
   = told NULL NULL (wrap (nelems * elsize)) s) /\
  (available (bucket Datacache sz s) <= 0 -> sz < NBUCKETS ->
   fst (npy_alloc_cache_zero sz s) = NULL /\
   mem (snd (npy_alloc_cache_zero sz s)) = mem s /\
   blocks (snd (npy_alloc_cache_zero sz s)) = blocks s /\
   datacache (snd (npy_alloc_cache_zero sz s)) = datacache s).
Proof.
  intros H. split; [|split].
  - repeat split; refused H.
  - repeat split; refused H.
  - intros Hav Hsz.
    assert (N : fst (PyDataMem_NEW (wrap (sz * 1)) s) = NULL /\
                mem (snd (PyDataMem_NEW (wrap (sz * 1)) s)) = mem s /\
                blocks (snd (PyDataMem_NEW (wrap (sz * 1)) s)) = blocks s)
      by (repeat split; refused H).
    pose proof (proj1 (keeps_NEW (wrap (sz * 1)) s)) as K.
    unfold npy_alloc_cache_zero, _npy_alloc_cache.
    replace (sz <? NBUCKETS) with true by (symmetry; apply Z.ltb_lt; lia).
    unfold bind, ret, modify.
    replace (0 <? available (bucket Datacache sz s)) with false
      by (symmetry; apply Z.ltb_ge; lia).
    cbn [andb].
    destruct (PyDataMem_NEW (wrap (sz * 1)) s) as [p s1].
    cbn [fst snd] in *. destruct N as (-> & N2 & N3).
    cbn [negb fst snd]. rewrite Z.eqb_refl. cbn [negb fst snd].
    repeat split; assumption.
Qed.

Lemma refused_allocation_witness :
  fst (PyDataMem_NEW 16 (run [SetHook 77 5] (init_state garbage []))) = NULL /\
  events (snd (PyDataMem_NEW 16 (run [SetHook 77 5] (init_state garbage []))))
  = [Event NULL NULL 16 5] /\
  fst (npy_alloc_cache_zero 8 (run [SetHook 77 5] (init_state garbage [])))
  = NULL.
Proof.
  set (s := run [SetHook 77 5] (init_state garbage [])).
  assert (H : library_refuses s) by (left; reflexivity).
  pose proof (refused_allocation 16 1 1 8 s H) as ((R1 & _ & _ & R4) & _ & R).
  split; [exact R1|]. split; [rewrite R4; vm_compute; reflexivity|].
  apply R; [vm_compute; discriminate | reflexivity].
Defined.

(** ** Swapping the hook, repeating an alignment *)

Lemma set_hook_same s :
  set_hook (_PyDataMem_eventhook s) (_PyDataMem_eventhook_user_data s) s = s.
Proof. destruct s. reflexivity. Qed.

Lemma set_align_same a am s :
  datamem_align s = a -> datamem_align_mask s = am -> set_align a am s = s.
Proof. destruct s. cbn. intros -> ->. reflexivity. Qed.

(** X12: swapping the hook and swapping it back.  [PyDataMem_SetEventHook]
    returns the hook and the user data registered before and installs the
    new pair; calling it again with what it returned restores the state
    exactly and returns the pair installed in between. *)
Theorem hook_swap_round_trip (h ud : Z) (s : state) :
  let r := PyDataMem_SetEventHook h ud s in
  fst r = (_PyDataMem_eventhook s, _PyDataMem_eventhook_user_data s) /\
  _PyDataMem_eventhook (snd r) = h /\
  _PyDataMem_eventhook_user_data (snd r) = ud /\
  PyDataMem_SetEventHook (fst (fst r)) (snd (fst r)) (snd r) = ((h, ud), s).
Proof.
  cbv zeta. unfold PyDataMem_SetEventHook, bind, gets, modify, ret.
  cbn [fst snd]. repeat split. destruct s. reflexivity.
Qed.

(** X13: repeating or lowering the alignment.  Once an alignment is
    accepted, asking for it again returns 0 and changes nothing at all,
    also after a purge; and a request that does not raise the alignment
    leaves both caches, the memory, the library's blocks and the records
    of calls and events as they were. *)
Theorem set_align_repeat (align : Z) (s : state) :
  0 <= align < modulus -> is_power_of_two align -> MIN_ALIGN <= align ->
  let s1 := snd (npy_datamem_set_align align s) in
  npy_datamem_set_align align s1 = (0, s1) /\
  (align <= datamem_align s ->
   datacache s1 = datacache s /\ dimcache s1 = dimcache s /\
   mem s1 = mem s /\ blocks s1 = blocks s /\ calls s1 = calls s /\
   events s1 = events s).
Proof.
  intros Hr Hp Hm. cbv zeta. split.
  - destruct (set_align_accepts align s Hr Hp Hm) as (_ & Ea & Em).
    rewrite set_align_no_raise; [|assumption..|lia].
    rewrite set_align_same; [reflexivity | exact Ea | exact Em].
  - intros Hle. rewrite (set_align_no_raise align s Hr Hp Hm Hle).
    repeat split.
Qed.

Lemma set_align_repeat_witness :
  let s := run [AllocData 8; FreeData 4112 8] (init_state garbage [4096]) in
  npy_datamem_set_align 64 (snd (npy_datamem_set_align 64 s))
  = (0, snd (npy_datamem_set_align 64 s)) /\
  datacache (snd (npy_datamem_set_align 16 s)) = datacache s.
Proof.
  cbv zeta.
  set (s := run [AllocData 8; FreeData 4112 8] (init_state garbage [4096])).
  assert (R1 : 0 <= 64 < modulus) by (unfold modulus; lia).
  assert (P1 : is_power_of_two 64) by (exists 6; split; [lia | reflexivity]).
  assert (M1 : MIN_ALIGN <= 64) by (unfold MIN_ALIGN; lia).
  assert (R2 : 0 <= 16 < modulus) by (unfold modulus; lia).
  assert (P2 : is_power_of_two 16) by (exists 4; split; [lia | reflexivity]).
  assert (M2 : MIN_ALIGN <= 16) by (unfold MIN_ALIGN; lia).
  assert (L2 : 16 <= datamem_align s) by (vm_compute; discriminate).
  split.
  - exact (proj1 (set_align_repeat 64 s R1 P1 M1)).
  - exact (proj1 (proj2 (set_align_repeat 16 s R2 P2 M2) L2)).
Defined.

(** ** Resizing and zero filling, the sound cases *)



(** X15: a zeroed allocation that fits is zero filled.  When the product
    and its padding fit the word and the library answers a block,
    [PyDataMem_NEW_ZEROED] returns a non-NULL address whose
    [nelems * elsize] bytes are all zero: the header written below the
    address does not reach them. *)
Theorem zeroed_allocation_is_zero (nelems elsize : Z) (s : state)
  (base : Z) (rest : list Z) :
  align_ok s -> 0 <= nelems * elsize ->
  nelems * elsize + sizeof_ptr + (datamem_align s - 1) < modulus ->
  script s = base :: rest -> 0 < base ->
  base + (nelems * elsize + sizeof_ptr + (datamem_align s - 1)) < modulus ->
  fst (PyDataMem_NEW_ZEROED nelems elsize s) <> NULL /\
  forall i, 0 <= i < nelems * elsize ->
    mem (snd (PyDataMem_NEW_ZEROED nelems elsize s))
      (fst (PyDataMem_NEW_ZEROED nelems elsize s) + i) = 0.
Proof. exact (NEW_ZEROED_zero_filled nelems elsize s base rest). Qed.

Lemma zeroed_allocation_is_zero_witness :
  fst (PyDataMem_NEW_ZEROED 4 4 (init_state garbage [4096])) <> NULL /\
  forall i, 0 <= i < 4 * 4 ->
    mem (snd (PyDataMem_NEW_ZEROED 4 4 (init_state garbage [4096])))
      (fst (PyDataMem_NEW_ZEROED 4 4 (init_state garbage [4096])) + i) = 0.
Proof.
  set (s := init_state garbage [4096]).
  assert (H1 : align_ok s).
  { split; [exists 4; split; [lia | reflexivity]|].
    split; [vm_compute; split; [discriminate | reflexivity] | reflexivity]. }
  exact (zeroed_allocation_is_zero 4 4 s 4096 [] H1 ltac:(lia)
           ltac:(vm_compute; reflexivity) eq_refl ltac:(lia)
           ltac:(vm_compute; reflexivity)).
Defined.
